(** * Worker productivity dashboard: event ingestion and metrics engine

    A shallow embedding of the backend of the dashboard
    ([app/models.py], [app/schemas.py], [app/config.py],
    [app/routes/events.py], [app/services/metrics.py],
    [app/routes/metrics.py]) and the properties of its ingestion path and
    metrics engine.

    Conventions of the embedding:
    - a [datetime] is an integer instant ([Z]); [Optional[datetime]] is
      [option Z] (a [datetime] is always truthy, so [if start_time:] tests
      for [None] only);
    - a Python [int] is a [Z]; a Python [float] is modelled by the exact
      rational it approximates ([Q]), and [round(x, 2)] by rounding to the
      nearest hundredth, ties to even, delivered in lowest terms.  Integers,
      zeros, comparisons and bounds carry over to binary floating point as
      they are; a quotient that is rounded to two decimals is characterised
      up to the precision of the output, so that the statement does not
      depend on how a tie is broken;
    - the three tables are lists of rows in insertion order;
    - exceptions are explicit: a computation that can raise returns a
      [result];
    - each model class and schema lives in a module of its own name, so
      that [Event.timestamp e] reads like the attribute it stands for. *)

From Stdlib Require Import ZArith QArith Qround Qreduction Qcanon Qabs Lqa.
From stdpp Require Import base list strings gmap sets sorting.

Local Open Scope string_scope.
Local Open Scope list_scope.
Local Open Scope Z_scope.

(** ** Exceptions *)

Inductive PyExn : Type :=
  | ZeroDivisionError
  | IntegrityError
  | OverflowError
  | HTTPException (status_code : Z) (detail : string).

Inductive result (A : Type) : Type :=
  | Ok (a : A)
  | Raise (e : PyExn).
Arguments Ok {A} a.
Arguments Raise {A} e.

#[global] Instance result_bind : MBind result := λ A B k m,
  match m with
  | Ok a => k a
  | Raise e => Raise e
  end.
#[global] Instance result_ret : MRet result := λ A a, Ok a.

(** ** Configuration ([app/config.py]) *)

Definition EVENT_DURATION_MINUTES : Z := 5.

(** ** Tables ([app/models.py]) *)

Module Worker.
Record t := mk {
  worker_id : string;
  name : string
}.
End Worker.

Module Workstation.
Record t := mk {
  station_id : string;
  name : string;
  station_type : option string
}.
End Workstation.

(** A row of the [events] table.  The surrogate key [id] is not read by
    any function modelled here and is left out. *)
Module Event.
Record t := mk {
  timestamp : Z;
  worker_id : string;
  workstation_id : string;
  event_type : string;
  confidence : Q;
  count : option Z;
  received_at : Z
}.
End Event.

(** The columns of the unique constraint [uq_event_dedup]. *)
Definition dedup_key (e : Event.t) : Z * string * string * string :=
  (Event.timestamp e, Event.worker_id e, Event.workstation_id e,
   Event.event_type e).

Record Database := mkDatabase {
  workers : list Worker.t;
  workstations : list Workstation.t;
  events : list Event.t
}.

(** ** Schemas ([app/schemas.py]) *)

Module EventCreate.
Record t := mk {
  timestamp : Z;
  worker_id : string;
  workstation_id : string;
  event_type : string;
  confidence : Q;
  count : option Z
}.
End EventCreate.

Definition allowed_types : list string :=
  ["working"; "idle"; "absent"; "product_count"].

(** [EventCreate.validate_event_type] *)
Definition validate_event_type (v : string) : option string :=
  if decide (v ∈ allowed_types) then Some v else None.

(** What the request schema accepts: an allowed [event_type]
    ([validate_event_type]), [confidence] in [[0, 1]] ([ge=0.0, le=1.0]) and
    a [count] that is missing or non-negative ([ge=0]).  A request that
    fails this is answered by the framework before a handler runs. *)
Definition well_formed (event : EventCreate.t) : Prop :=
  is_Some (validate_event_type (EventCreate.event_type event)) ∧
  (0 <= EventCreate.confidence event)%Q ∧
  (EventCreate.confidence event <= 1)%Q ∧
  from_option (λ n, 0 ≤ n) True (EventCreate.count event).

Module EventIngestionResult.
Record t := mk {
  total_received : Z;
  successfully_stored : Z;
  duplicates_skipped : Z;
  errors : list string
}.
End EventIngestionResult.

Module WorkerMetrics.
Record t := mk {
  worker_id : string;
  worker_name : string;
  total_active_time_minutes : Q;
  total_idle_time_minutes : Q;
  total_absent_time_minutes : Q;
  utilization_percentage : Q;
  total_units_produced : Z;
  units_per_hour : Q;
  event_count : Z
}.
End WorkerMetrics.

Module WorkstationMetrics.
Record t := mk {
  station_id : string;
  station_name : string;
  station_type : option string;
  occupancy_time_minutes : Q;
  working_time_minutes : Q;
  idle_time_minutes : Q;
  utilization_percentage : Q;
  total_units_produced : Z;
  throughput_rate : Q;
  event_count : Z
}.
End WorkstationMetrics.

Module FactoryMetrics.
Record t := mk {
  total_productive_time_minutes : Q;
  total_idle_time_minutes : Q;
  total_production_count : Z;
  average_production_rate : Q;
  average_worker_utilization : Q;
  average_workstation_utilization : Q;
  total_events : Z;
  active_workers : Z;
  active_workstations : Z
}.
End FactoryMetrics.

(** ** The ORM session

    A session opened by [get_db] ([autocommit=False], [autoflush=False])
    over the committed database.  [session_new] holds the objects passed to
    [db.add] and not yet flushed; [session_flushed] holds the rows INSERTed
    inside the open transaction.  A flush INSERTs the new objects in order.
    The parameters of an INSERT are bound before the statement runs: an
    [Integer] column holds a signed 64-bit value, and binding a [count]
    outside that range raises [OverflowError].  The statement itself raises
    [IntegrityError] when the row collides with the unique constraint
    [uq_event_dedup].  After either error the session accepts nothing but a
    rollback.  [rollback] is the session-level
    [Session.rollback()], not a savepoint: it ends the open transaction and
    discards every row INSERTed since the last commit, together with the
    objects still waiting.  [commit] flushes and makes the rows of the
    transaction durable. *)

Record Session := mkSession {
  committed : Database;
  session_new : list Event.t;
  session_flushed : list Event.t
}.

Definition open_session (db : Database) : Session :=
  {| committed := db; session_new := []; session_flushed := [] |}.

Definition add (e : Event.t) (s : Session) : Session :=
  {| committed := committed s;
     session_new := session_new s ++ [e];
     session_flushed := session_flushed s |}.

(** The values an [Integer] column can hold. *)
Definition fits_int64 (n : Z) : Prop := - 2 ^ 63 ≤ n < 2 ^ 63.

(** The [count] of the row can be bound ([None] is bound as NULL). *)
Definition bindable (e : Event.t) : Prop :=
  from_option fits_int64 True (Event.count e).

#[global] Instance bindable_dec e : Decision (bindable e).
Proof. unfold bindable, fits_int64. destruct (Event.count e); simpl; apply _. Defined.

Fixpoint insert_rows (table flushed new : list Event.t)
  : result (list Event.t) :=
  match new with
  | [] => Ok flushed
  | e :: new' =>
      if decide (bindable e) then
        if decide (dedup_key e ∈ dedup_key <$> (table ++ flushed))
        then Raise IntegrityError
        else insert_rows table (flushed ++ [e]) new'
      else Raise OverflowError
  end.

Definition flush (s : Session) : result unit * Session :=
  match insert_rows (events (committed s)) (session_flushed s) (session_new s) with
  | Ok fl =>
      (Ok (), {| committed := committed s; session_new := [];
                 session_flushed := fl |})
  | Raise e => (Raise e, s)
  end.

Definition rollback (s : Session) : Session :=
  {| committed := committed s; session_new := []; session_flushed := [] |}.

Definition commit (s : Session) : result unit * Session :=
  match flush s with
  | (Ok _, s') =>
      (Ok (),
       {| committed :=
            {| workers := workers (committed s');
               workstations := workstations (committed s');
               events := events (committed s') ++ session_flushed s' |};
          session_new := []; session_flushed := [] |})
  | (Raise e, s') => (Raise e, s')
  end.

(** ** Event ingestion ([app/routes/events.py]) *)

(** [x or 0] on an [Optional[int]]. *)
Definition or0 (c : option Z) : Z :=
  match c with
  | Some n => n
  | None => 0
  end.

(** The row built by both ingestion handlers:
    [Event(timestamp=event.timestamp, ..., count=event.count or 0,
    received_at=datetime.utcnow())]. *)
Definition make_event (event : EventCreate.t) (now : Z) : Event.t :=
  {| Event.timestamp := EventCreate.timestamp event;
     Event.worker_id := EventCreate.worker_id event;
     Event.workstation_id := EventCreate.workstation_id event;
     Event.event_type := EventCreate.event_type event;
     Event.confidence := EventCreate.confidence event;
     Event.count := Some (or0 (EventCreate.count event));
     Event.received_at := now |}.

(** The deduplication key a submitted observation will be stored under. *)
Definition create_key (event : EventCreate.t) : Z * string * string * string :=
  (EventCreate.timestamp event, EventCreate.worker_id event,
   EventCreate.workstation_id event, EventCreate.event_type event).

(** [db.query(Worker).filter(Worker.worker_id == wid).first()] *)
Definition first_worker (wid : string) (db : Database) : option Worker.t :=
  head (filter (λ w, Worker.worker_id w = wid) (workers db)).

Definition first_workstation (sid : string) (db : Database)
  : option Workstation.t :=
  head (filter (λ s, Workstation.station_id s = sid) (workstations db)).

(** [ingest_event]: the response (the stored row, the HTTP error, or the
    exception that no handler catches) and the database the request leaves
    behind.  [except IntegrityError] catches the conflict only; any other
    exception of the commit leaves the handler, and [get_db] closes the
    session without a commit. *)
Definition ingest_event (now : Z) (event : EventCreate.t) (db : Database)
  : result Event.t * Database :=
  match first_worker (EventCreate.worker_id event) db with
  | None =>
      (Raise (HTTPException 400
                ("Worker '" +:+ EventCreate.worker_id event +:+ "' not found")),
       db)
  | Some _ =>
      match first_workstation (EventCreate.workstation_id event) db with
      | None =>
          (Raise (HTTPException 400
                    ("Workstation '" +:+ EventCreate.workstation_id event
                     +:+ "' not found")),
           db)
      | Some _ =>
          let db_event := make_event event now in
          match commit (add db_event (open_session db)) with
          | (Ok _, s') => (Ok db_event, committed s')
          | (Raise IntegrityError, s') =>
              (Raise (HTTPException 409
                 "Duplicate event detected (same timestamp, worker, workstation, event_type)"),
               committed (rollback s'))
          | (Raise e, s') => (Raise e, committed s')
          end
      end
  end.

(** Loop state of [ingest_events_batch]: the session, the counters, the
    diagnostics, and how many times the clock has been read. *)
Record BatchState := mkBatchState {
  bs_session : Session;
  bs_stored : Z;
  bs_duplicates : Z;
  bs_errors : list string;
  bs_ticks : nat
}.

(** One iteration of [for event in batch.events].  [utcnow n] is the
    reading of the [n]-th call to [datetime.utcnow()] of the request.  The
    [try] catches [IntegrityError] only: any other exception of the flush
    ends the loop. *)
Definition batch_step (valid_workers valid_stations : gset string)
    (utcnow : nat → Z) (st : BatchState) (event : EventCreate.t)
  : result BatchState :=
  if decide (EventCreate.worker_id event ∉ valid_workers) then
   Ok
    {| bs_session := bs_session st; bs_stored := bs_stored st;
       bs_duplicates := bs_duplicates st;
       bs_errors := bs_errors st ++
                    ["Unknown worker_id: " +:+ EventCreate.worker_id event];
       bs_ticks := bs_ticks st |}
  else if decide (EventCreate.workstation_id event ∉ valid_stations) then
   Ok
    {| bs_session := bs_session st; bs_stored := bs_stored st;
       bs_duplicates := bs_duplicates st;
       bs_errors := bs_errors st ++
                    ["Unknown workstation_id: " +:+ EventCreate.workstation_id event];
       bs_ticks := bs_ticks st |}
  else
    let db_event := make_event event (utcnow (bs_ticks st)) in
    match flush (add db_event (bs_session st)) with
    | (Ok _, s') =>
       Ok
        {| bs_session := s'; bs_stored := bs_stored st + 1;
           bs_duplicates := bs_duplicates st; bs_errors := bs_errors st;
           bs_ticks := S (bs_ticks st) |}
    | (Raise IntegrityError, s') =>
       Ok
        {| bs_session := rollback s'; bs_stored := bs_stored st;
           bs_duplicates := bs_duplicates st + 1; bs_errors := bs_errors st;
           bs_ticks := S (bs_ticks st) |}
    | (Raise e, _) => Raise e
    end.

(** [for event in events: ...]: the iterations in order, up to the first
    one that raises. *)
Fixpoint batch_for (step : BatchState → EventCreate.t → result BatchState)
    (st : BatchState) (events : list EventCreate.t) : result BatchState :=
  match events with
  | [] => Ok st
  | event :: rest => st' ← step st event; batch_for step st' rest
  end.

Definition valid_worker_ids (db : Database) : gset string :=
  list_to_set (Worker.worker_id <$> workers db).

Definition valid_station_ids (db : Database) : gset string :=
  list_to_set (Workstation.station_id <$> workstations db).

(** The loop of [ingest_events_batch], from its initial state. *)
Definition batch_loop (utcnow : nat → Z) (batch : list EventCreate.t)
    (db : Database) : result BatchState :=
  batch_for (batch_step (valid_worker_ids db) (valid_station_ids db) utcnow)
    {| bs_session := open_session db; bs_stored := 0; bs_duplicates := 0;
       bs_errors := []; bs_ticks := 0 |}
    batch.

(** [ingest_events_batch]: the summary returned to the caller and the
    database after the final [db.commit()].  When the loop ends with an
    exception the commit is never reached, and the database is what it was
    before the request. *)
Definition ingest_events_batch (utcnow : nat → Z) (batch : list EventCreate.t)
    (db : Database) : result EventIngestionResult.t * Database :=
  let total := Z.of_nat (length batch) in
  match batch_loop utcnow batch db with
  | Ok st =>
      match commit (bs_session st) with
      | (Ok _, s') =>
          (Ok {| EventIngestionResult.total_received := total;
                 EventIngestionResult.successfully_stored := bs_stored st;
                 EventIngestionResult.duplicates_skipped := bs_duplicates st;
                 EventIngestionResult.errors := take 10 (bs_errors st) |},
           committed s')
      | (Raise e, s') => (Raise e, committed s')
      end
  | Raise e => (Raise e, db)
  end.

(** ** Metrics engine ([app/services/metrics.py]) *)

(** [a / b] on numbers: raises on a zero divisor. *)
Definition truediv (a b : Q) : result Q :=
  if Qeq_bool b 0 then Raise ZeroDivisionError else Ok (a / b)%Q.

(** Nearest integer, ties to the even neighbour. *)
Definition round_half_even (x : Q) : Z :=
  let f := Qfloor x in
  match (x - inject_Z f ?= 1 # 2)%Q with
  | Lt => f
  | Gt => f + 1
  | Eq => if Z.even f then f else f + 1
  end.

(** [round(x, 2)] *)
Definition round2 (x : Q) : Q :=
  Qred (inject_Z (round_half_even (x * 100)) / 100).

(** [sum(...)] over integers and over floats: starts from [0] and adds
    from the left. *)
Definition sumZ (l : list Z) : Z := foldl Z.add 0 l.
Definition sumQ (l : list Q) : Q := foldl Qplus 0%Q l.

(** [len(...)] *)
Definition len {A} (l : list A) : Z := Z.of_nat (length l).

(** The two optional filters every metrics query applies:
    [if start_time: q = q.filter(Event.timestamp >= start_time)] and
    [if end_time: q = q.filter(Event.timestamp <= end_time)]. *)
Definition time_filters (start_time end_time : option Z)
    (q : list Event.t) : list Event.t :=
  let q := match start_time with
           | Some s => filter (λ e, s ≤ Event.timestamp e) q
           | None => q
           end in
  match end_time with
  | Some t => filter (λ e, Event.timestamp e ≤ t) q
  | None => q
  end.

(** [sum(1 for e in events if e.event_type == ty)] *)
Definition count_type (ty : string) (evs : list Event.t) : Z :=
  len (filter (λ e, Event.event_type e = ty) evs).

(** [sum(e.count or 0 for e in events if e.event_type == 'product_count')] *)
Definition units_of (evs : list Event.t) : Z :=
  sumZ ((λ e, or0 (Event.count e)) <$>
        filter (λ e, Event.event_type e = "product_count") evs).

(** [db.query(Event).filter(Event.worker_id == wid)] with the time
    filters. *)
Definition worker_events (db : Database) (start_time end_time : option Z)
    (wid : string) : list Event.t :=
  time_filters start_time end_time
    (filter (λ e, Event.worker_id e = wid) (events db)).

(** The body of the loop [for worker in workers] of
    [compute_worker_metrics]. *)
Definition worker_row (db : Database) (start_time end_time : option Z)
    (worker : Worker.t) : result WorkerMetrics.t :=
  let evs := worker_events db start_time end_time (Worker.worker_id worker) in
  let working_count := count_type "working" evs in
  let idle_count := count_type "idle" evs in
  let absent_count := count_type "absent" evs in
  let total_units := units_of evs in
  let active_time := working_count * EVENT_DURATION_MINUTES in
  let idle_time := idle_count * EVENT_DURATION_MINUTES in
  let absent_time := absent_count * EVENT_DURATION_MINUTES in
  let total_present_time := active_time + idle_time in
  utilization ←
    (if decide (0 < total_present_time)
     then x ← truediv (inject_Z active_time) (inject_Z total_present_time);
          mret (x * 100)%Q
     else mret 0%Q);
  active_hours ←
    (if decide (0 < active_time)
     then truediv (inject_Z active_time) 60
     else mret 0%Q);
  units_per_hour ←
    (if Qlt_le_dec 0 active_hours
     then truediv (inject_Z total_units) active_hours
     else mret 0%Q);
  mret {| WorkerMetrics.worker_id := Worker.worker_id worker;
          WorkerMetrics.worker_name := Worker.name worker;
          WorkerMetrics.total_active_time_minutes := round2 (inject_Z active_time);
          WorkerMetrics.total_idle_time_minutes := round2 (inject_Z idle_time);
          WorkerMetrics.total_absent_time_minutes := round2 (inject_Z absent_time);
          WorkerMetrics.utilization_percentage := round2 utilization;
          WorkerMetrics.total_units_produced := total_units;
          WorkerMetrics.units_per_hour := round2 units_per_hour;
          WorkerMetrics.event_count := len evs |}.

(** [if worker_id:] holds for a string that is neither [None] nor empty. *)
Definition truthy (s : option string) : option string :=
  match s with
  | Some x => if decide (x = "") then None else Some x
  | None => None
  end.

(** [workers_query.all()]: every worker, or the ones with the requested
    identifier. *)
Definition select_workers (db : Database) (worker_id : option string)
  : list Worker.t :=
  match truthy worker_id with
  | Some wid => filter (λ w, Worker.worker_id w = wid) (workers db)
  | None => workers db
  end.

Definition compute_worker_metrics (db : Database) (worker_id : option string)
    (start_time end_time : option Z) : result (list WorkerMetrics.t) :=
  mapM (worker_row db start_time end_time) (select_workers db worker_id).

Definition station_events (db : Database) (start_time end_time : option Z)
    (sid : string) : list Event.t :=
  time_filters start_time end_time
    (filter (λ e, Event.workstation_id e = sid) (events db)).

(** The body of the loop [for station in stations] of
    [compute_workstation_metrics]. *)
Definition station_row (db : Database) (start_time end_time : option Z)
    (station : Workstation.t) : result WorkstationMetrics.t :=
  let evs := station_events db start_time end_time (Workstation.station_id station) in
  let working_count := count_type "working" evs in
  let idle_count := count_type "idle" evs in
  let total_units := units_of evs in
  let working_time := working_count * EVENT_DURATION_MINUTES in
  let idle_time := idle_count * EVENT_DURATION_MINUTES in
  let occupancy_time := working_time + idle_time in
  utilization ←
    (if decide (0 < occupancy_time)
     then x ← truediv (inject_Z working_time) (inject_Z occupancy_time);
          mret (x * 100)%Q
     else mret 0%Q);
  occupancy_hours ←
    (if decide (0 < occupancy_time)
     then truediv (inject_Z occupancy_time) 60
     else mret 0%Q);
  throughput_rate ←
    (if Qlt_le_dec 0 occupancy_hours
     then truediv (inject_Z total_units) occupancy_hours
     else mret 0%Q);
  mret {| WorkstationMetrics.station_id := Workstation.station_id station;
          WorkstationMetrics.station_name := Workstation.name station;
          WorkstationMetrics.station_type := Workstation.station_type station;
          WorkstationMetrics.occupancy_time_minutes := round2 (inject_Z occupancy_time);
          WorkstationMetrics.working_time_minutes := round2 (inject_Z working_time);
          WorkstationMetrics.idle_time_minutes := round2 (inject_Z idle_time);
          WorkstationMetrics.utilization_percentage := round2 utilization;
          WorkstationMetrics.total_units_produced := total_units;
          WorkstationMetrics.throughput_rate := round2 throughput_rate;
          WorkstationMetrics.event_count := len evs |}.

Definition select_stations (db : Database) (station_id : option string)
  : list Workstation.t :=
  match truthy station_id with
  | Some sid => filter (λ s, Workstation.station_id s = sid) (workstations db)
  | None => workstations db
  end.

Definition compute_workstation_metrics (db : Database)
    (station_id : option string) (start_time end_time : option Z)
  : result (list WorkstationMetrics.t) :=
  mapM (station_row db start_time end_time) (select_stations db station_id).

(** [sum(xs) / len(xs) if xs else 0.0] *)
Definition average (xs : list Q) : result Q :=
  match xs with
  | [] => mret 0%Q
  | _ :: _ => truediv (sumQ xs) (inject_Z (len xs))
  end.

Definition compute_factory_metrics (db : Database)
    (start_time end_time : option Z) : result FactoryMetrics.t :=
  let evs := time_filters start_time end_time (events db) in
  let working_count := count_type "working" evs in
  let idle_count := count_type "idle" evs in
  let total_production := units_of evs in
  let total_productive_time := working_count * EVENT_DURATION_MINUTES in
  let total_idle_time := idle_count * EVENT_DURATION_MINUTES in
  productive_hours ←
    (if decide (0 < total_productive_time)
     then truediv (inject_Z total_productive_time) 60
     else mret 0%Q);
  avg_production_rate ←
    (if Qlt_le_dec 0 productive_hours
     then truediv (inject_Z total_production) productive_hours
     else mret 0%Q);
  worker_metrics ← compute_worker_metrics db None start_time end_time;
  station_metrics ← compute_workstation_metrics db None start_time end_time;
  let active_workers :=
    filter (λ w, 0 < WorkerMetrics.event_count w) worker_metrics in
  let active_stations :=
    filter (λ s, 0 < WorkstationMetrics.event_count s) station_metrics in
  avg_worker_util ←
    average (WorkerMetrics.utilization_percentage <$> active_workers);
  avg_station_util ←
    average (WorkstationMetrics.utilization_percentage <$> active_stations);
  mret {| FactoryMetrics.total_productive_time_minutes :=
            round2 (inject_Z total_productive_time);
          FactoryMetrics.total_idle_time_minutes := round2 (inject_Z total_idle_time);
          FactoryMetrics.total_production_count := total_production;
          FactoryMetrics.average_production_rate := round2 avg_production_rate;
          FactoryMetrics.average_worker_utilization := round2 avg_worker_util;
          FactoryMetrics.average_workstation_utilization := round2 avg_station_util;
          FactoryMetrics.total_events := len evs;
          FactoryMetrics.active_workers := len active_workers;
          FactoryMetrics.active_workstations := len active_stations |}.

(** ** Metrics routes ([app/routes/metrics.py]) *)

(** The record [get_worker_metrics] answers with when the query finds no
    worker. *)
Definition unknown_worker_metrics (worker_id : string) : WorkerMetrics.t :=
  {| WorkerMetrics.worker_id := worker_id;
     WorkerMetrics.worker_name := "Unknown";
     WorkerMetrics.total_active_time_minutes := 0;
     WorkerMetrics.total_idle_time_minutes := 0;
     WorkerMetrics.total_absent_time_minutes := 0;
     WorkerMetrics.utilization_percentage := 0;
     WorkerMetrics.total_units_produced := 0;
     WorkerMetrics.units_per_hour := 0;
     WorkerMetrics.event_count := 0 |}.

Definition get_worker_metrics (db : Database) (worker_id : string)
    (start_time end_time : option Z) : result WorkerMetrics.t :=
  metrics ← compute_worker_metrics db (Some worker_id) start_time end_time;
  match metrics with
  | [] => mret (unknown_worker_metrics worker_id)
  | m :: _ => mret m
  end.

Definition unknown_workstation_metrics (station_id : string)
  : WorkstationMetrics.t :=
  {| WorkstationMetrics.station_id := station_id;
     WorkstationMetrics.station_name := "Unknown";
     WorkstationMetrics.station_type := None;
     WorkstationMetrics.occupancy_time_minutes := 0;
     WorkstationMetrics.working_time_minutes := 0;
     WorkstationMetrics.idle_time_minutes := 0;
     WorkstationMetrics.utilization_percentage := 0;
     WorkstationMetrics.total_units_produced := 0;
     WorkstationMetrics.throughput_rate := 0;
     WorkstationMetrics.event_count := 0 |}.

Definition get_workstation_metrics (db : Database) (station_id : string)
    (start_time end_time : option Z) : result WorkstationMetrics.t :=
  metrics ← compute_workstation_metrics db (Some station_id) start_time end_time;
  match metrics with
  | [] => mret (unknown_workstation_metrics station_id)
  | m :: _ => mret m
  end.

(** * The rest of the backend

    The listing and count routes, worker and workstation registration and
    lookup, seeding, reset and the dashboard.  Left out: [delete_worker] and
    [delete_workstation], whose effect on the events of the deleted row is
    decided by the ORM's relationship cascade, and [generate_dummy_events],
    which draws from [random]. *)

(** ** Event listing ([app/routes/events.py]) *)

(** The filters [list_events] and [count_events] apply, in the order of the
    code; [if worker_id:] skips a filter that is [None] or empty. *)
Definition event_filters (worker_id workstation_id event_type : option string)
    (start_time end_time : option Z) (q : list Event.t) : list Event.t :=
  let q := match truthy worker_id with
           | Some w => filter (λ e, Event.worker_id e = w) q
           | None => q
           end in
  let q := match truthy workstation_id with
           | Some s => filter (λ e, Event.workstation_id e = s) q
           | None => q
           end in
  let q := match truthy event_type with
           | Some ty => filter (λ e, Event.event_type e = ty) q
           | None => q
           end in
  time_filters start_time end_time q.

(** [query.order_by(Event.timestamp.desc())].  The engine leaves the order
    of rows with equal timestamps open; here they keep the order a merge
    sort gives them. *)
Definition newer_first (a b : Event.t) : Prop :=
  Event.timestamp b ≤ Event.timestamp a.

#[global] Instance newer_first_dec a b : Decision (newer_first a b) :=
  decide (Event.timestamp b ≤ Event.timestamp a).

Definition order_by_timestamp_desc (q : list Event.t) : list Event.t :=
  merge_sort newer_first q.

(** [list_events]; the request layer admits [1 <= limit <= 1000] and
    [offset >= 0] only. *)
Definition list_events (worker_id workstation_id event_type : option string)
    (start_time end_time : option Z) (limit offset : nat) (db : Database)
  : list Event.t :=
  take limit
    (drop offset
       (order_by_timestamp_desc
          (event_filters worker_id workstation_id event_type
             start_time end_time (events db)))).

(** [count_events]: the number under the key ["count"]. *)
Definition count_events (worker_id workstation_id event_type : option string)
    (start_time end_time : option Z) (db : Database) : Z :=
  len (event_filters worker_id workstation_id event_type
         start_time end_time (events db)).

(** ** Worker and workstation registration
    ([app/routes/workers.py], [app/routes/workstations.py])

    The request schemas [WorkerCreate] and [WorkstationCreate] have the
    fields of the rows, so a request is written as a row. *)

Definition list_workers (db : Database) : list Worker.t := workers db.

Definition get_worker (worker_id : string) (db : Database) : result Worker.t :=
  match first_worker worker_id db with
  | Some worker => Ok worker
  | None => Raise (HTTPException 404 ("Worker '" +:+ worker_id +:+ "' not found"))
  end.

(** INSERT into [workers]; the column [worker_id] is [unique=True]. *)
Definition insert_worker (w : Worker.t) (db : Database) : result Database :=
  if decide (Worker.worker_id w ∈ Worker.worker_id <$> workers db)
  then Raise IntegrityError
  else Ok {| workers := workers db ++ [w];
             workstations := workstations db;
             events := events db |}.

Definition create_worker (worker : Worker.t) (db : Database)
  : result Worker.t * Database :=
  match first_worker (Worker.worker_id worker) db with
  | Some _ =>
      (Raise (HTTPException 409
                ("Worker '" +:+ Worker.worker_id worker +:+ "' already exists")),
       db)
  | None =>
      match insert_worker worker db with
      | Ok db' => (Ok worker, db')
      | Raise e => (Raise e, db)
      end
  end.

Definition list_workstations (db : Database) : list Workstation.t :=
  workstations db.

Definition get_workstation (station_id : string) (db : Database)
  : result Workstation.t :=
  match first_workstation station_id db with
  | Some station => Ok station
  | None =>
      Raise (HTTPException 404 ("Workstation '" +:+ station_id +:+ "' not found"))
  end.

(** INSERT into [workstations]; the column [station_id] is [unique=True]. *)
Definition insert_workstation (s : Workstation.t) (db : Database)
  : result Database :=
  if decide (Workstation.station_id s ∈ Workstation.station_id <$> workstations db)
  then Raise IntegrityError
  else Ok {| workers := workers db;
             workstations := workstations db ++ [s];
             events := events db |}.

Definition create_workstation (station : Workstation.t) (db : Database)
  : result Workstation.t * Database :=
  match first_workstation (Workstation.station_id station) db with
  | Some _ =>
      (Raise (HTTPException 409
                ("Workstation '" +:+ Workstation.station_id station
                 +:+ "' already exists")),
       db)
  | None =>
      match insert_workstation station db with
      | Ok db' => (Ok station, db')
      | Raise e => (Raise e, db)
      end
  end.

(** ** Seeding and reset ([app/services/data_generator.py]) *)

Definition SAMPLE_WORKERS : list Worker.t :=
  [Worker.mk "W1" "John Martinez"; Worker.mk "W2" "Sarah Chen";
   Worker.mk "W3" "Michael Johnson"; Worker.mk "W4" "Emily Davis";
   Worker.mk "W5" "Robert Kim"; Worker.mk "W6" "Lisa Thompson"].

Definition SAMPLE_WORKSTATIONS : list Workstation.t :=
  [Workstation.mk "S1" "Assembly Line A" (Some "Assembly");
   Workstation.mk "S2" "Assembly Line B" (Some "Assembly");
   Workstation.mk "S3" "Quality Control 1" (Some "Quality Check");
   Workstation.mk "S4" "Quality Control 2" (Some "Quality Check");
   Workstation.mk "S5" "Packaging Station" (Some "Packaging");
   Workstation.mk "S6" "Final Inspection" (Some "Inspection")].

(** One iteration of [for worker_data in SAMPLE_WORKERS]: the objects
    added so far and [workers_created].  The session does not autoflush,
    so the existence query reads the committed table. *)
Definition seed_worker_step (db : Database) (st : list Worker.t * Z)
    (worker_data : Worker.t) : list Worker.t * Z :=
  match first_worker (Worker.worker_id worker_data) db with
  | Some _ => st
  | None => (st.1 ++ [worker_data], st.2 + 1)
  end.

Definition seed_workstation_step (db : Database) (st : list Workstation.t * Z)
    (station_data : Workstation.t) : list Workstation.t * Z :=
  match first_workstation (Workstation.station_id station_data) db with
  | Some _ => st
  | None => (st.1 ++ [station_data], st.2 + 1)
  end.

(** The INSERTs of the final [db.commit()], in the order of the [add]s. *)
Fixpoint insert_workers (ws : list Worker.t) (db : Database) : result Database :=
  match ws with
  | [] => Ok db
  | w :: ws' => db' ← insert_worker w db; insert_workers ws' db'
  end.

Fixpoint insert_workstations (ss : list Workstation.t) (db : Database)
  : result Database :=
  match ss with
  | [] => Ok db
  | s :: ss' => db' ← insert_workstation s db; insert_workstations ss' db'
  end.

(** [seed_sample_data]: [(workers_created, workstations_created)] and the
    database after the commit. *)
Definition seed_sample_data (db : Database) : result (Z * Z) * Database :=
  let '(new_workers, workers_created) :=
    foldl (seed_worker_step db) ([], 0) SAMPLE_WORKERS in
  let '(new_stations, workstations_created) :=
    foldl (seed_workstation_step db) ([], 0) SAMPLE_WORKSTATIONS in
  match db1 ← insert_workers new_workers db; insert_workstations new_stations db1 with
  | Ok db' => (Ok (workers_created, workstations_created), db')
  | Raise e => (Raise e, db)
  end.

(** [clear_all_events]: the number of deleted rows and the database
    without events. *)
Definition clear_all_events (db : Database) : Z * Database :=
  (len (events db),
   {| workers := workers db; workstations := workstations db; events := [] |}).

(** ** Dashboard ([app/services/metrics.py], [app/schemas.py]) *)

Module DashboardSummary.
Record t := mk {
  factory_metrics : FactoryMetrics.t;
  worker_metrics : list WorkerMetrics.t;
  workstation_metrics : list WorkstationMetrics.t;
  last_updated : Z
}.
End DashboardSummary.

Definition get_dashboard_summary (db : Database)
    (start_time end_time : option Z) (now : Z) : result DashboardSummary.t :=
  fm ← compute_factory_metrics db start_time end_time;
  wms ← compute_worker_metrics db None start_time end_time;
  sms ← compute_workstation_metrics db None start_time end_time;
  mret {| DashboardSummary.factory_metrics := fm;
          DashboardSummary.worker_metrics := wms;
          DashboardSummary.workstation_metrics := sms;
          DashboardSummary.last_updated := now |}.

(** * Closed forms and reference notions *)

(** ** Values of the metrics functions *)

(** [100 * part / whole], or [0] when [whole] is not positive; before
    rounding. *)
Definition percentage (part whole : Z) : Q :=
  if decide (0 < whole) then (inject_Z part / inject_Z whole * 100)%Q else 0%Q.

(** [units / (minutes / 60)], or [0] when [minutes] is not positive; before
    rounding. *)
Definition hourly_rate (units minutes : Z) : Q :=
  if decide (0 < minutes) then (inject_Z units / (inject_Z minutes / 60))%Q
  else 0%Q.

(** The row [worker_row] appends to [results], written with the total
    division of [Q] under the same guards ([worker_row_eq] below). *)
Definition worker_row_value (db : Database) (start_time end_time : option Z)
    (w : Worker.t) : WorkerMetrics.t :=
  let evs := worker_events db start_time end_time (Worker.worker_id w) in
  let active := count_type "working" evs * EVENT_DURATION_MINUTES in
  let idle := count_type "idle" evs * EVENT_DURATION_MINUTES in
  let absent := count_type "absent" evs * EVENT_DURATION_MINUTES in
  {| WorkerMetrics.worker_id := Worker.worker_id w;
     WorkerMetrics.worker_name := Worker.name w;
     WorkerMetrics.total_active_time_minutes := round2 (inject_Z active);
     WorkerMetrics.total_idle_time_minutes := round2 (inject_Z idle);
     WorkerMetrics.total_absent_time_minutes := round2 (inject_Z absent);
     WorkerMetrics.utilization_percentage :=
       round2 (percentage active (active + idle));
     WorkerMetrics.total_units_produced := units_of evs;
     WorkerMetrics.units_per_hour := round2 (hourly_rate (units_of evs) active);
     WorkerMetrics.event_count := len evs |}.

(** The row [station_row] appends to [results] ([station_row_eq]). *)
Definition station_row_value (db : Database) (start_time end_time : option Z)
    (s : Workstation.t) : WorkstationMetrics.t :=
  let evs := station_events db start_time end_time (Workstation.station_id s) in
  let working := count_type "working" evs * EVENT_DURATION_MINUTES in
  let idle := count_type "idle" evs * EVENT_DURATION_MINUTES in
  {| WorkstationMetrics.station_id := Workstation.station_id s;
     WorkstationMetrics.station_name := Workstation.name s;
     WorkstationMetrics.station_type := Workstation.station_type s;
     WorkstationMetrics.occupancy_time_minutes := round2 (inject_Z (working + idle));
     WorkstationMetrics.working_time_minutes := round2 (inject_Z working);
     WorkstationMetrics.idle_time_minutes := round2 (inject_Z idle);
     WorkstationMetrics.utilization_percentage :=
       round2 (percentage working (working + idle));
     WorkstationMetrics.total_units_produced := units_of evs;
     WorkstationMetrics.throughput_rate :=
       round2 (hourly_rate (units_of evs) (working + idle));
     WorkstationMetrics.event_count := len evs |}.

(** The arithmetic mean of a list of numbers ([0] for the empty list). *)
Definition mean (xs : list Q) : Q :=
  match xs with
  | [] => 0%Q
  | _ :: _ => (sumQ xs / inject_Z (len xs))%Q
  end.

(** The record [compute_factory_metrics] returns
    ([compute_factory_metrics_eq]). *)
Definition factory_value (db : Database) (start_time end_time : option Z)
  : FactoryMetrics.t :=
  let evs := time_filters start_time end_time (events db) in
  let productive := count_type "working" evs * EVENT_DURATION_MINUTES in
  let idle := count_type "idle" evs * EVENT_DURATION_MINUTES in
  let active_workers :=
    filter (λ w, 0 < WorkerMetrics.event_count w)
      (worker_row_value db start_time end_time <$> workers db) in
  let active_stations :=
    filter (λ s, 0 < WorkstationMetrics.event_count s)
      (station_row_value db start_time end_time <$> workstations db) in
  {| FactoryMetrics.total_productive_time_minutes := round2 (inject_Z productive);
     FactoryMetrics.total_idle_time_minutes := round2 (inject_Z idle);
     FactoryMetrics.total_production_count := units_of evs;
     FactoryMetrics.average_production_rate :=
       round2 (hourly_rate (units_of evs) productive);
     FactoryMetrics.average_worker_utilization :=
       round2 (mean (WorkerMetrics.utilization_percentage <$> active_workers));
     FactoryMetrics.average_workstation_utilization :=
       round2 (mean (WorkstationMetrics.utilization_percentage <$> active_stations));
     FactoryMetrics.total_events := len evs;
     FactoryMetrics.active_workers := len active_workers;
     FactoryMetrics.active_workstations := len active_stations |}.

(** The utilization of a worker in the window, before any rounding. *)
Definition worker_utilization_exact (db : Database)
    (start_time end_time : option Z) (w : Worker.t) : Q :=
  let evs := worker_events db start_time end_time (Worker.worker_id w) in
  let active := count_type "working" evs * EVENT_DURATION_MINUTES in
  let idle := count_type "idle" evs * EVENT_DURATION_MINUTES in
  percentage active (active + idle).

(** ** The time window and active entities *)

(** [ts] lies in the closed range [[start_time, end_time]]; a missing
    bound does not constrain its side. *)
Definition in_range (start_time end_time : option Z) (ts : Z) : Prop :=
  from_option (λ s, s ≤ ts) True start_time ∧
  from_option (λ t, ts ≤ t) True end_time.

#[global] Instance in_range_dec st en ts : Decision (in_range st en ts).
Proof. unfold in_range. destruct st, en; simpl; apply _. Defined.

(** The same database with another content of the [events] table. *)
Definition with_events (db : Database) (evs : list Event.t) : Database :=
  {| workers := workers db; workstations := workstations db; events := evs |}.

(** The worker (workstation) has at least one stored event in the window. *)
Definition worker_active (db : Database) (start_time end_time : option Z)
    (wid : string) : Prop :=
  Exists (λ e, Event.worker_id e = wid ∧
               in_range start_time end_time (Event.timestamp e)) (events db).

Definition station_active (db : Database) (start_time end_time : option Z)
    (sid : string) : Prop :=
  Exists (λ e, Event.workstation_id e = sid ∧
               in_range start_time end_time (Event.timestamp e)) (events db).

(** ** What a query is expected to read and to report *)

(** The stored events that satisfy [P] and whose timestamp lies in the
    window: one filter over the [events] table. *)
Definition in_window (db : Database) (start_time end_time : option Z)
    (P : Event.t → Prop) `{!∀ e, Decision (P e)} : list Event.t :=
  filter (λ e, P e ∧ in_range start_time end_time (Event.timestamp e))
    (events db).

(** The units reported by a list of events, a missing count being none. *)
Definition units (evs : list Event.t) : Z :=
  foldr (λ e total, or0 (Event.count e) + total) 0 evs.

(** The workers (workstations) a query with an optional identifier asks
    for: a missing or empty identifier asks for all of them. *)
Definition requested_workers (db : Database) (worker_id : option string)
  : list Worker.t :=
  match worker_id with
  | None | Some "" => workers db
  | Some wid => filter (λ w, Worker.worker_id w = wid) (workers db)
  end.

Definition requested_stations (db : Database) (station_id : option string)
  : list Workstation.t :=
  match station_id with
  | None | Some "" => workstations db
  | Some sid => filter (λ s, Workstation.station_id s = sid) (workstations db)
  end.

(** A number with at most two decimals, as a value rounded by
    [round(x, 2)] reads in the response. *)
Definition two_decimals (x : Q) : Prop :=
  ∃ n : Z, (x == inject_Z n / 100)%Q.

(** [reported] is [exact] to the precision of the output: the two differ
    by no more than one hundredth, and one part in [10 ^ 12] of [exact].
    The first margin is the last digit of a value reported with two
    decimals; the second covers the rounding of binary floating-point
    arithmetic on large values. *)
Definition within_output_precision (reported exact : Q) : Prop :=
  (Qabs (reported - exact) <=
     (1 # 100) + Qabs exact * (1 # 1000000000000))%Q.

(** ** Ingestion *)

(** The item names a worker or a workstation that is not registered. *)
Definition fails_reference (db : Database) (event : EventCreate.t) : Prop :=
  EventCreate.worker_id event ∉ Worker.worker_id <$> workers db ∨
  EventCreate.workstation_id event ∉ Workstation.station_id <$> workstations db.

(** The diagnostic the batch loop records for an item that fails
    reference validation. *)
Definition diagnostic (db : Database) (event : EventCreate.t) : string :=
  if decide (EventCreate.worker_id event ∈ Worker.worker_id <$> workers db)
  then "Unknown workstation_id: " +:+ EventCreate.workstation_id event
  else "Unknown worker_id: " +:+ EventCreate.worker_id event.

(** The count an observation is stored with can be held by the [Integer]
    column: it lies in the signed 64-bit range. *)
Definition count_fits (event : EventCreate.t) : Prop :=
  fits_int64 (or0 (EventCreate.count event)).

#[global] Instance count_fits_dec event : Decision (count_fits event).
Proof. unfold count_fits, fits_int64. apply _. Defined.

(** Number of stored rows under a deduplication key. *)
Definition rows_with_key (k : Z * string * string * string) (db : Database) : Z :=
  len (filter (λ row, dedup_key row = k) (events db)).

(** ** Sample data *)

Definition sample_event (ts : Z) (wid sid ty : string) (c : option Z) : Event.t :=
  {| Event.timestamp := ts; Event.worker_id := wid; Event.workstation_id := sid;
     Event.event_type := ty; Event.confidence := 9 # 10; Event.count := c;
     Event.received_at := ts |}.

Definition sample_create (ts : Z) (wid sid ty : string) (c : option Z)
  : EventCreate.t :=
  {| EventCreate.timestamp := ts; EventCreate.worker_id := wid;
     EventCreate.workstation_id := sid; EventCreate.event_type := ty;
     EventCreate.confidence := 9 # 10; EventCreate.count := c |}.

(** One registered worker at one registered workstation, no event yet. *)
Definition line_db : Database :=
  {| workers := [Worker.mk "W1" "John Martinez"];
     workstations := [Workstation.mk "S1" "Assembly Line A" (Some "Assembly")];
     events := [] |}.

(** A [working] observation submitted with [count = 3]. *)
Definition working_with_count : EventCreate.t :=
  sample_create 100 "W1" "S1" "working" (Some 3).

(** [line_db] after the observation of instant 1 has been stored. *)
Definition stored_db : Database :=
  with_events line_db [sample_event 1 "W1" "S1" "working" (Some 0)].

(** A batch re-sent after a network failure: a new observation (instant 2)
    followed by the one of instant 1, which is already stored. *)
Definition resend_batch : list EventCreate.t :=
  [sample_create 2 "W1" "S1" "working" None;
   sample_create 1 "W1" "S1" "working" None].

(** The same observation twice in one batch. *)
Definition twice_batch : list EventCreate.t :=
  [sample_create 1 "W1" "S1" "working" None;
   sample_create 1 "W1" "S1" "working" None].

(** Worker W1 with ten [working] and five [idle] observations at station
    S1; worker W2 without events. *)
Definition throughput_db : Database :=
  {| workers := [Worker.mk "W1" "John Martinez"; Worker.mk "W2" "Sarah Chen"];
     workstations := [Workstation.mk "S1" "Assembly Line A" (Some "Assembly")];
     events :=
       ((λ ts, sample_event ts "W1" "S1" "working" (Some 0)) <$>
          [1; 2; 3; 4; 5; 6; 7; 8; 9; 10]) ++
       ((λ ts, sample_event ts "W1" "S1" "idle" (Some 0)) <$>
          [11; 12; 13; 14; 15]) |}.

(** Worker W1 with four [working] and one [idle] observation (utilization
    80); worker W2 without events. *)
Definition eighty_db : Database :=
  {| workers := [Worker.mk "W1" "John Martinez"; Worker.mk "W2" "Sarah Chen"];
     workstations := [Workstation.mk "S1" "Assembly Line A" (Some "Assembly")];
     events :=
       ((λ ts, sample_event ts "W1" "S1" "working" (Some 0)) <$> [1; 2; 3; 4]) ++
       [sample_event 5 "W1" "S1" "idle" (Some 0)] |}.

(** Worker W1 seen absent twice, and nothing else. *)
Definition absent_db : Database :=
  {| workers := [Worker.mk "W1" "John Martinez"];
     workstations := [Workstation.mk "S1" "Assembly Line A" (Some "Assembly")];
     events := [sample_event 1 "W1" "S1" "absent" (Some 0);
                sample_event 2 "W1" "S1" "absent" (Some 0)] |}.

(** Three workers at one station: two with one [working] and two [idle]
    events, one with one [working] and three [idle] events. *)
Definition rounding_db : Database :=
  {| workers := [Worker.mk "W1" "John Martinez"; Worker.mk "W2" "Sarah Chen";
                 Worker.mk "W3" "Michael Johnson"];
     workstations := [Workstation.mk "S1" "Assembly Line A" (Some "Assembly")];
     events :=
       [sample_event 1 "W1" "S1" "working" None;
        sample_event 2 "W1" "S1" "idle" None;
        sample_event 3 "W1" "S1" "idle" None;
        sample_event 1 "W2" "S1" "working" None;
        sample_event 2 "W2" "S1" "idle" None;
        sample_event 3 "W2" "S1" "idle" None;
        sample_event 1 "W3" "S1" "working" None;
        sample_event 2 "W3" "S1" "idle" None;
        sample_event 3 "W3" "S1" "idle" None;
        sample_event 4 "W3" "S1" "idle" None] |}.

(** * Reference notions for the further properties *)

(** Two stored events that the metrics engine cannot tell apart: the same
    timestamp, worker, workstation and type, and the same count when the
    type is [product_count]. *)
Definition same_reading (e e' : Event.t) : Prop :=
  Event.timestamp e = Event.timestamp e' ∧
  Event.worker_id e = Event.worker_id e' ∧
  Event.workstation_id e = Event.workstation_id e' ∧
  Event.event_type e = Event.event_type e' ∧
  (Event.event_type e = "product_count" →
   or0 (Event.count e) = or0 (Event.count e')).

(** The stored event names a registered worker and a registered
    workstation. *)
Definition references_registered (db : Database) (e : Event.t) : Prop :=
  Event.worker_id e ∈ Worker.worker_id <$> workers db ∧
  Event.workstation_id e ∈ Workstation.station_id <$> workstations db.

(** The event passes every filter of a listing request that is present
    (a string filter that is missing or empty is not applied). *)
Definition matches (worker_id workstation_id event_type : option string)
    (start_time end_time : option Z) (e : Event.t) : Prop :=
  (∀ w, truthy worker_id = Some w → Event.worker_id e = w) ∧
  (∀ s, truthy workstation_id = Some s → Event.workstation_id e = s) ∧
  (∀ ty, truthy event_type = Some ty → Event.event_type e = ty) ∧
  in_range start_time end_time (Event.timestamp e).

(** The items of a batch submitted one by one to the single-event route,
    each answer discarded. *)
Definition ingest_each (now : Z) (batch : list EventCreate.t) (db : Database)
  : Database :=
  foldl (λ d event, (ingest_event now event d).2) db batch.

(** ** More sample data *)

(** [stored_db]'s row with another confidence, arrival time and count. *)
Definition reread_event : Event.t :=
  {| Event.timestamp := 1; Event.worker_id := "W1"; Event.workstation_id := "S1";
     Event.event_type := "working"; Event.confidence := 1 # 2;
     Event.count := Some 7; Event.received_at := 99 |}.

(** Two new observations for [stored_db]. *)
Definition fresh_batch : list EventCreate.t :=
  [sample_create 2 "W1" "S1" "working" None;
   sample_create 7 "W9" "S1" "idle" None;
   sample_create 3 "W1" "S1" "product_count" (Some 4)].


(** A batch whose second item carries a count just above the largest value
    of the [Integer] column. *)
Definition overflow_batch : list EventCreate.t :=
  [sample_create 2 "W1" "S1" "working" None;
   sample_create 3 "W1" "S1" "product_count" (Some (2 ^ 63))].
(** * Properties *)

(** ** Rounding *)

Lemma Qred_inject_Z (n : Z) : Qred (inject_Z n) = inject_Z n.
Proof.
  apply Qred_identity. simpl. apply Z.gcd_1_r.
Qed.

Lemma round_half_even_proper (x y : Q) :
  (x == y)%Q → round_half_even x = round_half_even y.
Proof.
  intros Hxy. unfold round_half_even.
  rewrite (Qfloor_comp _ _ Hxy).
  assert (Hc : ((x - inject_Z (Qfloor y) ?= 1 # 2) =
                (y - inject_Z (Qfloor y) ?= 1 # 2))%Q).
  { apply Qcompare_comp; [rewrite Hxy|]; reflexivity. }
  rewrite Hc. reflexivity.
Qed.

Lemma round_half_even_inject_Z (n : Z) : round_half_even (inject_Z n) = n.
Proof.
  unfold round_half_even. rewrite Qfloor_Z.
  assert (Hc : ((inject_Z n - inject_Z n ?= 1 # 2) = (0 ?= 1 # 2))%Q).
  { apply Qcompare_comp; [ring | reflexivity]. }
  rewrite Hc. reflexivity.
Qed.

Lemma round2_proper (x y : Q) : (x == y)%Q → round2 x = round2 y.
Proof.
  intros Hxy. unfold round2.
  rewrite (round_half_even_proper (x * 100) (y * 100)); [reflexivity|].
  rewrite Hxy. reflexivity.
Qed.

(** [round(n, 2)] leaves an integer unchanged. *)
Lemma round2_inject_Z (n : Z) : round2 (inject_Z n) = inject_Z n.
Proof.
  unfold round2.
  rewrite (round_half_even_proper _ (inject_Z (n * 100))).
  2:{ rewrite inject_Z_mult. reflexivity. }
  rewrite round_half_even_inject_Z.
  transitivity (Qred (inject_Z n)); [|apply Qred_inject_Z].
  apply Qred_complete. rewrite inject_Z_mult. field.
Qed.



Lemma round_half_even_error (x : Q) :
  (- (1 # 2) <= inject_Z (round_half_even x) - x)%Q ∧
  (inject_Z (round_half_even x) - x <= 1 # 2)%Q.
Proof.
  pose proof (Qfloor_le x) as Hlo. pose proof (Qlt_floor x) as Hhi.
  rewrite inject_Z_plus in Hhi. change (inject_Z 1) with 1%Q in Hhi.
  unfold round_half_even.
  destruct (x - inject_Z (Qfloor x) ?= 1 # 2)%Q eqn:Hc;
    [apply Qeq_alt in Hc; destruct (Z.even _)
    |apply Qlt_alt in Hc|apply Qgt_alt in Hc];
    rewrite ?inject_Z_plus; change (inject_Z 1) with 1%Q;
    revert Hlo Hhi Hc; generalize (inject_Z (Qfloor x)); intros f Hlo Hhi Hc;
    split; lra.
Qed.

Lemma round2_value (x : Q) :
  (round2 x == inject_Z (round_half_even (x * 100)) / 100)%Q.
Proof. unfold round2. apply Qred_correct. Qed.

Lemma two_decimals_round2 (x : Q) : two_decimals (round2 x).
Proof. eexists. apply round2_value. Qed.

Lemma round2_error (x : Q) : (Qabs (round2 x - x) <= 1 # 200)%Q.
Proof.
  rewrite round2_value. apply Qabs_Qle_condition.
  destruct (round_half_even_error (x * 100)) as [Hlo Hhi].
  revert Hlo Hhi. generalize (inject_Z (round_half_even (x * 100))).
  intros r Hlo Hhi. unfold Qdiv. change (/ 100)%Q with (1 # 100)%Q.
  split; lra.
Qed.

Lemma round2_reports (x y : Q) :
  (x == y)%Q → within_output_precision (round2 x) y.
Proof.
  intros Hxy. unfold within_output_precision. rewrite <- Hxy.
  pose proof (round2_error x) as He. pose proof (Qabs_nonneg x) as Hx.
  revert He Hx. generalize (Qabs (round2 x - x)), (Qabs x). intros a b He Hx.
  lra.
Qed.

Lemma round2_idempotent (x : Q) : round2 (round2 x) = round2 x.
Proof.
  rewrite (round2_proper _ _ (round2_value x)). unfold round2.
  rewrite (round_half_even_proper _ (inject_Z (round_half_even (x * 100)))).
  - by rewrite round_half_even_inject_Z.
  - field.
Qed.

Lemma mean_singleton (x : Q) : (mean [x] == x)%Q.
Proof. unfold mean, sumQ, len. simpl. field. Qed.

(** ** The guarded divisions *)

Lemma truediv_Ok (a b : Q) : ¬ (b == 0)%Q → truediv a b = Ok (a / b)%Q.
Proof.
  intros Hb. unfold truediv.
  destruct (Qeq_bool b 0) eqn:E; [|reflexivity].
  apply Qeq_bool_eq in E. contradiction.
Qed.

Lemma truediv_zero (a b : Q) : (b == 0)%Q → truediv a b = Raise ZeroDivisionError.
Proof.
  intros Hb. unfold truediv.
  destruct (Qeq_bool b 0) eqn:E; [reflexivity|].
  apply Qeq_bool_neq in E. contradiction.
Qed.

Lemma inject_Z_pos_nonzero (n : Z) : 0 < n → ¬ (inject_Z n == 0)%Q.
Proof.
  intros Hn He. unfold Qeq in He. simpl in He. lia.
Qed.

Lemma hours_pos (n : Z) : 0 < n → (0 < inject_Z n / 60)%Q.
Proof.
  intros Hn. apply Qlt_shift_div_l; [reflexivity|].
  rewrite Qmult_0_l. change 0%Q with (inject_Z 0). rewrite <- Zlt_Qlt. exact Hn.
Qed.

Lemma hours_nonzero (n : Z) : 0 < n → ¬ (inject_Z n / 60 == 0)%Q.
Proof.
  intros Hn He. pose proof (hours_pos n Hn) as Hh.
  rewrite He in Hh. by apply Qlt_irrefl in Hh.
Qed.

(** Walks through the conditional expressions of a metrics function: each
    division sits under the test that makes its divisor non-zero. *)
Ltac guard_cases :=
  repeat match goal with
  | |- context [decide (0 < ?n)] => destruct (decide (0 < n))
  | |- context [truediv ?a ?b] =>
      rewrite (truediv_Ok a b)
        by first [discriminate | by apply inject_Z_pos_nonzero
                 | by apply hours_nonzero]
  | |- context [Qlt_le_dec 0 ?h] => destruct (Qlt_le_dec 0 h)
  | H : (0 < 0)%Q |- _ => by apply Qlt_irrefl in H
  | H : (inject_Z ?n / 60 <= 0)%Q, Hn : 0 < ?n |- _ =>
      exfalso; apply (Qlt_not_le _ _ (hours_pos n Hn) H)
  | _ => progress simpl
  end.

Lemma worker_row_eq db st en w :
  worker_row db st en w = Ok (worker_row_value db st en w).
Proof.
  unfold worker_row, worker_row_value, percentage, hourly_rate. cbv zeta.
  generalize (worker_events db st en (Worker.worker_id w)). intros evs.
  generalize (count_type "working" evs * EVENT_DURATION_MINUTES).
  generalize (count_type "idle" evs * EVENT_DURATION_MINUTES).
  intros i a.
  guard_cases; reflexivity.
Qed.

Lemma station_row_eq db st en s :
  station_row db st en s = Ok (station_row_value db st en s).
Proof.
  unfold station_row, station_row_value, percentage, hourly_rate. cbv zeta.
  generalize (station_events db st en (Workstation.station_id s)). intros evs.
  generalize (count_type "working" evs * EVENT_DURATION_MINUTES).
  generalize (count_type "idle" evs * EVENT_DURATION_MINUTES).
  intros i a.
  guard_cases; reflexivity.
Qed.

Lemma mapM_Ok {A B} (f : A → result B) (g : A → B) (l : list A) :
  (∀ x, f x = Ok (g x)) → mapM f l = Ok (g <$> l).
Proof.
  intros Hfg. induction l as [|x l IH]; [reflexivity|].
  simpl. rewrite Hfg. simpl. rewrite IH. reflexivity.
Qed.

Lemma compute_worker_metrics_eq db wid st en :
  compute_worker_metrics db wid st en =
  Ok (worker_row_value db st en <$> select_workers db wid).
Proof. apply mapM_Ok, worker_row_eq. Qed.

Lemma compute_workstation_metrics_eq db sid st en :
  compute_workstation_metrics db sid st en =
  Ok (station_row_value db st en <$> select_stations db sid).
Proof. apply mapM_Ok, station_row_eq. Qed.

Lemma average_Ok (xs : list Q) : average xs = Ok (mean xs).
Proof.
  destruct xs as [|x xs]; [reflexivity|].
  unfold average, mean. apply truediv_Ok, inject_Z_pos_nonzero.
  unfold len. simpl length. lia.
Qed.

Lemma compute_factory_metrics_eq db st en :
  compute_factory_metrics db st en = Ok (factory_value db st en).
Proof.
  unfold compute_factory_metrics, factory_value, hourly_rate. cbv zeta.
  rewrite compute_worker_metrics_eq, compute_workstation_metrics_eq.
  unfold select_workers, select_stations. simpl truthy. cbv iota.
  generalize (time_filters st en (events db)). intros evs.
  generalize (count_type "working" evs * EVENT_DURATION_MINUTES). intros a.
  guard_cases; rewrite !average_Ok; reflexivity.
Qed.
(** ** The time window *)

Lemma time_filters_in_range st en (q : list Event.t) :
  time_filters st en q = filter (λ e, in_range st en (Event.timestamp e)) q.
Proof.
  unfold time_filters, in_range.
  destruct st as [s|], en as [t|]; simpl.
  - rewrite list_filter_filter. apply list_filter_iff. intros e. tauto.
  - apply list_filter_iff. intros e. tauto.
  - apply list_filter_iff. intros e. tauto.
  - induction q as [|e q IH]; [reflexivity|].
    rewrite filter_cons_True by done. by rewrite <- IH.
Qed.

Lemma time_filters_insert_outside st en (P : Event.t → Prop)
    `{!∀ e, Decision (P e)} (before after : list Event.t) (e : Event.t) :
  ¬ in_range st en (Event.timestamp e) →
  time_filters st en (filter P (before ++ e :: after)) =
  time_filters st en (filter P (before ++ after)).
Proof.
  intros Hout. rewrite !time_filters_in_range, !list_filter_filter.
  rewrite !filter_app. f_equal. rewrite filter_cons_False; [reflexivity|].
  tauto.
Qed.

Lemma time_filters_all_insert_outside st en (before after : list Event.t) e :
  ¬ in_range st en (Event.timestamp e) →
  time_filters st en (before ++ e :: after) =
  time_filters st en (before ++ after).
Proof.
  intros Hout. rewrite !time_filters_in_range, !filter_app.
  f_equal. by rewrite filter_cons_False.
Qed.

Lemma len_app {A} (l k : list A) : len (l ++ k) = len l + len k.
Proof. unfold len. rewrite length_app. lia. Qed.

Lemma time_filters_all_insert_inside st en (before after : list Event.t) e :
  in_range st en (Event.timestamp e) →
  len (time_filters st en (before ++ e :: after)) =
  len (time_filters st en (before ++ after)) + 1.
Proof.
  intros Hin. rewrite !time_filters_in_range, !filter_app, !len_app.
  rewrite filter_cons_True by done. unfold len. simpl length. lia.
Qed.

(** ** Active entities *)

Lemma worker_events_filter db st en wid :
  worker_events db st en wid =
  filter (λ e, Event.worker_id e = wid ∧ in_range st en (Event.timestamp e))
    (events db).
Proof.
  unfold worker_events. rewrite time_filters_in_range, list_filter_filter.
  apply list_filter_iff. intros e. tauto.
Qed.

Lemma station_events_filter db st en sid :
  station_events db st en sid =
  filter (λ e, Event.workstation_id e = sid ∧ in_range st en (Event.timestamp e))
    (events db).
Proof.
  unfold station_events. rewrite time_filters_in_range, list_filter_filter.
  apply list_filter_iff. intros e. tauto.
Qed.

Lemma len_pos_Exists {A} (P : A → Prop) `{!∀ x, Decision (P x)} (l : list A) :
  0 < len (filter P l) ↔ Exists P l.
Proof.
  rewrite Exists_exists. unfold len. split.
  - destruct (filter P l) as [|x k] eqn:E; [simpl; lia|]. intros _.
    assert (Hx : x ∈ filter P l) by (rewrite E; left).
    apply list_elem_of_filter in Hx as [HP Hx]. eauto.
  - intros (x & Hx & HP).
    assert (Hin : x ∈ filter P l) by (by apply list_elem_of_filter).
    destruct (filter P l); [by apply not_elem_of_nil in Hin|simpl; lia].
Qed.

Lemma worker_row_active db st en w :
  0 < WorkerMetrics.event_count (worker_row_value db st en w) ↔
  worker_active db st en (Worker.worker_id w).
Proof.
  unfold worker_row_value, worker_active. simpl.
  rewrite worker_events_filter. apply len_pos_Exists.
Qed.

Lemma station_row_active db st en s :
  0 < WorkstationMetrics.event_count (station_row_value db st en s) ↔
  station_active db st en (Workstation.station_id s).
Proof.
  unfold station_row_value, station_active. simpl.
  rewrite station_events_filter. apply len_pos_Exists.
Qed.

Lemma worker_inactive_no_events db st en wid :
  ¬ worker_active db st en wid → worker_events db st en wid = [].
Proof.
  intros Hna. rewrite worker_events_filter.
  destruct (filter _ (events db)) as [|e k] eqn:E; [reflexivity|].
  exfalso. apply Hna. unfold worker_active. apply Exists_exists.
  assert (He : e ∈ e :: k) by left. rewrite <- E in He.
  apply list_elem_of_filter in He as [HP He]. eauto.
Qed.

Lemma filter_unique_key {A K} `{EqDecision K} (f : A → K) (l : list A) (x : A) :
  NoDup (f <$> l) → x ∈ l → filter (λ y, f y = f x) l = [x].
Proof.
  induction l as [|y l IH]; intros Hnd Hx; [by apply not_elem_of_nil in Hx|].
  rewrite fmap_cons in Hnd. apply NoDup_cons in Hnd as [Hy Hnd].
  apply elem_of_cons in Hx as [->|Hx].
  - rewrite filter_cons_True by done. f_equal.
    destruct (filter (λ y0, f y0 = f y) l) as [|z k] eqn:E; [reflexivity|].
    exfalso. apply Hy.
    assert (Hz : z ∈ z :: k) by left. rewrite <- E in Hz.
    apply list_elem_of_filter in Hz as [Hfz Hz]. rewrite <- Hfz.
    by apply list_elem_of_fmap_2.
  - rewrite filter_cons_False; [by apply IH|].
    intros Heq. apply Hy. rewrite Heq. by apply list_elem_of_fmap_2.
Qed.

Lemma filter_absent_key {A K} `{EqDecision K} (f : A → K) (l : list A) (k : K) :
  k ∉ f <$> l → filter (λ y, f y = k) l = [].
Proof.
  intros Hk. destruct (filter (λ y, f y = k) l) as [|z r] eqn:E; [reflexivity|].
  exfalso. apply Hk.
  assert (Hz : z ∈ z :: r) by left. rewrite <- E in Hz.
  apply list_elem_of_filter in Hz as [Hfz Hz]. rewrite <- Hfz.
  by apply list_elem_of_fmap_2.
Qed.

(** ** The events a query reads *)

Lemma sumZ_foldl (l : list Z) (acc : Z) : foldl Z.add acc l = acc + sumZ l.
Proof.
  unfold sumZ. revert acc. induction l as [|x l IH]; intros acc; simpl; [lia|].
  rewrite (IH (acc + x)), (IH (0 + x)). lia.
Qed.

Lemma sumZ_cons (x : Z) (l : list Z) : sumZ (x :: l) = x + sumZ l.
Proof. unfold sumZ at 1. simpl. by rewrite sumZ_foldl. Qed.

Lemma sumZ_units (evs : list Event.t) :
  sumZ ((λ e, or0 (Event.count e)) <$> evs) = units evs.
Proof.
  induction evs as [|e evs IH]; [reflexivity|].
  rewrite fmap_cons, sumZ_cons, IH. reflexivity.
Qed.

Lemma in_window_ext db st en (P Q : Event.t → Prop)
    `{!∀ e, Decision (P e)} `{!∀ e, Decision (Q e)} :
  (∀ e, P e ↔ Q e) → in_window db st en P = in_window db st en Q.
Proof.
  intros HPQ. unfold in_window. apply list_filter_iff. intros e.
  by rewrite HPQ.
Qed.

Lemma time_filters_in_window db st en :
  time_filters st en (events db) = in_window db st en (λ _, True).
Proof.
  rewrite time_filters_in_range. unfold in_window.
  apply list_filter_iff. intros e. tauto.
Qed.

Lemma worker_events_in_window db st en wid :
  worker_events db st en wid =
  in_window db st en (λ e, Event.worker_id e = wid).
Proof.
  rewrite worker_events_filter. unfold in_window.
  apply list_filter_iff. intros e. tauto.
Qed.

Lemma station_events_in_window db st en sid :
  station_events db st en sid =
  in_window db st en (λ e, Event.workstation_id e = sid).
Proof.
  rewrite station_events_filter. unfold in_window.
  apply list_filter_iff. intros e. tauto.
Qed.

Lemma count_type_in_window db st en (P : Event.t → Prop)
    `{!∀ e, Decision (P e)} (ty : string) :
  count_type ty (in_window db st en P) =
  len (in_window db st en (λ e, P e ∧ Event.event_type e = ty)).
Proof.
  unfold count_type, in_window. rewrite list_filter_filter. f_equal.
  apply list_filter_iff. intros e. tauto.
Qed.

Lemma count_type_window db st en (ty : string) :
  count_type ty (time_filters st en (events db)) =
  len (in_window db st en (λ e, Event.event_type e = ty)).
Proof.
  rewrite time_filters_in_window, count_type_in_window. f_equal.
  apply in_window_ext. intros e. tauto.
Qed.

Lemma units_of_in_window db st en (P : Event.t → Prop)
    `{!∀ e, Decision (P e)} :
  units_of (in_window db st en P) =
  units (in_window db st en (λ e, P e ∧ Event.event_type e = "product_count")).
Proof.
  unfold units_of. rewrite sumZ_units. f_equal.
  unfold in_window. rewrite list_filter_filter.
  apply list_filter_iff. intros e. tauto.
Qed.

Lemma units_of_window db st en :
  units_of (time_filters st en (events db)) =
  units (in_window db st en (λ e, Event.event_type e = "product_count")).
Proof.
  rewrite time_filters_in_window, units_of_in_window. f_equal.
  apply in_window_ext. intros e. tauto.
Qed.

Lemma select_workers_requested db wid :
  select_workers db wid = requested_workers db wid.
Proof. unfold select_workers, requested_workers. by destruct wid as [[|]|]. Qed.

Lemma select_stations_requested db sid :
  select_stations db sid = requested_stations db sid.
Proof. unfold select_stations, requested_stations. by destruct sid as [[|]|]. Qed.

Lemma len_filter_insert {A} (P : A → Prop) `{!∀ x, Decision (P x)}
    (before after : list A) (x : A) :
  len (filter P (before ++ x :: after)) =
  len (filter P (before ++ after)) + (if decide (P x) then 1 else 0).
Proof.
  rewrite !filter_app, !len_app.
  destruct (decide (P x)).
  - rewrite filter_cons_True by done. unfold len. simpl length. lia.
  - rewrite filter_cons_False by done. lia.
Qed.

(** The closed forms of the rows, over the events of the window. *)
Lemma worker_row_counts db st en w :
  let counted ty :=
    len (in_window db st en
           (λ e, Event.worker_id e = Worker.worker_id w ∧
                 Event.event_type e = ty)) in
  let active := counted "working" * EVENT_DURATION_MINUTES in
  let idle := counted "idle" * EVENT_DURATION_MINUTES in
  let produced :=
    units (in_window db st en
             (λ e, Event.worker_id e = Worker.worker_id w ∧
                   Event.event_type e = "product_count")) in
  worker_row_value db st en w =
  {| WorkerMetrics.worker_id := Worker.worker_id w;
     WorkerMetrics.worker_name := Worker.name w;
     WorkerMetrics.total_active_time_minutes := inject_Z active;
     WorkerMetrics.total_idle_time_minutes := inject_Z idle;
     WorkerMetrics.total_absent_time_minutes :=
       inject_Z (counted "absent" * EVENT_DURATION_MINUTES);
     WorkerMetrics.utilization_percentage :=
       round2 (percentage active (active + idle));
     WorkerMetrics.total_units_produced := produced;
     WorkerMetrics.units_per_hour := round2 (hourly_rate produced active);
     WorkerMetrics.event_count :=
       len (in_window db st en (λ e, Event.worker_id e = Worker.worker_id w)) |}.
Proof.
  cbv zeta. unfold worker_row_value. cbv zeta.
  rewrite worker_events_in_window, !count_type_in_window, units_of_in_window.
  by rewrite !round2_inject_Z.
Qed.

Lemma station_row_counts db st en s :
  let counted ty :=
    len (in_window db st en
           (λ e, Event.workstation_id e = Workstation.station_id s ∧
                 Event.event_type e = ty)) in
  let working := counted "working" * EVENT_DURATION_MINUTES in
  let idle := counted "idle" * EVENT_DURATION_MINUTES in
  let produced :=
    units (in_window db st en
             (λ e, Event.workstation_id e = Workstation.station_id s ∧
                   Event.event_type e = "product_count")) in
  station_row_value db st en s =
  {| WorkstationMetrics.station_id := Workstation.station_id s;
     WorkstationMetrics.station_name := Workstation.name s;
     WorkstationMetrics.station_type := Workstation.station_type s;
     WorkstationMetrics.occupancy_time_minutes := inject_Z (working + idle);
     WorkstationMetrics.working_time_minutes := inject_Z working;
     WorkstationMetrics.idle_time_minutes := inject_Z idle;
     WorkstationMetrics.utilization_percentage :=
       round2 (percentage working (working + idle));
     WorkstationMetrics.total_units_produced := produced;
     WorkstationMetrics.throughput_rate :=
       round2 (hourly_rate produced (working + idle));
     WorkstationMetrics.event_count :=
       len (in_window db st en
              (λ e, Event.workstation_id e = Workstation.station_id s)) |}.
Proof.
  cbv zeta. unfold station_row_value. cbv zeta.
  rewrite station_events_in_window, !count_type_in_window, units_of_in_window.
  by rewrite !round2_inject_Z.
Qed.

(** ** Per-entity rows *)

Lemma compute_worker_metrics_rows db wid st en (P : Worker.t → WorkerMetrics.t → Prop) :
  (∀ w, P w (worker_row_value db st en w)) →
  ∃ ms, compute_worker_metrics db wid st en = Ok ms ∧
        Forall2 P (select_workers db wid) ms.
Proof.
  intros HP. eexists. split; [apply compute_worker_metrics_eq|].
  apply Forall2_fmap_r, Forall_Forall2_diag, Forall_forall. auto.
Qed.

Lemma compute_workstation_metrics_rows db sid st en
    (P : Workstation.t → WorkstationMetrics.t → Prop) :
  (∀ s, P s (station_row_value db st en s)) →
  ∃ ms, compute_workstation_metrics db sid st en = Ok ms ∧
        Forall2 P (select_stations db sid) ms.
Proof.
  intros HP. eexists. split; [apply compute_workstation_metrics_eq|].
  apply Forall2_fmap_r, Forall_Forall2_diag, Forall_forall. auto.
Qed.

(** C7. A metrics query with the window [[start_time, end_time]] reads
    exactly the stored events whose [timestamp] lies in the closed range,
    a missing bound leaving its side open.  A stored event whose timestamp
    is strictly before [start_time] or strictly after [end_time] changes no
    per-worker, per-workstation or factory aggregate, whatever its
    [received_at].  An event whose timestamp satisfies every bound that is
    present (equality included) is counted: it raises the factory's
    [total_events] by one, and the [event_count] of the row of its worker
    and of the row of its workstation by one, leaving the other rows as
    they were.  For every database the counts, times and units of the
    factory record and of each row are those of the events in the closed
    range. *)
Theorem window_is_inclusive_on_timestamp
    (db : Database) (before after : list Event.t) (e : Event.t)
    (start_time end_time : option Z) (wid sid : option string) :
  let db0 := with_events db (before ++ after) in
  let db1 := with_events db (before ++ e :: after) in
  ((∃ s, start_time = Some s ∧ Event.timestamp e < s) ∨
   (∃ t, end_time = Some t ∧ t < Event.timestamp e) →
     compute_worker_metrics db1 wid start_time end_time =
       compute_worker_metrics db0 wid start_time end_time ∧
     compute_workstation_metrics db1 sid start_time end_time =
       compute_workstation_metrics db0 sid start_time end_time ∧
     compute_factory_metrics db1 start_time end_time =
       compute_factory_metrics db0 start_time end_time) ∧
  ((∀ s, start_time = Some s → s ≤ Event.timestamp e) ∧
   (∀ t, end_time = Some t → Event.timestamp e ≤ t) →
     ∃ fm0 fm1 wms0 wms1 sms0 sms1,
       compute_factory_metrics db0 start_time end_time = Ok fm0 ∧
       compute_factory_metrics db1 start_time end_time = Ok fm1 ∧
       compute_worker_metrics db0 None start_time end_time = Ok wms0 ∧
       compute_worker_metrics db1 None start_time end_time = Ok wms1 ∧
       compute_workstation_metrics db0 None start_time end_time = Ok sms0 ∧
       compute_workstation_metrics db1 None start_time end_time = Ok sms1 ∧
       FactoryMetrics.total_events fm1 = FactoryMetrics.total_events fm0 + 1 ∧
       (∀ i w, workers db !! i = Some w →
          ∃ m0 m1,
            wms0 !! i = Some m0 ∧ wms1 !! i = Some m1 ∧
            WorkerMetrics.worker_id m0 = Worker.worker_id w ∧
            WorkerMetrics.worker_id m1 = Worker.worker_id w ∧
            WorkerMetrics.event_count m1 =
              WorkerMetrics.event_count m0 +
              (if decide (Event.worker_id e = Worker.worker_id w)
               then 1 else 0)) ∧
       (∀ i s, workstations db !! i = Some s →
          ∃ m0 m1,
            sms0 !! i = Some m0 ∧ sms1 !! i = Some m1 ∧
            WorkstationMetrics.station_id m0 = Workstation.station_id s ∧
            WorkstationMetrics.station_id m1 = Workstation.station_id s ∧
            WorkstationMetrics.event_count m1 =
              WorkstationMetrics.event_count m0 +
              (if decide (Event.workstation_id e = Workstation.station_id s)
               then 1 else 0))) ∧
  (∃ fm wms sms,
     compute_factory_metrics db start_time end_time = Ok fm ∧
     compute_worker_metrics db None start_time end_time = Ok wms ∧
     compute_workstation_metrics db None start_time end_time = Ok sms ∧
     FactoryMetrics.total_events fm =
       len (in_window db start_time end_time (λ _, True)) ∧
     FactoryMetrics.total_productive_time_minutes fm =
       inject_Z (len (in_window db start_time end_time
                        (λ x, Event.event_type x = "working"))
                 * EVENT_DURATION_MINUTES) ∧
     FactoryMetrics.total_idle_time_minutes fm =
       inject_Z (len (in_window db start_time end_time
                        (λ x, Event.event_type x = "idle"))
                 * EVENT_DURATION_MINUTES) ∧
     FactoryMetrics.total_production_count fm =
       units (in_window db start_time end_time
                (λ x, Event.event_type x = "product_count")) ∧
     Forall2 (λ w m,
       let counted ty :=
         len (in_window db start_time end_time
                (λ x, Event.worker_id x = Worker.worker_id w ∧
                      Event.event_type x = ty)) in
       WorkerMetrics.worker_id m = Worker.worker_id w ∧
       WorkerMetrics.event_count m =
         len (in_window db start_time end_time
                (λ x, Event.worker_id x = Worker.worker_id w)) ∧
       WorkerMetrics.total_active_time_minutes m =
         inject_Z (counted "working" * EVENT_DURATION_MINUTES) ∧
       WorkerMetrics.total_idle_time_minutes m =
         inject_Z (counted "idle" * EVENT_DURATION_MINUTES) ∧
       WorkerMetrics.total_absent_time_minutes m =
         inject_Z (counted "absent" * EVENT_DURATION_MINUTES) ∧
       WorkerMetrics.total_units_produced m =
         units (in_window db start_time end_time
                  (λ x, Event.worker_id x = Worker.worker_id w ∧
                        Event.event_type x = "product_count")))
       (workers db) wms ∧
     Forall2 (λ s m,
       let counted ty :=
         len (in_window db start_time end_time
                (λ x, Event.workstation_id x = Workstation.station_id s ∧
                      Event.event_type x = ty)) in
       WorkstationMetrics.station_id m = Workstation.station_id s ∧
       WorkstationMetrics.event_count m =
         len (in_window db start_time end_time
                (λ x, Event.workstation_id x = Workstation.station_id s)) ∧
       WorkstationMetrics.working_time_minutes m =
         inject_Z (counted "working" * EVENT_DURATION_MINUTES) ∧
       WorkstationMetrics.idle_time_minutes m =
         inject_Z (counted "idle" * EVENT_DURATION_MINUTES) ∧
       WorkstationMetrics.total_units_produced m =
         units (in_window db start_time end_time
                  (λ x, Event.workstation_id x = Workstation.station_id s ∧
                        Event.event_type x = "product_count")))
       (workstations db) sms).
Proof.
  intros db0 db1. split_and!.
  - intros Hout.
    assert (Hnot : ¬ in_range start_time end_time (Event.timestamp e)).
    { unfold in_range. destruct Hout as [(s & -> & Hs)|(t & -> & Ht)];
        simpl; lia. }
    assert (Hw : ∀ w, worker_row_value db1 start_time end_time w =
                      worker_row_value db0 start_time end_time w).
    { intros w. unfold worker_row_value, worker_events. simpl events.
      by rewrite time_filters_insert_outside. }
    assert (Hs : ∀ s, station_row_value db1 start_time end_time s =
                      station_row_value db0 start_time end_time s).
    { intros s. unfold station_row_value, station_events. simpl events.
      by rewrite time_filters_insert_outside. }
    rewrite !compute_worker_metrics_eq, !compute_workstation_metrics_eq,
      !compute_factory_metrics_eq.
    split_and!; f_equal.
    + apply list_fmap_ext. intros _ w _. apply Hw.
    + apply list_fmap_ext. intros _ s _. apply Hs.
    + unfold factory_value. simpl events. simpl workers. simpl workstations.
      rewrite time_filters_all_insert_outside by done.
      rewrite (list_fmap_ext _ _ (workers db) (λ _ w _, Hw w)).
      rewrite (list_fmap_ext _ _ (workstations db) (λ _ s _, Hs s)).
      reflexivity.
  - intros [Hlo Hhi].
    assert (Hin : in_range start_time end_time (Event.timestamp e)).
    { unfold in_range. destruct start_time, end_time; simpl; auto. }
    rewrite !compute_factory_metrics_eq, !compute_worker_metrics_eq,
      !compute_workstation_metrics_eq.
    do 6 eexists. split_and!; try reflexivity.
    + unfold factory_value. simpl.
      by apply time_filters_all_insert_inside.
    + intros i w Hi. unfold select_workers. cbn [truthy].
      change (workers db0) with (workers db).
      change (workers db1) with (workers db).
      exists (worker_row_value db0 start_time end_time w),
             (worker_row_value db1 start_time end_time w).
      rewrite !list_lookup_fmap, Hi.
      split_and!; try reflexivity.
      change (len (worker_events db1 start_time end_time (Worker.worker_id w)) =
              len (worker_events db0 start_time end_time (Worker.worker_id w)) +
              (if decide (Event.worker_id e = Worker.worker_id w) then 1 else 0)).
      rewrite !worker_events_filter. simpl events.
      rewrite len_filter_insert. f_equal.
      destruct (decide (Event.worker_id e = Worker.worker_id w)).
      * by rewrite decide_True.
      * rewrite decide_False; [done|tauto].
    + intros i s Hi. unfold select_stations. cbn [truthy].
      change (workstations db0) with (workstations db).
      change (workstations db1) with (workstations db).
      exists (station_row_value db0 start_time end_time s),
             (station_row_value db1 start_time end_time s).
      rewrite !list_lookup_fmap, Hi.
      split_and!; try reflexivity.
      change (len (station_events db1 start_time end_time
                     (Workstation.station_id s)) =
              len (station_events db0 start_time end_time
                     (Workstation.station_id s)) +
              (if decide (Event.workstation_id e = Workstation.station_id s)
               then 1 else 0)).
      rewrite !station_events_filter. simpl events.
      rewrite len_filter_insert. f_equal.
      destruct (decide (Event.workstation_id e = Workstation.station_id s)).
      * by rewrite decide_True.
      * rewrite decide_False; [done|tauto].
  - rewrite compute_factory_metrics_eq, compute_worker_metrics_eq,
      compute_workstation_metrics_eq.
    do 3 eexists. split_and!; try reflexivity.
    + unfold factory_value. simpl. by rewrite time_filters_in_window.
    + unfold factory_value. simpl.
      by rewrite round2_inject_Z, count_type_window.
    + unfold factory_value. simpl.
      by rewrite round2_inject_Z, count_type_window.
    + unfold factory_value. simpl. by rewrite units_of_window.
    + apply Forall2_fmap_r, Forall_Forall2_diag, Forall_forall.
      intros w _. cbv beta delta [compose].
      rewrite worker_row_counts. cbv zeta. simpl. done.
    + apply Forall2_fmap_r, Forall_Forall2_diag, Forall_forall.
      intros s _. cbv beta delta [compose].
      rewrite station_row_counts. cbv zeta. simpl. done.
Qed.

(** C5. For every worker selected by a per-worker query and every window,
    with [D = EVENT_DURATION_MINUTES = 5]: active time is
    [working_count * D], idle time is [idle_count * D], absent time is
    [absent_count * D], the counts being those of the worker's stored
    events of each type with a timestamp in the window; and the utilization
    is [active / (active + idle) * 100] to the precision of the output
    ([0] when the denominator is [0]); absent time is not in the
    denominator.  With 10 [working] and 5 [idle] events in the window the
    row reads 50.0, 25.0 and 66.67. *)
Theorem worker_metrics_time_inference
    (db : Database) (wid : option string) (start_time end_time : option Z) :
  ∃ ms,
    compute_worker_metrics db wid start_time end_time = Ok ms ∧
    Forall2 (λ w m,
      let counted ty :=
        len (in_window db start_time end_time
               (λ e, Event.worker_id e = Worker.worker_id w ∧
                     Event.event_type e = ty)) in
      let active := counted "working" * EVENT_DURATION_MINUTES in
      let idle := counted "idle" * EVENT_DURATION_MINUTES in
      WorkerMetrics.worker_id m = Worker.worker_id w ∧
      WorkerMetrics.total_active_time_minutes m = inject_Z active ∧
      WorkerMetrics.total_idle_time_minutes m = inject_Z idle ∧
      WorkerMetrics.total_absent_time_minutes m =
        inject_Z (counted "absent" * EVENT_DURATION_MINUTES) ∧
      within_output_precision (WorkerMetrics.utilization_percentage m)
        (if decide (0 < active + idle)
         then inject_Z active / inject_Z (active + idle) * 100
         else 0) ∧
      (active + idle = 0 → WorkerMetrics.utilization_percentage m = 0%Q) ∧
      (counted "working" = 10 → counted "idle" = 5 →
         WorkerMetrics.total_active_time_minutes m = 50%Q ∧
         WorkerMetrics.total_idle_time_minutes m = 25%Q ∧
         WorkerMetrics.utilization_percentage m = (6667 # 100)%Q))
    (requested_workers db wid) ms.
Proof.
  rewrite <- select_workers_requested.
  apply compute_worker_metrics_rows. intros w.
  rewrite worker_row_counts. cbv zeta. simpl.
  split_and!; try reflexivity.
  - by apply round2_reports.
  - intros Hzero. unfold percentage. by rewrite decide_False by lia.
  - intros -> ->. split_and!; reflexivity.
Qed.

(** C6. No metrics function raises a division error: the per-worker, the
    per-workstation and the factory computation all return a value for
    every database and window.  A worker or workstation whose [working]
    and [idle] counts are both zero in the window (one with only [absent]
    events, for instance) has utilization 0; a worker with active time zero
    has [units_per_hour = 0]; a workstation whose rate denominator, the
    occupancy time, is zero has [throughput_rate = 0]; a factory with
    productive time zero has [average_production_rate = 0]. *)
Theorem metrics_divisions_are_guarded
    (db : Database) (wid sid : option string) (start_time end_time : option Z) :
  ∃ wms sms fm,
    compute_worker_metrics db wid start_time end_time = Ok wms ∧
    compute_workstation_metrics db sid start_time end_time = Ok sms ∧
    compute_factory_metrics db start_time end_time = Ok fm ∧
    Forall2 (λ w m,
      let evs := worker_events db start_time end_time (Worker.worker_id w) in
      (count_type "working" evs = 0 → count_type "idle" evs = 0 →
         WorkerMetrics.utilization_percentage m = 0%Q) ∧
      (count_type "working" evs * EVENT_DURATION_MINUTES = 0 →
         WorkerMetrics.units_per_hour m = 0%Q))
      (select_workers db wid) wms ∧
    Forall2 (λ s m,
      let evs := station_events db start_time end_time (Workstation.station_id s) in
      (count_type "working" evs = 0 → count_type "idle" evs = 0 →
         WorkstationMetrics.utilization_percentage m = 0%Q) ∧
      (count_type "working" evs * EVENT_DURATION_MINUTES +
       count_type "idle" evs * EVENT_DURATION_MINUTES = 0 →
         WorkstationMetrics.throughput_rate m = 0%Q))
      (select_stations db sid) sms ∧
    (count_type "working" (time_filters start_time end_time (events db))
       * EVENT_DURATION_MINUTES = 0 →
       FactoryMetrics.average_production_rate fm = 0%Q).
Proof.
  destruct (compute_worker_metrics_rows db wid start_time end_time
    (λ w m,
      let evs := worker_events db start_time end_time (Worker.worker_id w) in
      (count_type "working" evs = 0 → count_type "idle" evs = 0 →
         WorkerMetrics.utilization_percentage m = 0%Q) ∧
      (count_type "working" evs * EVENT_DURATION_MINUTES = 0 →
         WorkerMetrics.units_per_hour m = 0%Q))) as (wms & Hw & HFw).
  { intros w. unfold worker_row_value. cbv zeta. simpl. split.
    - intros -> ->. reflexivity.
    - intros ->. reflexivity. }
  destruct (compute_workstation_metrics_rows db sid start_time end_time
    (λ s m,
      let evs := station_events db start_time end_time (Workstation.station_id s) in
      (count_type "working" evs = 0 → count_type "idle" evs = 0 →
         WorkstationMetrics.utilization_percentage m = 0%Q) ∧
      (count_type "working" evs * EVENT_DURATION_MINUTES +
       count_type "idle" evs * EVENT_DURATION_MINUTES = 0 →
         WorkstationMetrics.throughput_rate m = 0%Q))) as (sms & Hs & HFs).
  { intros s. unfold station_row_value. cbv zeta. simpl. split.
    - intros -> ->. reflexivity.
    - intros ->. reflexivity. }
  exists wms, sms, (factory_value db start_time end_time).
  split_and!; try done.
  - apply compute_factory_metrics_eq.
  - unfold factory_value. simpl. intros ->. reflexivity.
Qed.

(** ** Single-worker query *)

(** C9. The single-worker route never fails.  For a registered worker
    with no event in the window it answers with the worker's name and
    every numeric field zero; for an identifier that is not registered it
    answers with the name ["Unknown"] and every numeric field zero.  The
    two records differ in the name only.  (The route's path parameter is
    never the empty string; worker identifiers are unique in the
    [workers] table.) *)
Theorem single_worker_query_degrades_to_zero
    (db : Database) (worker_id : string) (start_time end_time : option Z)
    (Hpath : worker_id ≠ "")
    (Hunique : NoDup (Worker.worker_id <$> workers db)) :
  (∃ m, get_worker_metrics db worker_id start_time end_time = Ok m) ∧
  (∀ w, w ∈ workers db → Worker.worker_id w = worker_id →
        ¬ worker_active db start_time end_time worker_id →
        get_worker_metrics db worker_id start_time end_time =
        Ok {| WorkerMetrics.worker_id := worker_id;
              WorkerMetrics.worker_name := Worker.name w;
              WorkerMetrics.total_active_time_minutes := 0;
              WorkerMetrics.total_idle_time_minutes := 0;
              WorkerMetrics.total_absent_time_minutes := 0;
              WorkerMetrics.utilization_percentage := 0;
              WorkerMetrics.total_units_produced := 0;
              WorkerMetrics.units_per_hour := 0;
              WorkerMetrics.event_count := 0 |}) ∧
  (worker_id ∉ Worker.worker_id <$> workers db →
        get_worker_metrics db worker_id start_time end_time =
        Ok {| WorkerMetrics.worker_id := worker_id;
              WorkerMetrics.worker_name := "Unknown";
              WorkerMetrics.total_active_time_minutes := 0;
              WorkerMetrics.total_idle_time_minutes := 0;
              WorkerMetrics.total_absent_time_minutes := 0;
              WorkerMetrics.utilization_percentage := 0;
              WorkerMetrics.total_units_produced := 0;
              WorkerMetrics.units_per_hour := 0;
              WorkerMetrics.event_count := 0 |}).
Proof.
  assert (Hsel : select_workers db (Some worker_id) =
                 filter (λ w, Worker.worker_id w = worker_id) (workers db)).
  { unfold select_workers, truthy. by rewrite decide_False. }
  unfold get_worker_metrics. rewrite compute_worker_metrics_eq, Hsel. simpl.
  split_and!.
  - destruct (worker_row_value db start_time end_time <$> _); eauto.
  - intros w Hw <- Hidle.
    rewrite (filter_unique_key Worker.worker_id) by done. simpl.
    unfold worker_row_value.
    rewrite (worker_inactive_no_events _ _ _ _ Hidle). reflexivity.
  - intros Hnot. rewrite filter_absent_key by done. reflexivity.
Qed.

(** ** Factory averages *)

Lemma filter_fmap_iff {A B} (f : A → B) (P : B → Prop) (Q : A → Prop)
    `{!∀ y, Decision (P y)} `{!∀ x, Decision (Q x)} (l : list A) :
  (∀ x, P (f x) ↔ Q x) → filter P (f <$> l) = f <$> filter Q l.
Proof.
  intros HPQ. induction l as [|x l IH]; [reflexivity|].
  rewrite fmap_cons.
  destruct (decide (Q x)) as [Hq|Hq].
  - rewrite (filter_cons_True Q) by done.
    rewrite (filter_cons_True P) by (by apply HPQ).
    rewrite fmap_cons. by f_equal.
  - rewrite (filter_cons_False Q) by done.
    rewrite (filter_cons_False P) by (by rewrite HPQ). done.
Qed.

Lemma active_worker_rows db st en :
  filter (λ m, 0 < WorkerMetrics.event_count m)
    (worker_row_value db st en <$> workers db) =
  filter (λ m, worker_active db st en (WorkerMetrics.worker_id m))
    (worker_row_value db st en <$> workers db).
Proof.
  rewrite !(filter_fmap_iff _ _
    (λ w, worker_active db st en (Worker.worker_id w))); [done| |].
  - intros w. reflexivity.
  - intros w. apply worker_row_active.
Qed.

Lemma active_station_rows db st en :
  filter (λ m, 0 < WorkstationMetrics.event_count m)
    (station_row_value db st en <$> workstations db) =
  filter (λ m, station_active db st en (WorkstationMetrics.station_id m))
    (station_row_value db st en <$> workstations db).
Proof.
  rewrite !(filter_fmap_iff _ _
    (λ s, station_active db st en (Workstation.station_id s))); [done| |].
  - intros s. reflexivity.
  - intros s. apply station_row_active.
Qed.

Lemma average_of_one_row (u : Q) : round2 (mean [round2 u]) = round2 u.
Proof.
  rewrite (round2_proper _ _ (mean_singleton _)). apply round2_idempotent.
Qed.

Lemma row_ids_of_workers db st en :
  WorkerMetrics.worker_id <$> (worker_row_value db st en <$> workers db) =
  Worker.worker_id <$> workers db.
Proof. rewrite <- list_fmap_compose. by apply list_fmap_ext. Qed.

Lemma row_ids_of_workstations db st en :
  WorkstationMetrics.station_id <$>
    (station_row_value db st en <$> workstations db) =
  Workstation.station_id <$> workstations db.
Proof. rewrite <- list_fmap_compose. by apply list_fmap_ext. Qed.

Lemma len_fmap {A B} (f : A → B) (l : list A) : len (f <$> l) = len l.
Proof. unfold len. by rewrite length_fmap. Qed.

(** C4. In every factory-metrics query, [average_worker_utilization] is,
    to the precision of the output, the arithmetic mean of the
    [utilization_percentage] values of exactly the per-worker rows whose
    worker has at least one event in the window, the rows being those of
    the registered workers; [active_workers] is the number of registered
    workers with an event in the window; likewise for workstations.  Rows
    of entities without events take no part in the mean: with a single
    active entity the average is that entity's utilization, and with none
    it is [0].  With two workers, one active at utilization 80 and one
    without events, the average is 80.0 and [active_workers = 1]. *)
Theorem factory_averages_over_active_entities
    (db : Database) (start_time end_time : option Z) :
  ∃ fm wms sms,
    compute_factory_metrics db start_time end_time = Ok fm ∧
    compute_worker_metrics db None start_time end_time = Ok wms ∧
    compute_workstation_metrics db None start_time end_time = Ok sms ∧
    WorkerMetrics.worker_id <$> wms = Worker.worker_id <$> workers db ∧
    WorkstationMetrics.station_id <$> sms =
      Workstation.station_id <$> workstations db ∧
    let active_w :=
      filter (λ m, worker_active db start_time end_time
                     (WorkerMetrics.worker_id m)) wms in
    let active_s :=
      filter (λ m, station_active db start_time end_time
                     (WorkstationMetrics.station_id m)) sms in
    within_output_precision (FactoryMetrics.average_worker_utilization fm)
      (mean (WorkerMetrics.utilization_percentage <$> active_w)) ∧
    FactoryMetrics.active_workers fm = len active_w ∧
    FactoryMetrics.active_workers fm =
      len (filter (λ w, worker_active db start_time end_time
                          (Worker.worker_id w)) (workers db)) ∧
    within_output_precision (FactoryMetrics.average_workstation_utilization fm)
      (mean (WorkstationMetrics.utilization_percentage <$> active_s)) ∧
    FactoryMetrics.active_workstations fm = len active_s ∧
    FactoryMetrics.active_workstations fm =
      len (filter (λ s, station_active db start_time end_time
                          (Workstation.station_id s)) (workstations db)) ∧
    (∀ m, active_w = [m] →
       FactoryMetrics.average_worker_utilization fm =
       WorkerMetrics.utilization_percentage m) ∧
    (∀ m, active_s = [m] →
       FactoryMetrics.average_workstation_utilization fm =
       WorkstationMetrics.utilization_percentage m) ∧
    (active_w = [] → FactoryMetrics.average_worker_utilization fm = 0%Q) ∧
    (active_s = [] →
       FactoryMetrics.average_workstation_utilization fm = 0%Q) ∧
    (∀ m1 m2,
       wms = [m1; m2] →
       worker_active db start_time end_time (WorkerMetrics.worker_id m1) →
       WorkerMetrics.utilization_percentage m1 = 80%Q →
       ¬ worker_active db start_time end_time (WorkerMetrics.worker_id m2) →
       FactoryMetrics.average_worker_utilization fm = 80%Q ∧
       FactoryMetrics.active_workers fm = 1).
Proof.
  exists (factory_value db start_time end_time).
  exists (worker_row_value db start_time end_time <$> workers db).
  exists (station_row_value db start_time end_time <$> workstations db).
  split; [apply compute_factory_metrics_eq|].
  split; [apply compute_worker_metrics_eq|].
  split; [apply compute_workstation_metrics_eq|].
  split; [apply row_ids_of_workers|].
  split; [apply row_ids_of_workstations|].
  cbv zeta. unfold factory_value. simpl.
  rewrite active_worker_rows, active_station_rows.
  split_and!; try reflexivity.
  - by apply round2_reports.
  - rewrite (filter_fmap_iff _ _
      (λ w, worker_active db start_time end_time (Worker.worker_id w)))
      by done.
    apply len_fmap.
  - by apply round2_reports.
  - rewrite (filter_fmap_iff _ _
      (λ s, station_active db start_time end_time (Workstation.station_id s)))
      by done.
    apply len_fmap.
  - intros m Hm. rewrite Hm.
    assert (Hin : m ∈ [m]) by left. rewrite <- Hm in Hin.
    apply list_elem_of_filter in Hin as [_ Hin].
    apply list_elem_of_fmap in Hin as (w & -> & _).
    apply average_of_one_row.
  - intros m Hm. rewrite Hm.
    assert (Hin : m ∈ [m]) by left. rewrite <- Hm in Hin.
    apply list_elem_of_filter in Hin as [_ Hin].
    apply list_elem_of_fmap in Hin as (s & -> & _).
    apply average_of_one_row.
  - intros ->. reflexivity.
  - intros ->. reflexivity.
  - intros m1 m2 -> Hact Hutil Hidle.
    rewrite filter_cons_True by done.
    rewrite filter_cons_False by done.
    rewrite filter_nil. simpl. rewrite Hutil. split; reflexivity.
Qed.

(** ** Rounding of the outputs *)

(** C8, as stated, fails: the factory-level average is taken over the
    per-worker [utilization_percentage] values after they have been
    rounded.  Three active workers with exact utilizations 100/3, 100/3 and
    25 give 30.55, where the mean of the unrounded values rounds to
    30.56. *)
Lemma factory_average_is_taken_over_rounded_rows :
  ∃ fm,
    compute_factory_metrics rounding_db None None = Ok fm ∧
    (FactoryMetrics.average_worker_utilization fm == 30.55)%Q ∧
    (round2 (mean (worker_utilization_exact rounding_db None None <$>
                   filter (λ w, worker_active rounding_db None None
                                  (Worker.worker_id w))
                     (workers rounding_db))) == 30.56)%Q ∧
    ¬ (FactoryMetrics.average_worker_utilization fm ==
       round2 (mean (worker_utilization_exact rounding_db None None <$>
                     filter (λ w, worker_active rounding_db None None
                                    (Worker.worker_id w))
                       (workers rounding_db))))%Q.
Proof.
  eexists. split; [vm_compute; reflexivity|].
  split; [reflexivity|]. split; [vm_compute; reflexivity|].
  vm_compute. discriminate.
Qed.

(** C8, amended. Every numeric field of a per-worker or per-workstation
    row, and every total and the production rate of the factory record, is
    a two-decimal value that agrees with the full-precision value of its
    formula to the precision of the output: nothing is rounded inside a
    record.  The two factory averages are two-decimal values that agree,
    to the same precision, with the mean of the already rounded
    [utilization_percentage] fields of the rows with at least one event,
    and they depend on the events through these rounded fields only: two
    queries whose active rows show the same utilizations return the same
    average. *)
Theorem metrics_are_rounded_per_record
    (db db' : Database) (start_time end_time start_time' end_time' : option Z) :
  ∃ wms sms fm,
    compute_worker_metrics db None start_time end_time = Ok wms ∧
    compute_workstation_metrics db None start_time end_time = Ok sms ∧
    compute_factory_metrics db start_time end_time = Ok fm ∧
    Forall2 (λ w m,
      let counted ty :=
        len (in_window db start_time end_time
               (λ e, Event.worker_id e = Worker.worker_id w ∧
                     Event.event_type e = ty)) in
      let active := counted "working" * EVENT_DURATION_MINUTES in
      let idle := counted "idle" * EVENT_DURATION_MINUTES in
      let produced :=
        units (in_window db start_time end_time
                 (λ e, Event.worker_id e = Worker.worker_id w ∧
                       Event.event_type e = "product_count")) in
      WorkerMetrics.total_active_time_minutes m = inject_Z active ∧
      WorkerMetrics.total_idle_time_minutes m = inject_Z idle ∧
      WorkerMetrics.total_absent_time_minutes m =
        inject_Z (counted "absent" * EVENT_DURATION_MINUTES) ∧
      two_decimals (WorkerMetrics.utilization_percentage m) ∧
      within_output_precision (WorkerMetrics.utilization_percentage m)
        (percentage active (active + idle)) ∧
      two_decimals (WorkerMetrics.units_per_hour m) ∧
      within_output_precision (WorkerMetrics.units_per_hour m)
        (hourly_rate produced active))
      (workers db) wms ∧
    Forall2 (λ s m,
      let counted ty :=
        len (in_window db start_time end_time
               (λ e, Event.workstation_id e = Workstation.station_id s ∧
                     Event.event_type e = ty)) in
      let working := counted "working" * EVENT_DURATION_MINUTES in
      let idle := counted "idle" * EVENT_DURATION_MINUTES in
      let produced :=
        units (in_window db start_time end_time
                 (λ e, Event.workstation_id e = Workstation.station_id s ∧
                       Event.event_type e = "product_count")) in
      WorkstationMetrics.working_time_minutes m = inject_Z working ∧
      WorkstationMetrics.idle_time_minutes m = inject_Z idle ∧
      WorkstationMetrics.occupancy_time_minutes m = inject_Z (working + idle) ∧
      two_decimals (WorkstationMetrics.utilization_percentage m) ∧
      within_output_precision (WorkstationMetrics.utilization_percentage m)
        (percentage working (working + idle)) ∧
      two_decimals (WorkstationMetrics.throughput_rate m) ∧
      within_output_precision (WorkstationMetrics.throughput_rate m)
        (hourly_rate produced (working + idle)))
      (workstations db) sms ∧
    (let counted ty :=
       len (in_window db start_time end_time
              (λ e, Event.event_type e = ty)) in
     let productive := counted "working" * EVENT_DURATION_MINUTES in
     let produced :=
       units (in_window db start_time end_time
                (λ e, Event.event_type e = "product_count")) in
     FactoryMetrics.total_productive_time_minutes fm = inject_Z productive ∧
     FactoryMetrics.total_idle_time_minutes fm =
       inject_Z (counted "idle" * EVENT_DURATION_MINUTES) ∧
     two_decimals (FactoryMetrics.average_production_rate fm) ∧
     within_output_precision (FactoryMetrics.average_production_rate fm)
       (hourly_rate produced productive)) ∧
    two_decimals (FactoryMetrics.average_worker_utilization fm) ∧
    within_output_precision (FactoryMetrics.average_worker_utilization fm)
      (mean (WorkerMetrics.utilization_percentage <$>
             filter (λ m, 0 < WorkerMetrics.event_count m) wms)) ∧
    two_decimals (FactoryMetrics.average_workstation_utilization fm) ∧
    within_output_precision (FactoryMetrics.average_workstation_utilization fm)
      (mean (WorkstationMetrics.utilization_percentage <$>
             filter (λ m, 0 < WorkstationMetrics.event_count m) sms)) ∧
    (∀ wms' sms' fm',
       compute_worker_metrics db' None start_time' end_time' = Ok wms' →
       compute_workstation_metrics db' None start_time' end_time' = Ok sms' →
       compute_factory_metrics db' start_time' end_time' = Ok fm' →
       (WorkerMetrics.utilization_percentage <$>
          filter (λ m, 0 < WorkerMetrics.event_count m) wms' =
        WorkerMetrics.utilization_percentage <$>
          filter (λ m, 0 < WorkerMetrics.event_count m) wms →
        FactoryMetrics.average_worker_utilization fm' =
        FactoryMetrics.average_worker_utilization fm) ∧
       (WorkstationMetrics.utilization_percentage <$>
          filter (λ m, 0 < WorkstationMetrics.event_count m) sms' =
        WorkstationMetrics.utilization_percentage <$>
          filter (λ m, 0 < WorkstationMetrics.event_count m) sms →
        FactoryMetrics.average_workstation_utilization fm' =
        FactoryMetrics.average_workstation_utilization fm)).
Proof.
  exists (worker_row_value db start_time end_time <$> workers db).
  exists (station_row_value db start_time end_time <$> workstations db).
  exists (factory_value db start_time end_time).
  split; [apply compute_worker_metrics_eq|].
  split; [apply compute_workstation_metrics_eq|].
  split; [apply compute_factory_metrics_eq|].
  split_and!.
  - apply Forall2_fmap_r, Forall_Forall2_diag, Forall_forall.
    intros w _. cbv beta delta [compose]. rewrite worker_row_counts.
    cbv zeta. simpl.
    split_and!; try reflexivity;
      first [apply two_decimals_round2 | by apply round2_reports].
  - apply Forall2_fmap_r, Forall_Forall2_diag, Forall_forall.
    intros s _. cbv beta delta [compose]. rewrite station_row_counts.
    cbv zeta. simpl.
    split_and!; try reflexivity;
      first [apply two_decimals_round2 | by apply round2_reports].
  - cbv zeta. unfold factory_value. simpl.
    rewrite !round2_inject_Z, !count_type_window, units_of_window.
    split_and!; try reflexivity;
      first [apply two_decimals_round2 | by apply round2_reports].
  - apply two_decimals_round2.
  - by apply round2_reports.
  - apply two_decimals_round2.
  - by apply round2_reports.
  - intros wms' sms' fm'.
    rewrite compute_worker_metrics_eq, compute_workstation_metrics_eq,
      compute_factory_metrics_eq.
    unfold select_workers, select_stations. cbn [truthy].
    intros [= <-] [= <-] [= <-]. unfold factory_value.
    cbn [FactoryMetrics.average_worker_utilization
         FactoryMetrics.average_workstation_utilization].
    split; intros ->; reflexivity.
Qed.
(** ** The session *)

Lemma bindable_make_event (event : EventCreate.t) (now : Z) :
  bindable (make_event event now) ↔ count_fits event.
Proof. reflexivity. Qed.

Lemma flush_add_fresh (e : Event.t) (s : Session) :
  session_new s = [] → bindable e →
  dedup_key e ∉ dedup_key <$> (events (committed s) ++ session_flushed s) →
  flush (add e s) =
  (Ok (), {| committed := committed s; session_new := [];
             session_flushed := session_flushed s ++ [e] |}).
Proof.
  intros Hnew Hbind Hfresh. unfold flush, add. simpl. rewrite Hnew. simpl.
  rewrite decide_True by done. by rewrite decide_False.
Qed.

Lemma flush_add_conflict (e : Event.t) (s : Session) :
  session_new s = [] → bindable e →
  dedup_key e ∈ dedup_key <$> (events (committed s) ++ session_flushed s) →
  flush (add e s) = (Raise IntegrityError, add e s).
Proof.
  intros Hnew Hbind Hdup. unfold flush, add. simpl. rewrite Hnew. simpl.
  rewrite decide_True by done. by rewrite decide_True.
Qed.

Lemma flush_add_overflow (e : Event.t) (s : Session) :
  session_new s = [] → ¬ bindable e →
  flush (add e s) = (Raise OverflowError, add e s).
Proof.
  intros Hnew Hbind. unfold flush, add. simpl. rewrite Hnew. simpl.
  by rewrite decide_False.
Qed.

Lemma commit_flushed (s : Session) :
  session_new s = [] →
  commit s =
  (Ok (), {| committed := with_events (committed s)
                            (events (committed s) ++ session_flushed s);
             session_new := []; session_flushed := [] |}).
Proof.
  intros Hnew. unfold commit, flush. rewrite Hnew. reflexivity.
Qed.

(** ** The batch loop *)

Lemma not_valid_worker db wid :
  wid ∉ valid_worker_ids db ↔ wid ∉ (Worker.worker_id <$> workers db).
Proof. unfold valid_worker_ids. by rewrite elem_of_list_to_set. Qed.

Lemma not_valid_station db sid :
  sid ∉ valid_station_ids db ↔
  sid ∉ (Workstation.station_id <$> workstations db).
Proof. unfold valid_station_ids. by rewrite elem_of_list_to_set. Qed.

(** The loop of the batch handler over a database. *)
Abbreviation batch_run db utcnow :=
  (batch_for (batch_step (valid_worker_ids db) (valid_station_ids db) utcnow)).

Lemma batch_for_cons step (st : BatchState) event rest :
  batch_for step st (event :: rest) =
  match step st event with
  | Ok st' => batch_for step st' rest
  | Raise e => Raise e
  end.
Proof. reflexivity. Qed.

(** The four outcomes of one iteration: a diagnostic, a stored row, a
    duplicate with its rollback, or the exception that ends the loop. *)
Lemma batch_step_cases db utcnow (st : BatchState) (event : EventCreate.t) :
  session_new (bs_session st) = [] →
  let st' := batch_step (valid_worker_ids db) (valid_station_ids db) utcnow
               st event in
  let row := make_event event (utcnow (bs_ticks st)) in
  let seen := dedup_key <$> (events (committed (bs_session st)) ++
                             session_flushed (bs_session st)) in
  (fails_reference db event ∧
   st' = Ok {| bs_session := bs_session st; bs_stored := bs_stored st;
               bs_duplicates := bs_duplicates st;
               bs_errors := bs_errors st ++ [diagnostic db event];
               bs_ticks := bs_ticks st |}) ∨
  (¬ fails_reference db event ∧ count_fits event ∧ (dedup_key row ∉ seen) ∧
   st' = Ok {| bs_session :=
                 {| committed := committed (bs_session st); session_new := [];
                    session_flushed := session_flushed (bs_session st) ++ [row] |};
               bs_stored := bs_stored st + 1;
               bs_duplicates := bs_duplicates st; bs_errors := bs_errors st;
               bs_ticks := S (bs_ticks st) |}) ∨
  (¬ fails_reference db event ∧ count_fits event ∧ (dedup_key row ∈ seen) ∧
   st' = Ok {| bs_session :=
                 {| committed := committed (bs_session st); session_new := [];
                    session_flushed := [] |};
               bs_stored := bs_stored st;
               bs_duplicates := bs_duplicates st + 1; bs_errors := bs_errors st;
               bs_ticks := S (bs_ticks st) |}) ∨
  (¬ fails_reference db event ∧ ¬ count_fits event ∧
   st' = Raise OverflowError).
Proof.
  intros Hnew. cbv zeta. unfold batch_step, fails_reference, diagnostic.
  destruct (decide (EventCreate.worker_id event ∉ valid_worker_ids db))
    as [Hw|Hw].
  { apply not_valid_worker in Hw. left. rewrite decide_False by done. auto. }
  destruct (decide (EventCreate.workstation_id event ∉ valid_station_ids db))
    as [Hs|Hs].
  { apply not_valid_station in Hs. left. split; [auto|].
    rewrite not_valid_worker in Hw. apply dec_stable in Hw.
    by rewrite decide_True. }
  rewrite not_valid_worker in Hw. rewrite not_valid_station in Hs.
  right.
  destruct (decide (count_fits event)) as [Hfit|Hfit].
  2:{ right. right. rewrite flush_add_overflow by done.
      split_and!; [tauto|done|done]. }
  destruct (decide (dedup_key (make_event event (utcnow (bs_ticks st))) ∈
                    dedup_key <$> (events (committed (bs_session st)) ++
                                   session_flushed (bs_session st))))
    as [Hdup|Hfresh].
  - right. left. rewrite flush_add_conflict by done.
    split_and!; [tauto|done|done|done].
  - left. rewrite flush_add_fresh by done.
    split_and!; [tauto|done|done|done].
Qed.

(** Takes the first iteration of the loop in [Hrun] apart; the iteration
    that raises is closed, three are left. *)
Ltac loop_step db utcnow st0 event Hnew Hrun Hf Hfit Hkey :=
  rewrite batch_for_cons in Hrun;
  destruct (batch_step_cases db utcnow st0 event Hnew)
    as [[Hf Hstep]|[(Hf & Hfit & Hkey & Hstep)|[(Hf & Hfit & Hkey & Hstep)
       |(Hf & Hfit & Hstep)]]];
  rewrite Hstep in Hrun; clear Hstep; [ | | |discriminate Hrun].

(** The loop runs to its end when the count of every item that passes
    reference validation can be bound, and only then; otherwise it ends
    with [OverflowError]. *)
Lemma batch_loop_returns db utcnow (batch : list EventCreate.t) (st0 : BatchState) :
  session_new (bs_session st0) = [] →
  Forall (λ ev, ¬ fails_reference db ev → count_fits ev) batch →
  ∃ st, batch_run db utcnow st0 batch = Ok st.
Proof.
  revert st0. induction batch as [|event batch IH]; intros st0 Hnew Hfit;
    [by eexists|].
  apply Forall_cons in Hfit as [Hhd Htl]. rewrite batch_for_cons.
  destruct (batch_step_cases db utcnow st0 event Hnew)
    as [[Hf ->]|[(Hf & _ & _ & ->)|[(Hf & _ & _ & ->)|(Hf & Hno & _)]]];
    [by apply IH..|].
  exfalso. by apply Hno, Hhd.
Qed.

Lemma batch_loop_fits db utcnow (batch : list EventCreate.t) (st0 st : BatchState) :
  session_new (bs_session st0) = [] →
  batch_run db utcnow st0 batch = Ok st →
  Forall (λ ev, ¬ fails_reference db ev → count_fits ev) batch.
Proof.
  revert st0. induction batch as [|event batch IH]; intros st0 Hnew Hrun;
    [by apply Forall_nil|].
  loop_step db utcnow st0 event Hnew Hrun Hf Hfit Hkey;
    (apply Forall_cons; split; [done|by eapply IH; [|exact Hrun]]).
Qed.

Lemma batch_loop_raises db utcnow (batch : list EventCreate.t) (st0 : BatchState) e :
  session_new (bs_session st0) = [] →
  batch_run db utcnow st0 batch = Raise e →
  e = OverflowError ∧
  Exists (λ ev, ¬ fails_reference db ev ∧ ¬ count_fits ev) batch.
Proof.
  revert st0. induction batch as [|event batch IH]; intros st0 Hnew Hrun;
    [discriminate|].
  rewrite batch_for_cons in Hrun.
  destruct (batch_step_cases db utcnow st0 event Hnew)
    as [[Hf Hs]|[(Hf & _ & _ & Hs)|[(Hf & _ & _ & Hs)|(Hf & Hno & Hs)]]];
    rewrite Hs in Hrun.
  1-3: apply IH in Hrun as [-> Hex]; [|done];
       (split; [done|by apply Exists_cons_tl]).
  injection Hrun as <-. split; [done|]. by apply Exists_cons_hd.
Qed.

Lemma batch_loop_overflow db utcnow (batch : list EventCreate.t) (st0 : BatchState) :
  session_new (bs_session st0) = [] →
  Exists (λ ev, ¬ fails_reference db ev ∧ ¬ count_fits ev) batch →
  batch_run db utcnow st0 batch = Raise OverflowError.
Proof.
  intros Hnew Hex.
  destruct (batch_run db utcnow st0 batch) as [st|e] eqn:Hrun.
  2:{ by destruct (batch_loop_raises _ _ _ _ _ Hnew Hrun) as [-> _]. }
  exfalso. pose proof (batch_loop_fits _ _ _ _ _ Hnew Hrun) as Hall.
  apply Exists_exists in Hex as (ev & Hev & Hv & Hno).
  rewrite Forall_forall in Hall. by apply Hno, Hall.
Qed.

Lemma batch_loop_invariant db utcnow (batch : list EventCreate.t)
    (st0 st : BatchState) :
  session_new (bs_session st0) = [] →
  batch_run db utcnow st0 batch = Ok st →
  session_new (bs_session st) = [] ∧
  committed (bs_session st) = committed (bs_session st0) ∧
  bs_errors st = bs_errors st0 ++ (diagnostic db <$> filter (fails_reference db) batch) ∧
  bs_stored st0 ≤ bs_stored st ∧
  bs_duplicates st0 ≤ bs_duplicates st ∧
  (bs_stored st - bs_stored st0) + (bs_duplicates st - bs_duplicates st0) +
    len (filter (fails_reference db) batch) = len batch.
Proof.
  revert st0. induction batch as [|event batch IH]; intros st0 Hnew Hrun.
  { injection Hrun as <-. rewrite app_nil_r. unfold len. simpl.
    split_and!; try done; lia. }
  loop_step db utcnow st0 event Hnew Hrun Hf Hfit Hkey;
    (apply IH in Hrun as (I1 & I2 & I3 & I4 & I5 & I6); [|done]);
    simpl in *.
  - rewrite filter_cons_True by done. rewrite fmap_cons, I3, <- app_assoc.
    unfold len in *. simpl length. split_and!; try done; lia.
  - rewrite filter_cons_False by done.
    unfold len in *. simpl length. split_and!; try done; lia.
  - rewrite filter_cons_False by done.
    unfold len in *. simpl length. split_and!; try done; lia.
Qed.

(** What a batch call answers and leaves behind, from the end of its
    loop. *)
Lemma ingest_events_batch_cases utcnow (batch : list EventCreate.t) db :
  (∃ st,
     batch_loop utcnow batch db = Ok st ∧
     Forall (λ ev, ¬ fails_reference db ev → count_fits ev) batch ∧
     ingest_events_batch utcnow batch db =
       (Ok {| EventIngestionResult.total_received := len batch;
              EventIngestionResult.successfully_stored := bs_stored st;
              EventIngestionResult.duplicates_skipped := bs_duplicates st;
              EventIngestionResult.errors := take 10 (bs_errors st) |},
        with_events db (events db ++ session_flushed (bs_session st)))) ∨
  (Exists (λ ev, ¬ fails_reference db ev ∧ ¬ count_fits ev) batch ∧
   ingest_events_batch utcnow batch db = (Raise OverflowError, db)).
Proof.
  unfold ingest_events_batch. cbv zeta.
  destruct (batch_loop utcnow batch db) as [st|e] eqn:Hrun; unfold batch_loop in Hrun.
  - left. exists st.
    pose proof Hrun as Hinv.
    apply batch_loop_invariant in Hinv as (I1 & I2 & _); [|done].
    split; [done|]. split; [by eapply batch_loop_fits; [|exact Hrun]|].
    rewrite commit_flushed by done. simpl. by rewrite I2.
  - right. by apply batch_loop_raises in Hrun as [-> Hex].
Qed.

Lemma counts_fit_valid db (batch : list EventCreate.t) :
  Forall count_fits batch →
  Forall (λ ev, ¬ fails_reference db ev → count_fits ev) batch.
Proof. intros Hfit. eapply Forall_impl; [exact Hfit|]. auto. Qed.

(** A batch call whose counts can all be bound returns a summary. *)
Lemma ingest_events_batch_returns utcnow (batch : list EventCreate.t) db :
  Forall (λ ev, ¬ fails_reference db ev → count_fits ev) batch →
  ∃ st,
    batch_loop utcnow batch db = Ok st ∧
    ingest_events_batch utcnow batch db =
      (Ok {| EventIngestionResult.total_received := len batch;
             EventIngestionResult.successfully_stored := bs_stored st;
             EventIngestionResult.duplicates_skipped := bs_duplicates st;
             EventIngestionResult.errors := take 10 (bs_errors st) |},
       with_events db (events db ++ session_flushed (bs_session st))).
Proof.
  intros Hfit.
  destruct (ingest_events_batch_cases utcnow batch db)
    as [(st & Hrun & _ & Hres)|[Hex _]]; [by eauto|].
  exfalso. apply Exists_exists in Hex as (ev & Hev & Hv & Hno).
  rewrite Forall_forall in Hfit. by apply Hno, Hfit.
Qed.

(** C10. A batch call whose submitted counts fit the signed 64-bit
    [Integer] column returns a summary, and its counters account for every
    item exactly once: stored + duplicates + (items that failed reference
    validation) = total received = the length of the batch.  The returned
    diagnostics are the first ten of the reference failures, so never more
    than ten. *)
Theorem batch_counters_account_for_every_item
    (utcnow : nat → Z) (batch : list EventCreate.t) (db : Database)
    (Hfit : Forall count_fits batch) :
  ∃ r db',
    ingest_events_batch utcnow batch db = (Ok r, db') ∧
    EventIngestionResult.total_received r = len batch ∧
    0 ≤ EventIngestionResult.successfully_stored r ∧
    0 ≤ EventIngestionResult.duplicates_skipped r ∧
    EventIngestionResult.successfully_stored r +
      EventIngestionResult.duplicates_skipped r +
      len (filter (fails_reference db) batch) =
    EventIngestionResult.total_received r ∧
    EventIngestionResult.errors r =
      take 10 (diagnostic db <$> filter (fails_reference db) batch) ∧
    (length (EventIngestionResult.errors r) ≤ 10)%nat.
Proof.
  destruct (ingest_events_batch_returns utcnow batch db)
    as (st & Hrun & ->); [by apply counts_fit_valid|].
  apply batch_loop_invariant in Hrun as (I1 & I2 & I3 & I4 & I5 & I6); [|done].
  do 2 eexists. split; [reflexivity|].
  simpl in *. rewrite I3. unfold len in *.
  split_and!; [done|lia|lia|lia|done|].
  rewrite length_take. lia.
Qed.

(** ** Single-event ingestion *)

Lemma dedup_key_make_event event now :
  dedup_key (make_event event now) = create_key event.
Proof. reflexivity. Qed.

Lemma commit_add_open (e : Event.t) (db : Database) :
  commit (add e (open_session db)) =
  if decide (bindable e) then
    if decide (dedup_key e ∈ dedup_key <$> events db)
    then (Raise IntegrityError, add e (open_session db))
    else (Ok (), open_session (with_events db (events db ++ [e])))
  else (Raise OverflowError, add e (open_session db)).
Proof.
  unfold commit.
  destruct (decide (bindable e)) as [Hbind|Hbind].
  2:{ by rewrite flush_add_overflow. }
  destruct (decide (dedup_key e ∈ dedup_key <$> events db)) as [Hdup|Hfresh].
  - rewrite flush_add_conflict; [done|done|done|]. simpl. by rewrite app_nil_r.
  - rewrite flush_add_fresh; [|done|done|]; simpl; by rewrite ?app_nil_r.
Qed.

Lemma head_filter_key {A K} `{EqDecision K} (f : A → K) (l : list A) (k : K) :
  head (filter (λ y, f y = k) l) = None ↔ k ∉ f <$> l.
Proof.
  split.
  - intros Hnone Hk. apply list_elem_of_fmap in Hk as (x & -> & Hx).
    assert (Hin : x ∈ filter (λ y, f y = f x) l)
      by (by apply list_elem_of_filter).
    destruct (filter (λ y, f y = f x) l); [by apply not_elem_of_nil in Hin|].
    discriminate.
  - intros Hk. by rewrite filter_absent_key.
Qed.

(** The outcomes of [ingest_event]: a reference error, a conflict, a
    stored row, or a count that cannot be bound. *)
Lemma ingest_event_cases (now : Z) (event : EventCreate.t) (db : Database) :
  let row := make_event event now in
  (fails_reference db event ∧
   ∃ detail, ingest_event now event db = (Raise (HTTPException 400 detail), db)) ∨
  (¬ fails_reference db event ∧ count_fits event ∧
   (create_key event ∈ dedup_key <$> events db) ∧
   ∃ detail, ingest_event now event db = (Raise (HTTPException 409 detail), db)) ∨
  (¬ fails_reference db event ∧ count_fits event ∧
   (create_key event ∉ dedup_key <$> events db) ∧
   ingest_event now event db = (Ok row, with_events db (events db ++ [row]))) ∨
  (¬ fails_reference db event ∧ ¬ count_fits event ∧
   ingest_event now event db = (Raise OverflowError, db)).
Proof.
  cbv zeta. unfold ingest_event, fails_reference, first_worker, first_workstation.
  destruct (head (filter _ (workers db))) eqn:Hw.
  2:{ apply head_filter_key in Hw. left. split; [by left|by eauto]. }
  destruct (head (filter _ (workstations db))) eqn:Hs.
  2:{ apply head_filter_key in Hs. left. split; [by right|by eauto]. }
  assert (Hok : ¬ (EventCreate.worker_id event ∉ Worker.worker_id <$> workers db
                   ∨ EventCreate.workstation_id event ∉
                       Workstation.station_id <$> workstations db)).
  { intros [H|H]; apply head_filter_key in H; congruence. }
  right. rewrite commit_add_open.
  destruct (decide (bindable (make_event event now))) as [Hbind|Hbind].
  2:{ right. right. done. }
  destruct (decide (dedup_key (make_event event now) ∈ dedup_key <$> events db))
    as [Hdup|Hfresh]; simpl.
  - left. split_and!; [done|done|done|by eauto].
  - right. left. done.
Qed.

(** ** What the batch loop leaves in the open transaction *)

Lemma batch_loop_flushed db utcnow (Q : Event.t → Prop)
    (batch : list EventCreate.t) (st0 st : BatchState) :
  session_new (bs_session st0) = [] →
  Forall Q (session_flushed (bs_session st0)) →
  (∀ event n, event ∈ batch → ¬ fails_reference db event →
              Q (make_event event n)) →
  batch_run db utcnow st0 batch = Ok st →
  Forall Q (session_flushed (bs_session st)).
Proof.
  revert st0. induction batch as [|event batch IH];
    intros st0 Hnew HQ Hall Hrun; [by injection Hrun as <-|].
  assert (Htl : ∀ ev n, ev ∈ batch → ¬ fails_reference db ev →
                        Q (make_event ev n))
    by (intros ev n Hev; apply Hall; by right).
  loop_step db utcnow st0 event Hnew Hrun Hf Hfit Hkey;
    (eapply IH; [| | |exact Hrun]); simpl; try done.
  apply Forall_app. split; [done|]. apply Forall_singleton.
  apply Hall; [left|done].
Qed.

(** The rows a batch call adds to the table are rows built from items of
    the batch. *)
Lemma batch_adds_rows_of_items utcnow batch db r db' row :
  ingest_events_batch utcnow batch db = (r, db') →
  row ∈ events db' →
  row ∈ events db ∨ ∃ event n, event ∈ batch ∧ row = make_event event n.
Proof.
  destruct (ingest_events_batch_cases utcnow batch db)
    as [(st & Hrun & _ & ->)|[_ ->]]; intros [= _ <-]; [|by left].
  simpl. rewrite elem_of_app. intros [Hrow|Hrow]; [by left|right].
  assert (HF : Forall (λ row, ∃ event n, event ∈ batch ∧ row = make_event event n)
                 (session_flushed (bs_session st))).
  { eapply batch_loop_flushed; [| | |exact Hrun]; [done|done|by eauto]. }
  rewrite Forall_forall in HF. by apply HF.
Qed.

(** C2, as stated, fails: a [working] observation submitted with
    [count = 3] is stored and read back with [count = 3], by the single
    route and by the batch route alike. *)
Lemma state_event_keeps_submitted_count :
  ¬ (∀ row, row ∈ events (ingest_event 0 working_with_count line_db).2 →
            Event.event_type row ∈ ["working"; "idle"; "absent"] →
            Event.count row = Some 0) ∧
  ¬ (∀ row, row ∈ events
              (ingest_events_batch (λ _, 0) [working_with_count] line_db).2 →
            Event.event_type row ∈ ["working"; "idle"; "absent"] →
            Event.count row = Some 0).
Proof.
  split; intros Hzero;
    specialize (Hzero (make_event working_with_count 0));
    (assert (Hc : Event.count (make_event working_with_count 0) = Some 0);
     [apply Hzero; vm_compute; left | discriminate Hc]).
Qed.

(** C2, amended. The row stored for an accepted observation carries the
    submitted [count] unchanged, [0] when none was submitted, whatever the
    [event_type]: nothing on the ingestion path sets the count of a
    [working], [idle] or [absent] event to zero. *)
Theorem stored_count_is_submitted_count
    (now : Z) (utcnow : nat → Z) (event : EventCreate.t)
    (batch : list EventCreate.t) (db : Database) :
  (∀ row db', ingest_event now event db = (Ok row, db') →
     events db' = events db ++ [row] ∧
     Event.event_type row = EventCreate.event_type event ∧
     Event.count row = Some (or0 (EventCreate.count event))) ∧
  (∀ r db' row, ingest_events_batch utcnow batch db = (r, db') →
     row ∈ events db' →
     row ∈ events db ∨
     ∃ item, item ∈ batch ∧
       dedup_key row = create_key item ∧
       Event.event_type row = EventCreate.event_type item ∧
       Event.count row = Some (or0 (EventCreate.count item))).
Proof.
  split.
  - intros row db' Hrun.
    destruct (ingest_event_cases now event db)
      as [(_ & d & Hd)|[(_ & _ & _ & d & Hd)|[(_ & _ & _ & Hok)|(_ & _ & Hd)]]];
      rewrite Hrun in *; try discriminate.
    injection Hok as -> ->. done.
  - intros r db' row Hrun Hrow.
    destruct (batch_adds_rows_of_items _ _ _ _ _ _ Hrun Hrow)
      as [?|(item & n & Hitem & ->)]; [by left|right].
    exists item. done.
Qed.

(** ** The deduplication key stays unique *)

Lemma batch_loop_unique db utcnow (batch : list EventCreate.t)
    (st0 st : BatchState) :
  session_new (bs_session st0) = [] →
  NoDup (dedup_key <$> (events (committed (bs_session st0)) ++
                        session_flushed (bs_session st0))) →
  batch_run db utcnow st0 batch = Ok st →
  NoDup (dedup_key <$> (events (committed (bs_session st)) ++
                        session_flushed (bs_session st))).
Proof.
  revert st0. induction batch as [|event batch IH]; intros st0 Hnew Hnd Hrun;
    [by injection Hrun as <-|].
  loop_step db utcnow st0 event Hnew Hrun Hf Hfit Hkey;
    (eapply IH; [| |exact Hrun]); simpl; try done.
  - rewrite app_assoc, fmap_app. apply NoDup_app. split_and!; [done| |].
    + intros k Hk Hk'. apply list_elem_of_singleton in Hk'. by subst.
    + apply NoDup_singleton.
  - rewrite app_nil_r. rewrite fmap_app in Hnd. by apply NoDup_app in Hnd as [? _].
Qed.

(** X22. No ingestion call, single or batch, ever leaves two stored rows
    with the same [(timestamp, worker_id, workstation_id, event_type)]. *)
Lemma ingestion_keeps_dedup_key_unique
    (now : Z) (utcnow : nat → Z) (event : EventCreate.t)
    (batch : list EventCreate.t) (db : Database) :
  NoDup (dedup_key <$> events db) →
  NoDup (dedup_key <$> events (ingest_event now event db).2) ∧
  NoDup (dedup_key <$> events (ingest_events_batch utcnow batch db).2).
Proof.
  intros Hnd. split.
  - destruct (ingest_event_cases now event db)
      as [(_ & d & ->)|[(_ & _ & _ & d & ->)|[(_ & _ & Hfresh & ->)|(_ & _ & ->)]]];
      simpl; try done.
    rewrite fmap_app. apply NoDup_app. split_and!; [done| |apply NoDup_singleton].
    intros k Hk Hk'. apply list_elem_of_singleton in Hk'. by subst.
  - destruct (ingest_events_batch_cases utcnow batch db)
      as [(st & Hrun & _ & ->)|[_ ->]]; [|done].
    pose proof Hrun as Hinv.
    apply batch_loop_invariant in Hinv as (I1 & I2 & _); [|done].
    apply batch_loop_unique in Hrun; [|done|by simpl; rewrite app_nil_r].
    simpl in *. by rewrite I2 in Hrun.
Qed.

(** X23. A second single submission of a stored key, with a count that
    fits the [Integer] column, is answered with the conflict 409 and
    changes nothing: one row stays under the key. *)
Lemma second_single_submission_conflicts
    (now now' : Z) (event event' : EventCreate.t) (db db' : Database) (row : Event.t) :
  NoDup (dedup_key <$> events db) →
  create_key event' = create_key event →
  count_fits event' →
  ingest_event now event db = (Ok row, db') →
  rows_with_key (create_key event) db' = 1 ∧
  ∃ detail,
    ingest_event now' event' db' = (Raise (HTTPException 409 detail), db').
Proof.
  intros Hnd Hkey Hfit' Hrun.
  destruct (ingest_event_cases now event db)
    as [(_ & d & Hd)|[(_ & _ & _ & d & Hd)|[(Hvalid & _ & Hfresh & Hok)
       |(_ & _ & Hd)]]];
    rewrite Hrun in *; try discriminate.
  injection Hok as -> ->. split.
  - unfold rows_with_key. simpl.
    rewrite filter_app, (filter_absent_key dedup_key) by done.
    rewrite filter_cons_True by done. reflexivity.
  - destruct (ingest_event_cases now' event'
                (with_events db (events db ++ [make_event event now])))
      as [(Hf & _)|[(_ & _ & _ & d & Hd)|[(_ & _ & Hfresh' & _)|(_ & Hno & _)]]].
    + exfalso. apply Hvalid. unfold fails_reference in *. simpl in Hf.
      unfold create_key in Hkey. injection Hkey as Hts Hw Hs Hty.
      by rewrite Hw, Hs in Hf.
    + eauto.
    + exfalso. apply Hfresh'. simpl. rewrite fmap_app, elem_of_app. right.
      rewrite Hkey. by left.
    + done.
Qed.

(** ** Reference failures are isolated *)

Lemma batch_loop_without_collisions db utcnow (batch : list EventCreate.t)
    (st0 st : BatchState) :
  session_new (bs_session st0) = [] →
  NoDup ((dedup_key <$> (events (committed (bs_session st0)) ++
                         session_flushed (bs_session st0))) ++
         (create_key <$> filter (λ ev, ¬ fails_reference db ev) batch)) →
  batch_run db utcnow st0 batch = Ok st →
  dedup_key <$> session_flushed (bs_session st) =
    (dedup_key <$> session_flushed (bs_session st0)) ++
    (create_key <$> filter (λ ev, ¬ fails_reference db ev) batch) ∧
  bs_stored st =
    bs_stored st0 + len (filter (λ ev, ¬ fails_reference db ev) batch) ∧
  bs_duplicates st = bs_duplicates st0.
Proof.
  revert st0. induction batch as [|event batch IH]; intros st0 Hnew Hnd Hrun.
  { injection Hrun as <-. simpl. rewrite app_nil_r. unfold len. simpl.
    split_and!; try done; lia. }
  loop_step db utcnow st0 event Hnew Hrun Hf Hfit Hkey.
  - rewrite filter_cons_False in Hnd |- * by tauto.
    apply IH in Hrun as (J1 & J2 & J3); done.
  - rewrite filter_cons_True in Hnd |- * by done.
    match type of Hrun with batch_for _ ?s _ = _ =>
      destruct (IH s) as (J1 & J2 & J3); [done| |done|]
    end.
    + simpl. rewrite app_assoc, fmap_app. simpl.
      rewrite fmap_cons in Hnd. rewrite <- app_assoc. done.
    + simpl in *. rewrite J1, J2, J3, fmap_app, <- app_assoc.
      unfold len. simpl length. split_and!; try done; lia.
  - exfalso. rewrite filter_cons_True in Hnd by done.
    rewrite fmap_cons in Hnd. apply NoDup_app in Hnd as (_ & Hdisj & _).
    apply (Hdisj _ Hkey). left.
Qed.

(** X24. When the submitted counts fit the [Integer] column and no valid
    item of a batch collides with a stored row or with another valid item,
    every valid item is stored, in order, whatever the number and position
    of the items that fail reference validation; those appear in the
    diagnostics only. *)
Lemma reference_failures_do_not_affect_other_items
    (utcnow : nat → Z) (batch : list EventCreate.t) (db : Database) :
  Forall count_fits batch →
  NoDup ((dedup_key <$> events db) ++
         (create_key <$> filter (λ ev, ¬ fails_reference db ev) batch)) →
  ∃ r db',
    ingest_events_batch utcnow batch db = (Ok r, db') ∧
    dedup_key <$> events db' =
      (dedup_key <$> events db) ++
      (create_key <$> filter (λ ev, ¬ fails_reference db ev) batch) ∧
    EventIngestionResult.successfully_stored r =
      len (filter (λ ev, ¬ fails_reference db ev) batch) ∧
    EventIngestionResult.duplicates_skipped r = 0 ∧
    EventIngestionResult.errors r =
      take 10 (diagnostic db <$> filter (fails_reference db) batch).
Proof.
  intros Hfit Hnd.
  destruct (ingest_events_batch_returns utcnow batch db)
    as (st & Hrun & ->); [by apply counts_fit_valid|].
  pose proof Hrun as Hinv.
  apply batch_loop_invariant in Hinv as (I1 & I2 & I3 & _); [|done].
  apply batch_loop_without_collisions in Hrun as (J1 & J2 & J3);
    [|done|by simpl; rewrite app_nil_r].
  do 2 eexists. split; [reflexivity|].
  simpl in *. rewrite I3, fmap_app, J1, J2, J3. done.
Qed.

(** ** Duplicates inside a batch *)

(** The observations used below pass the request schema. *)
Lemma sample_requests_are_well_formed :
  Forall well_formed (working_with_count :: resend_batch ++ twice_batch).
Proof.
  repeat apply Forall_cons_2; [..|apply Forall_nil_2];
    (split_and!; [by eexists|discriminate|discriminate|done]).
Qed.

(** C1, at a failing input. The store holds the observation of instant 1;
    the batch carries a new, valid observation (instant 2) followed by a
    re-sent copy of the stored one.  The call reports
    [successfully_stored = 1] and [duplicates_skipped = 1], but the
    rollback that handles the duplicate has discarded the row of instant 2:
    the table is what it was before the call. *)
Theorem duplicate_in_batch_discards_earlier_items :
  ¬ fails_reference stored_db (sample_create 2 "W1" "S1" "working" None) ∧
  rows_with_key (create_key (sample_create 2 "W1" "S1" "working" None))
    stored_db = 0 ∧
  ingest_events_batch (λ _, 50) resend_batch stored_db =
    (Ok {| EventIngestionResult.total_received := 2;
           EventIngestionResult.successfully_stored := 1;
           EventIngestionResult.duplicates_skipped := 1;
           EventIngestionResult.errors := [] |},
     stored_db) ∧
  rows_with_key (create_key (sample_create 2 "W1" "S1" "working" None))
    (ingest_events_batch (λ _, 50) resend_batch stored_db).2 = 0.
Proof.
  split_and!; [|vm_compute; reflexivity..].
  unfold fails_reference. simpl. intros [H|H]; apply H; left.
Qed.

(** C3, at a failing input. The same valid observation twice in one batch,
    on a store without events: the first copy is INSERTed, the second
    collides with it, and the rollback removes both.  The call reports one
    stored and one duplicate, and no row with that key exists afterwards. *)
Theorem duplicate_pair_in_one_batch_stores_no_row :
  ingest_events_batch (λ _, 50) twice_batch line_db =
    (Ok {| EventIngestionResult.total_received := 2;
           EventIngestionResult.successfully_stored := 1;
           EventIngestionResult.duplicates_skipped := 1;
           EventIngestionResult.errors := [] |},
     line_db) ∧
  rows_with_key (create_key (sample_create 1 "W1" "S1" "working" None))
    (ingest_events_batch (λ _, 50) twice_batch line_db).2 = 0.
Proof. split; vm_compute; reflexivity. Qed.
(** * Instances of the theorems at concrete inputs *)

Lemma worker_metrics_time_inference_witness :
  ∃ m,
    compute_worker_metrics throughput_db (Some "W1") None None = Ok [m] ∧
    WorkerMetrics.total_active_time_minutes m = 50%Q ∧
    WorkerMetrics.total_idle_time_minutes m = 25%Q ∧
    WorkerMetrics.utilization_percentage m = (6667 # 100)%Q.
Proof.
  destruct (worker_metrics_time_inference throughput_db (Some "W1") None None)
    as (ms & Hms & HF).
  change (requested_workers throughput_db (Some "W1"))
    with [Worker.mk "W1" "John Martinez"] in HF.
  apply Forall2_cons_inv_l in HF as (m & ms' & Hm & HF & ->).
  apply Forall2_nil_inv_l in HF as ->.
  destruct Hm as (_ & _ & _ & _ & _ & _ & Hscenario).
  exists m. split; [exact Hms|].
  apply Hscenario; vm_compute; reflexivity.
Defined.

(** Closes a decidable statement about concrete data by evaluation. *)
Ltac by_evaluation := apply (bool_decide_unpack _); vm_compute; exact I.

Lemma factory_averages_over_active_entities_witness :
  ∃ fm,
    compute_factory_metrics eighty_db None None = Ok fm ∧
    FactoryMetrics.average_worker_utilization fm = 80%Q ∧
    FactoryMetrics.active_workers fm = 1.
Proof.
  destruct (factory_averages_over_active_entities eighty_db None None)
    as (fm & wms & sms & Hfm & Hwms & _ & _ & _ & _ & _ & _ & _ & _ & _ & _
        & _ & _ & _ & Hscenario).
  exists fm. split; [exact Hfm|].
  rewrite compute_worker_metrics_eq in Hwms. injection Hwms as Hwms.
  apply (Hscenario
           (worker_row_value eighty_db None None (Worker.mk "W1" "John Martinez"))
           (worker_row_value eighty_db None None (Worker.mk "W2" "Sarah Chen"))).
  - symmetry. exact Hwms.
  - by_evaluation.
  - vm_compute. reflexivity.
  - by_evaluation.
Defined.

Lemma metrics_divisions_are_guarded_witness :
  ∃ m s fm,
    compute_worker_metrics absent_db None None None = Ok [m] ∧
    compute_workstation_metrics absent_db None None None = Ok [s] ∧
    compute_factory_metrics absent_db None None = Ok fm ∧
    WorkerMetrics.utilization_percentage m = 0%Q ∧
    WorkerMetrics.units_per_hour m = 0%Q ∧
    WorkstationMetrics.utilization_percentage s = 0%Q ∧
    WorkstationMetrics.throughput_rate s = 0%Q ∧
    FactoryMetrics.average_production_rate fm = 0%Q.
Proof.
  destruct (metrics_divisions_are_guarded absent_db None None None None)
    as (wms & sms & fm & Hw & Hs & Hf & HFw & HFs & Hrate).
  change (select_workers absent_db None)
    with [Worker.mk "W1" "John Martinez"] in HFw.
  change (select_stations absent_db None)
    with [Workstation.mk "S1" "Assembly Line A" (Some "Assembly")] in HFs.
  apply Forall2_cons_inv_l in HFw as (m & ? & [Hutil Hrate_w] & HFw & ->).
  apply Forall2_nil_inv_l in HFw as ->.
  apply Forall2_cons_inv_l in HFs as (s & ? & [Hutil_s Hrate_s] & HFs & ->).
  apply Forall2_nil_inv_l in HFs as ->.
  exists m, s, fm. split_and!; try done.
  - apply Hutil; vm_compute; reflexivity.
  - apply Hrate_w; vm_compute; reflexivity.
  - apply Hutil_s; vm_compute; reflexivity.
  - apply Hrate_s; vm_compute; reflexivity.
  - apply Hrate; vm_compute; reflexivity.
Defined.

Lemma window_is_inclusive_on_timestamp_witness :
  compute_factory_metrics
    (with_events line_db
       [sample_event 1 "W1" "S1" "working" None;
        sample_event 30 "W1" "S1" "working" None;
        sample_event 15 "W1" "S1" "idle" None]) (Some 1) (Some 20) =
  compute_factory_metrics
    (with_events line_db
       [sample_event 1 "W1" "S1" "working" None;
        sample_event 15 "W1" "S1" "idle" None]) (Some 1) (Some 20) ∧
  ∃ fm0 fm1 wms0 wms1 m0 m1,
    compute_factory_metrics
      (with_events line_db
         [sample_event 1 "W1" "S1" "working" None;
          sample_event 15 "W1" "S1" "idle" None]) (Some 1) (Some 20) = Ok fm0 ∧
    compute_factory_metrics
      (with_events line_db
         [sample_event 1 "W1" "S1" "working" None;
          sample_event 20 "W1" "S1" "working" None;
          sample_event 15 "W1" "S1" "idle" None]) (Some 1) (Some 20) = Ok fm1 ∧
    FactoryMetrics.total_events fm1 = FactoryMetrics.total_events fm0 + 1 ∧
    compute_worker_metrics
      (with_events line_db
         [sample_event 1 "W1" "S1" "working" None;
          sample_event 15 "W1" "S1" "idle" None]) None (Some 1) (Some 20)
      = Ok wms0 ∧
    compute_worker_metrics
      (with_events line_db
         [sample_event 1 "W1" "S1" "working" None;
          sample_event 20 "W1" "S1" "working" None;
          sample_event 15 "W1" "S1" "idle" None]) None (Some 1) (Some 20)
      = Ok wms1 ∧
    wms0 !! 0%nat = Some m0 ∧ wms1 !! 0%nat = Some m1 ∧
    WorkerMetrics.event_count m1 = WorkerMetrics.event_count m0 + 1.
Proof.
  split.
  - apply (proj1 (window_is_inclusive_on_timestamp line_db
             [sample_event 1 "W1" "S1" "working" None]
             [sample_event 15 "W1" "S1" "idle" None]
             (sample_event 30 "W1" "S1" "working" None)
             (Some 1) (Some 20) None None)).
    right. exists 20. split; [reflexivity|]. vm_compute. reflexivity.
  - destruct (proj1 (proj2 (window_is_inclusive_on_timestamp line_db
             [sample_event 1 "W1" "S1" "working" None]
             [sample_event 15 "W1" "S1" "idle" None]
             (sample_event 20 "W1" "S1" "working" None)
             (Some 1) (Some 20) None None)))
      as (fm0 & fm1 & wms0 & wms1 & sms0 & sms1 & Hf0 & Hf1 & Hw0 & Hw1 & _ & _
          & Htotal & Hrows & _).
    { split; intros ? [= <-]; vm_compute; discriminate. }
    destruct (Hrows 0%nat (Worker.mk "W1" "John Martinez") eq_refl)
      as (m0 & m1 & Hm0 & Hm1 & _ & _ & Hcount).
    exists fm0, fm1, wms0, wms1, m0, m1. split_and!; try done.
Defined.

Lemma single_worker_query_degrades_to_zero_witness :
  get_worker_metrics throughput_db "W2" None None =
    Ok {| WorkerMetrics.worker_id := "W2";
          WorkerMetrics.worker_name := "Sarah Chen";
          WorkerMetrics.total_active_time_minutes := 0;
          WorkerMetrics.total_idle_time_minutes := 0;
          WorkerMetrics.total_absent_time_minutes := 0;
          WorkerMetrics.utilization_percentage := 0;
          WorkerMetrics.total_units_produced := 0;
          WorkerMetrics.units_per_hour := 0;
          WorkerMetrics.event_count := 0 |} ∧
  get_worker_metrics throughput_db "W9" None None =
    Ok {| WorkerMetrics.worker_id := "W9";
          WorkerMetrics.worker_name := "Unknown";
          WorkerMetrics.total_active_time_minutes := 0;
          WorkerMetrics.total_idle_time_minutes := 0;
          WorkerMetrics.total_absent_time_minutes := 0;
          WorkerMetrics.utilization_percentage := 0;
          WorkerMetrics.total_units_produced := 0;
          WorkerMetrics.units_per_hour := 0;
          WorkerMetrics.event_count := 0 |}.
Proof.
  split.
  - destruct (single_worker_query_degrades_to_zero throughput_db "W2" None None)
      as (_ & Hregistered & _); [discriminate|by_evaluation|].
    apply (Hregistered (Worker.mk "W2" "Sarah Chen"));
      [right; left|reflexivity|by_evaluation].
  - destruct (single_worker_query_degrades_to_zero throughput_db "W9" None None)
      as (_ & _ & Hunknown); [discriminate|by_evaluation|].
    apply Hunknown. by_evaluation.
Defined.

Lemma stored_count_is_submitted_count_witness :
  ∃ row,
    (ingest_event 0 working_with_count line_db).1 = Ok row ∧
    Event.event_type row = "working" ∧
    Event.count row = Some 3 ∧
    ∃ item, item ∈ [working_with_count] ∧
      dedup_key row = create_key item ∧
      Event.count row = Some (or0 (EventCreate.count item)).
Proof.
  destruct (stored_count_is_submitted_count 0 (λ _, 0) working_with_count
              [working_with_count] line_db) as [Hsingle Hbatch].
  exists (make_event working_with_count 0).
  destruct (Hsingle (make_event working_with_count 0)
              (with_events line_db [make_event working_with_count 0]))
    as (_ & Hty & Hcount); [vm_compute; reflexivity|].
  split; [vm_compute; reflexivity|]. split; [exact Hty|]. split; [exact Hcount|].
  destruct (Hbatch
              (ingest_events_batch (λ _, 0) [working_with_count] line_db).1
              (ingest_events_batch (λ _, 0) [working_with_count] line_db).2
              (make_event working_with_count 0))
    as [Hold|(item & Hitem & Hkey & _ & Hc)].
  - vm_compute. reflexivity.
  - vm_compute. left.
  - by apply not_elem_of_nil in Hold.
  - exists item. done.
Defined.

Lemma batch_counters_account_for_every_item_witness :
  ∃ r db',
    ingest_events_batch (λ _, 50) fresh_batch stored_db = (Ok r, db') ∧
    EventIngestionResult.total_received r = 3 ∧
    EventIngestionResult.successfully_stored r +
      EventIngestionResult.duplicates_skipped r + 1 = 3 ∧
    EventIngestionResult.errors r = ["Unknown worker_id: W9"].
Proof.
  destruct (batch_counters_account_for_every_item (λ _, 50) fresh_batch
              stored_db) as (r & db' & Hrun & Htotal & _ & _ & Hsum & Herr & _).
  { by_evaluation. }
  exists r, db'. split_and!; [exact Hrun|exact Htotal| |exact Herr].
  rewrite Htotal in Hsum. exact Hsum.
Defined.

Lemma metrics_are_rounded_per_record_witness :
  ∃ fm fm',
    compute_factory_metrics rounding_db None None = Ok fm ∧
    compute_factory_metrics rounding_db (Some 1) (Some 4) = Ok fm' ∧
    FactoryMetrics.average_worker_utilization fm' =
      FactoryMetrics.average_worker_utilization fm ∧
    (FactoryMetrics.average_worker_utilization fm == 30.55)%Q.
Proof.
  destruct (metrics_are_rounded_per_record rounding_db rounding_db
              None None (Some 1) (Some 4))
    as (wms & sms & fm & Hw & _ & Hf & _ & _ & _ & _ & _ & _ & _ & Hdep).
  destruct (Hdep _ _ _
              (compute_worker_metrics_eq rounding_db None (Some 1) (Some 4))
              (compute_workstation_metrics_eq rounding_db None (Some 1) (Some 4))
              (compute_factory_metrics_eq rounding_db (Some 1) (Some 4)))
    as [Hsame _].
  exists fm, (factory_value rounding_db (Some 1) (Some 4)).
  split; [exact Hf|]. split; [apply compute_factory_metrics_eq|].
  split.
  - apply Hsame. rewrite compute_worker_metrics_eq in Hw.
    injection Hw as <-. vm_compute. reflexivity.
  - rewrite compute_factory_metrics_eq in Hf. injection Hf as <-.
    vm_compute. reflexivity.
Defined.

(** * Further properties of the metrics engine *)

(** ** Rounding is monotone *)

Lemma round_half_even_floor (x : Q) :
  Qfloor x ≤ round_half_even x ≤ Qfloor x + 1.
Proof.
  unfold round_half_even.
  destruct (x - inject_Z (Qfloor x) ?= 1 # 2)%Q; [destruct (Z.even _)|..]; lia.
Qed.

Lemma round_half_even_mono (x y : Q) :
  (x <= y)%Q → round_half_even x ≤ round_half_even y.
Proof.
  intros Hxy. pose proof (Qfloor_resp_le _ _ Hxy) as Hf.
  destruct (decide (Qfloor x = Qfloor y)) as [Heq|Hne].
  - unfold round_half_even. rewrite Heq.
    generalize (inject_Z (Qfloor y)). intros f.
    destruct (x - f ?= 1 # 2)%Q eqn:Hx; destruct (y - f ?= 1 # 2)%Q eqn:Hy;
      repeat match goal with
      | H : (_ ?= _)%Q = Eq |- _ => apply Qeq_alt in H
      | H : (_ ?= _)%Q = Lt |- _ => apply Qlt_alt in H
      | H : (_ ?= _)%Q = Gt |- _ => apply Qgt_alt in H
      end;
      try destruct (Z.even (Qfloor y)); try lia; exfalso; lra.
  - pose proof (round_half_even_floor x). pose proof (round_half_even_floor y).
    lia.
Qed.

Lemma round2_mono (x y : Q) : (x <= y)%Q → (round2 x <= round2 y)%Q.
Proof.
  intros Hxy. unfold round2. rewrite !Qred_correct.
  apply Qmult_le_compat_r; [|discriminate].
  rewrite <- Zle_Qle. apply round_half_even_mono.
  apply Qmult_le_compat_r; [done|discriminate].
Qed.

Lemma round2_between (lo hi : Z) (x : Q) :
  (inject_Z lo <= x)%Q → (x <= inject_Z hi)%Q →
  (inject_Z lo <= round2 x)%Q ∧ (round2 x <= inject_Z hi)%Q.
Proof.
  intros Hlo Hhi. rewrite <- (round2_inject_Z lo), <- (round2_inject_Z hi).
  split; by apply round2_mono.
Qed.

(** ** Utilization is a percentage *)

Lemma percentage_bounds (part whole : Z) :
  0 ≤ part ≤ whole → (0 <= percentage part whole)%Q ∧ (percentage part whole <= 100)%Q.
Proof.
  intros [H0 Hle]. unfold percentage.
  destruct (decide (0 < whole)) as [Hpos|_]; [|split; discriminate].
  assert (Hw : (0 < inject_Z whole)%Q).
  { change 0%Q with (inject_Z 0). by rewrite <- Zlt_Qlt. }
  assert (Hp : (0 <= inject_Z part)%Q).
  { change 0%Q with (inject_Z 0). by rewrite <- Zle_Qle. }
  assert (Hpw : (inject_Z part <= inject_Z whole)%Q) by (by rewrite <- Zle_Qle).
  assert (Hq : (0 <= inject_Z part / inject_Z whole)%Q ∧
               (inject_Z part / inject_Z whole <= 1)%Q).
  { split.
    - apply Qle_shift_div_l; [done|]. by rewrite Qmult_0_l.
    - apply Qle_shift_div_r; [done|]. by rewrite Qmult_1_l. }
  destruct Hq as [Hq0 Hq1]. split; lra.
Qed.

Lemma sumQ_foldl_bounds (xs : list Q) (acc : Q) (n : Z) :
  (0 <= acc)%Q → (acc <= 100 * inject_Z n)%Q →
  Forall (λ x, (0 <= x)%Q ∧ (x <= 100)%Q) xs →
  (0 <= foldl Qplus acc xs)%Q ∧
  (foldl Qplus acc xs <= 100 * inject_Z (n + len xs))%Q.
Proof.
  revert acc n. induction xs as [|x xs IH]; intros acc n H0 H100 Hall.
  { simpl. unfold len. simpl. by rewrite Z.add_0_r. }
  apply Forall_cons in Hall as [[Hx0 Hx1] Hall]. simpl.
  replace (n + len (x :: xs)) with ((n + 1) + len xs)
    by (unfold len; simpl length; lia).
  apply IH; [lra| |done].
  rewrite inject_Z_plus. change (inject_Z 1) with 1%Q. lra.
Qed.

Lemma mean_bounds (xs : list Q) :
  Forall (λ x, (0 <= x)%Q ∧ (x <= 100)%Q) xs →
  (0 <= mean xs)%Q ∧ (mean xs <= 100)%Q.
Proof.
  intros Hall. destruct xs as [|x xs]; [split; discriminate|].
  unfold mean, sumQ.
  destruct (sumQ_foldl_bounds (x :: xs) 0 0) as [H0 H100];
    [discriminate|discriminate|done|].
  rewrite Z.add_0_l in H100.
  assert (Hn : (0 < inject_Z (len (x :: xs)))%Q).
  { change 0%Q with (inject_Z 0). rewrite <- Zlt_Qlt. unfold len. simpl length. lia. }
  split.
  - apply Qle_shift_div_l; [done|]. by rewrite Qmult_0_l.
  - apply Qle_shift_div_r; [done|]. done.
Qed.

Lemma Forall_filter_keep {A} (P Q : A → Prop) `{!∀ x, Decision (Q x)} (l : list A) :
  Forall P l → Forall P (filter Q l).
Proof.
  rewrite !Forall_forall. intros HP x Hx.
  apply list_elem_of_filter in Hx as [_ Hx]. by apply HP.
Qed.

Lemma count_type_le ty evs : 0 ≤ count_type ty evs.
Proof. unfold count_type, len. lia. Qed.

Lemma time_share_bounds (working idle : Z) :
  0 ≤ working → 0 ≤ idle →
  let active := working * EVENT_DURATION_MINUTES in
  let rest := idle * EVENT_DURATION_MINUTES in
  (0 <= round2 (percentage active (active + rest)))%Q ∧
  (round2 (percentage active (active + rest)) <= 100)%Q.
Proof.
  intros Hw Hi. cbv zeta.
  apply (round2_between 0 100); apply percentage_bounds;
    unfold EVENT_DURATION_MINUTES; lia.
Qed.

(** X1. Every utilization the engine reports is a percentage: the
    [utilization_percentage] of every per-worker and per-workstation row,
    and both factory averages, lie between 0 and 100, for every database
    and window. *)
Theorem utilization_is_a_percentage
    (db : Database) (wid sid : option string) (start_time end_time : option Z) :
  ∃ wms sms fm,
    compute_worker_metrics db wid start_time end_time = Ok wms ∧
    compute_workstation_metrics db sid start_time end_time = Ok sms ∧
    compute_factory_metrics db start_time end_time = Ok fm ∧
    Forall (λ m, (0 <= WorkerMetrics.utilization_percentage m)%Q ∧
                 (WorkerMetrics.utilization_percentage m <= 100)%Q) wms ∧
    Forall (λ m, (0 <= WorkstationMetrics.utilization_percentage m)%Q ∧
                 (WorkstationMetrics.utilization_percentage m <= 100)%Q) sms ∧
    (0 <= FactoryMetrics.average_worker_utilization fm)%Q ∧
    (FactoryMetrics.average_worker_utilization fm <= 100)%Q ∧
    (0 <= FactoryMetrics.average_workstation_utilization fm)%Q ∧
    (FactoryMetrics.average_workstation_utilization fm <= 100)%Q.
Proof.
  assert (Hw : ∀ ws, Forall (λ m, (0 <= WorkerMetrics.utilization_percentage m)%Q ∧
                       (WorkerMetrics.utilization_percentage m <= 100)%Q)
                 (worker_row_value db start_time end_time <$> ws)).
  { intros ws. apply Forall_fmap, Forall_forall. intros w _. simpl.
    apply time_share_bounds; apply count_type_le. }
  assert (Hs : ∀ ss, Forall (λ m, (0 <= WorkstationMetrics.utilization_percentage m)%Q ∧
                       (WorkstationMetrics.utilization_percentage m <= 100)%Q)
                 (station_row_value db start_time end_time <$> ss)).
  { intros ss. apply Forall_fmap, Forall_forall. intros s _. simpl.
    apply time_share_bounds; apply count_type_le. }
  do 3 eexists.
  split; [apply compute_worker_metrics_eq|].
  split; [apply compute_workstation_metrics_eq|].
  split; [apply compute_factory_metrics_eq|].
  split; [apply Hw|]. split; [apply Hs|].
  unfold factory_value. simpl.
  assert (HA : ∀ xs, Forall (λ x, (0 <= x)%Q ∧ (x <= 100)%Q) xs →
                     (0 <= round2 (mean xs))%Q ∧ (round2 (mean xs) <= 100)%Q).
  { intros xs Hxs. apply (round2_between 0 100); by apply mean_bounds. }
  destruct (HA (WorkerMetrics.utilization_percentage <$>
                filter (λ m, 0 < WorkerMetrics.event_count m)
                  (worker_row_value db start_time end_time <$> workers db)))
    as [? ?].
  { apply Forall_fmap, Forall_filter_keep, Hw. }
  destruct (HA (WorkstationMetrics.utilization_percentage <$>
                filter (λ m, 0 < WorkstationMetrics.event_count m)
                  (station_row_value db start_time end_time <$> workstations db)))
    as [? ?].
  { apply Forall_fmap, Forall_filter_keep, Hs. }
  done.
Qed.

(** ** Per-workstation rows *)

(** X2. For every workstation selected by a per-workstation query and
    every window: working and idle time are the numbers of the station's
    stored [working] and [idle] events with a timestamp in the window times
    [EVENT_DURATION_MINUTES], the occupancy time is their sum, the
    utilization is [working / occupancy * 100] and the throughput rate is
    [units / (occupancy / 60)], both to the precision of the output and
    [0] when the occupancy is [0]; the units are those of the station's
    [product_count] events, and [event_count] counts every event of the
    station in the window, whatever its type. *)
Theorem workstation_metrics_occupancy
    (db : Database) (sid : option string) (start_time end_time : option Z) :
  ∃ ms,
    compute_workstation_metrics db sid start_time end_time = Ok ms ∧
    Forall2 (λ s m,
      let counted ty :=
        len (in_window db start_time end_time
               (λ e, Event.workstation_id e = Workstation.station_id s ∧
                     Event.event_type e = ty)) in
      let working := counted "working" * EVENT_DURATION_MINUTES in
      let idle := counted "idle" * EVENT_DURATION_MINUTES in
      let produced :=
        units (in_window db start_time end_time
                 (λ e, Event.workstation_id e = Workstation.station_id s ∧
                       Event.event_type e = "product_count")) in
      WorkstationMetrics.station_id m = Workstation.station_id s ∧
      WorkstationMetrics.station_name m = Workstation.name s ∧
      WorkstationMetrics.station_type m = Workstation.station_type s ∧
      WorkstationMetrics.working_time_minutes m = inject_Z working ∧
      WorkstationMetrics.idle_time_minutes m = inject_Z idle ∧
      WorkstationMetrics.occupancy_time_minutes m = inject_Z (working + idle) ∧
      (WorkstationMetrics.occupancy_time_minutes m ==
         WorkstationMetrics.working_time_minutes m +
         WorkstationMetrics.idle_time_minutes m)%Q ∧
      within_output_precision (WorkstationMetrics.utilization_percentage m)
        (if decide (0 < working + idle)
         then inject_Z working / inject_Z (working + idle) * 100
         else 0) ∧
      WorkstationMetrics.total_units_produced m = produced ∧
      within_output_precision (WorkstationMetrics.throughput_rate m)
        (if decide (0 < working + idle)
         then inject_Z produced / (inject_Z (working + idle) / 60)
         else 0) ∧
      (working + idle = 0 →
         WorkstationMetrics.utilization_percentage m = 0%Q ∧
         WorkstationMetrics.throughput_rate m = 0%Q) ∧
      WorkstationMetrics.event_count m =
        len (in_window db start_time end_time
               (λ e, Event.workstation_id e = Workstation.station_id s)))
    (requested_stations db sid) ms.
Proof.
  rewrite <- select_stations_requested.
  apply compute_workstation_metrics_rows. intros s.
  rewrite station_row_counts. cbv zeta. simpl.
  split_and!; try reflexivity.
  - rewrite inject_Z_plus. reflexivity.
  - by apply round2_reports.
  - by apply round2_reports.
  - intros Hzero. unfold percentage, hourly_rate.
    by rewrite !decide_False by lia.
Qed.

Lemma station_inactive_no_events db st en sid :
  ¬ station_active db st en sid → station_events db st en sid = [].
Proof.
  intros Hna. rewrite station_events_filter.
  destruct (filter _ (events db)) as [|e k] eqn:E; [reflexivity|].
  exfalso. apply Hna. unfold station_active. apply Exists_exists.
  assert (He : e ∈ e :: k) by left. rewrite <- E in He.
  apply list_elem_of_filter in He as [HP He]. eauto.
Qed.

(** X3. The single-workstation route never fails.  For a registered
    workstation without events in the window it answers with the station's
    name and type and every numeric field zero; for an identifier that is
    not registered it answers with the name ["Unknown"], no type, and every
    numeric field zero.  (The path parameter is never empty; station
    identifiers are unique in the [workstations] table.) *)
Theorem single_workstation_query_degrades_to_zero
    (db : Database) (station_id : string) (start_time end_time : option Z)
    (Hpath : station_id ≠ "")
    (Hunique : NoDup (Workstation.station_id <$> workstations db)) :
  (∃ m, get_workstation_metrics db station_id start_time end_time = Ok m) ∧
  (∀ s, s ∈ workstations db → Workstation.station_id s = station_id →
        ¬ station_active db start_time end_time station_id →
        get_workstation_metrics db station_id start_time end_time =
        Ok {| WorkstationMetrics.station_id := station_id;
              WorkstationMetrics.station_name := Workstation.name s;
              WorkstationMetrics.station_type := Workstation.station_type s;
              WorkstationMetrics.occupancy_time_minutes := 0;
              WorkstationMetrics.working_time_minutes := 0;
              WorkstationMetrics.idle_time_minutes := 0;
              WorkstationMetrics.utilization_percentage := 0;
              WorkstationMetrics.total_units_produced := 0;
              WorkstationMetrics.throughput_rate := 0;
              WorkstationMetrics.event_count := 0 |}) ∧
  (station_id ∉ Workstation.station_id <$> workstations db →
        get_workstation_metrics db station_id start_time end_time =
        Ok {| WorkstationMetrics.station_id := station_id;
              WorkstationMetrics.station_name := "Unknown";
              WorkstationMetrics.station_type := None;
              WorkstationMetrics.occupancy_time_minutes := 0;
              WorkstationMetrics.working_time_minutes := 0;
              WorkstationMetrics.idle_time_minutes := 0;
              WorkstationMetrics.utilization_percentage := 0;
              WorkstationMetrics.total_units_produced := 0;
              WorkstationMetrics.throughput_rate := 0;
              WorkstationMetrics.event_count := 0 |}).
Proof.
  assert (Hsel : select_stations db (Some station_id) =
                 filter (λ s, Workstation.station_id s = station_id)
                   (workstations db)).
  { unfold select_stations, truthy. by rewrite decide_False. }
  unfold get_workstation_metrics.
  rewrite compute_workstation_metrics_eq, Hsel. simpl.
  split_and!.
  - destruct (station_row_value db start_time end_time <$> _); eauto.
  - intros s Hs <- Hidle.
    rewrite (filter_unique_key Workstation.station_id) by done. simpl.
    unfold station_row_value.
    rewrite (station_inactive_no_events _ _ _ _ Hidle). reflexivity.
  - intros Hnot. rewrite filter_absent_key by done. reflexivity.
Qed.

(** ** Factory totals and per-entity rows *)

Lemma sumZ_ones {A} (l : list A) : sumZ ((λ _, 1) <$> l) = len l.
Proof.
  induction l as [|x l IH]; [reflexivity|].
  rewrite fmap_cons, sumZ_cons, IH. unfold len. simpl length. lia.
Qed.

Lemma sumQ_foldl (l : list Q) (acc : Q) :
  (foldl Qplus acc l == acc + sumQ l)%Q.
Proof.
  unfold sumQ. revert acc. induction l as [|x l IH]; intros acc; simpl; [ring|].
  rewrite (IH (acc + x)%Q), (IH (0 + x)%Q). ring.
Qed.

Lemma sumQ_inject_Z (l : list Z) : (sumQ (inject_Z <$> l) == inject_Z (sumZ l))%Q.
Proof.
  induction l as [|x l IH]; [reflexivity|].
  rewrite fmap_cons, sumZ_cons, inject_Z_plus. unfold sumQ at 1. simpl.
  rewrite sumQ_foldl, IH. ring.
Qed.

(** Each element is counted under exactly one key. *)
Lemma sumZ_single_key {K} `{EqDecision K} (ks : list K) (k0 : K) (c : Z)
    (f : K → Z) :
  NoDup ks → k0 ∈ ks →
  sumZ ((λ k, (if decide (k0 = k) then c else 0) + f k) <$> ks) =
  c + sumZ (f <$> ks).
Proof.
  induction ks as [|k ks IH]; intros Hnd Hin; [by apply not_elem_of_nil in Hin|].
  apply NoDup_cons in Hnd as [Hk Hnd].
  rewrite !fmap_cons, !sumZ_cons.
  destruct (decide (k0 = k)) as [->|Hne].
  - assert (Hrest : sumZ ((λ k', (if decide (k = k') then c else 0) + f k') <$> ks)
                    = sumZ (f <$> ks)).
    { f_equal. apply list_fmap_ext. intros i k' Hk'.
      rewrite decide_False; [lia|]. intros Heq.
      apply Hk. rewrite Heq. by eapply list_elem_of_lookup_2. }
    rewrite Hrest. lia.
  - apply elem_of_cons in Hin as [?|Hin]; [done|].
    rewrite IH by done. lia.
Qed.

Lemma sumZ_by_key {A K} `{EqDecision K} (key : A → K) (w : A → Z)
    (ks : list K) (l : list A) :
  NoDup ks → Forall (λ x, key x ∈ ks) l →
  sumZ ((λ k, sumZ (w <$> filter (λ x, key x = k) l)) <$> ks) = sumZ (w <$> l).
Proof.
  intros Hnd. induction l as [|x l IH]; intros Hall.
  { simpl. induction ks as [|k ks IHk]; [reflexivity|].
    apply NoDup_cons in Hnd as [_ Hnd]. rewrite fmap_cons, sumZ_cons, IHk by done.
    reflexivity. }
  apply Forall_cons in Hall as [Hx Hall].
  rewrite fmap_cons, sumZ_cons, <- IH by done.
  rewrite <- (sumZ_single_key ks (key x) (w x)) by done.
  f_equal. apply list_fmap_ext. intros _ k _.
  destruct (decide (key x = k)) as [Hk|Hk].
  - rewrite filter_cons_True by done. by rewrite fmap_cons, sumZ_cons.
  - rewrite filter_cons_False by done. lia.
Qed.

Lemma count_type_sum ty (evs : list Event.t) :
  count_type ty evs =
  sumZ ((λ e, if decide (Event.event_type e = ty) then 1 else 0) <$> evs).
Proof.
  unfold count_type. induction evs as [|e evs IH]; [reflexivity|].
  rewrite fmap_cons, sumZ_cons, <- IH.
  destruct (decide (Event.event_type e = ty)).
  - rewrite filter_cons_True by done. unfold len. simpl length. lia.
  - rewrite filter_cons_False by done. lia.
Qed.

Lemma units_of_sum (evs : list Event.t) :
  units_of evs =
  sumZ ((λ e, if decide (Event.event_type e = "product_count")
              then or0 (Event.count e) else 0) <$> evs).
Proof.
  unfold units_of. induction evs as [|e evs IH]; [reflexivity|].
  rewrite fmap_cons, sumZ_cons, <- IH.
  destruct (decide (Event.event_type e = "product_count")).
  - rewrite filter_cons_True by done. by rewrite fmap_cons, sumZ_cons.
  - rewrite filter_cons_False by done. lia.
Qed.

Lemma len_sum {A} (l : list A) : len l = sumZ ((λ _, 1) <$> l).
Proof. by rewrite sumZ_ones. Qed.

Lemma filter_swap {A} (P Q : A → Prop) `{!∀ x, Decision (P x)}
    `{!∀ x, Decision (Q x)} (l : list A) :
  filter P (filter Q l) = filter Q (filter P l).
Proof. rewrite !list_filter_filter. apply list_filter_iff. intros x. tauto. Qed.

Lemma worker_events_by_key db st en wid :
  worker_events db st en wid =
  filter (λ e, Event.worker_id e = wid) (time_filters st en (events db)).
Proof.
  unfold worker_events. rewrite !time_filters_in_range. apply filter_swap.
Qed.

Lemma station_events_by_key db st en sid :
  station_events db st en sid =
  filter (λ e, Event.workstation_id e = sid) (time_filters st en (events db)).
Proof.
  unfold station_events. rewrite !time_filters_in_range. apply filter_swap.
Qed.

Lemma Forall_time_filters (P : Event.t → Prop) st en (evs : list Event.t) :
  Forall P evs → Forall P (time_filters st en evs).
Proof. rewrite time_filters_in_range. apply Forall_filter_keep. Qed.

Lemma sum_of_row_times {A} (ids : list A) (f : A → Z) :
  (sumQ ((λ x, round2 (inject_Z (f x * EVENT_DURATION_MINUTES))) <$> ids)
   == inject_Z (sumZ (f <$> ids) * EVENT_DURATION_MINUTES))%Q.
Proof.
  induction ids as [|x ids IH]; [reflexivity|].
  rewrite !fmap_cons, sumZ_cons. unfold sumQ at 1. simpl.
  rewrite sumQ_foldl, IH, round2_inject_Z, Z.mul_add_distr_r, !inject_Z_plus.
  ring.
Qed.

(** X4. When worker identifiers are unique and every stored event names a
    registered worker, the factory totals of a window are the sums of the
    per-worker rows of the same window: events, units produced, productive
    time and idle time.  The same holds for the per-workstation rows when
    station identifiers are unique and every event names a registered
    workstation. *)
Theorem factory_totals_are_sums_of_rows
    (db : Database) (start_time end_time : option Z) :
  ∃ fm wms sms,
    compute_factory_metrics db start_time end_time = Ok fm ∧
    compute_worker_metrics db None start_time end_time = Ok wms ∧
    compute_workstation_metrics db None start_time end_time = Ok sms ∧
    (NoDup (Worker.worker_id <$> workers db) →
     Forall (λ e, Event.worker_id e ∈ Worker.worker_id <$> workers db)
       (events db) →
     FactoryMetrics.total_events fm = sumZ (WorkerMetrics.event_count <$> wms) ∧
     FactoryMetrics.total_production_count fm =
       sumZ (WorkerMetrics.total_units_produced <$> wms) ∧
     (FactoryMetrics.total_productive_time_minutes fm ==
        sumQ (WorkerMetrics.total_active_time_minutes <$> wms))%Q ∧
     (FactoryMetrics.total_idle_time_minutes fm ==
        sumQ (WorkerMetrics.total_idle_time_minutes <$> wms))%Q) ∧
    (NoDup (Workstation.station_id <$> workstations db) →
     Forall (λ e, Event.workstation_id e ∈
                  Workstation.station_id <$> workstations db) (events db) →
     FactoryMetrics.total_events fm =
       sumZ (WorkstationMetrics.event_count <$> sms) ∧
     FactoryMetrics.total_production_count fm =
       sumZ (WorkstationMetrics.total_units_produced <$> sms) ∧
     (FactoryMetrics.total_productive_time_minutes fm ==
        sumQ (WorkstationMetrics.working_time_minutes <$> sms))%Q ∧
     (FactoryMetrics.total_idle_time_minutes fm ==
        sumQ (WorkstationMetrics.idle_time_minutes <$> sms))%Q).
Proof.
  do 3 eexists.
  split; [apply compute_factory_metrics_eq|].
  split; [apply compute_worker_metrics_eq|].
  split; [apply compute_workstation_metrics_eq|].
  unfold select_workers, select_stations. simpl truthy. cbv iota.
  set (evs := time_filters start_time end_time (events db)).
  split.
  - intros Hnd Hall.
    assert (Hall' : Forall (λ e, Event.worker_id e ∈ Worker.worker_id <$> workers db) evs)
      by (by apply Forall_time_filters).
    assert (Hsum : ∀ w : Event.t → Z,
      sumZ ((λ x, sumZ (w <$> worker_events db start_time end_time
                                (Worker.worker_id x))) <$> workers db)
      = sumZ (w <$> evs)).
    { intros w. rewrite <- (sumZ_by_key Event.worker_id w _ evs Hnd Hall').
      rewrite <- list_fmap_compose. f_equal. apply list_fmap_ext.
      intros _ x _. simpl. by rewrite worker_events_by_key. }
    unfold factory_value. fold evs. simpl.
    rewrite <- !list_fmap_compose.
    rewrite !round2_inject_Z.
    split_and!.
    + rewrite len_sum, <- Hsum. f_equal. apply list_fmap_ext.
      intros _ x _. simpl. by rewrite sumZ_ones.
    + rewrite units_of_sum, <- Hsum. f_equal. apply list_fmap_ext.
      intros _ x _. simpl. by rewrite units_of_sum.
    + rewrite (sum_of_row_times (workers db)
        (λ x, count_type "working"
                (worker_events db start_time end_time (Worker.worker_id x)))).
      rewrite (count_type_sum "working" evs), <- Hsum.
      apply inject_Z_injective. f_equal. f_equal. apply list_fmap_ext.
      intros _ x _. by rewrite count_type_sum.
    + rewrite (sum_of_row_times (workers db)
        (λ x, count_type "idle"
                (worker_events db start_time end_time (Worker.worker_id x)))).
      rewrite (count_type_sum "idle" evs), <- Hsum.
      apply inject_Z_injective. f_equal. f_equal. apply list_fmap_ext.
      intros _ x _. by rewrite count_type_sum.
  - intros Hnd Hall.
    assert (Hall' : Forall (λ e, Event.workstation_id e ∈
                                 Workstation.station_id <$> workstations db) evs)
      by (by apply Forall_time_filters).
    assert (Hsum : ∀ w : Event.t → Z,
      sumZ ((λ x, sumZ (w <$> station_events db start_time end_time
                                (Workstation.station_id x))) <$> workstations db)
      = sumZ (w <$> evs)).
    { intros w. rewrite <- (sumZ_by_key Event.workstation_id w _ evs Hnd Hall').
      rewrite <- list_fmap_compose. f_equal. apply list_fmap_ext.
      intros _ x _. simpl. by rewrite station_events_by_key. }
    unfold factory_value. fold evs. simpl.
    rewrite <- !list_fmap_compose.
    rewrite !round2_inject_Z.
    split_and!.
    + rewrite len_sum, <- Hsum. f_equal. apply list_fmap_ext.
      intros _ x _. simpl. by rewrite sumZ_ones.
    + rewrite units_of_sum, <- Hsum. f_equal. apply list_fmap_ext.
      intros _ x _. simpl. by rewrite units_of_sum.
    + rewrite (sum_of_row_times (workstations db)
        (λ x, count_type "working"
                (station_events db start_time end_time (Workstation.station_id x)))).
      rewrite (count_type_sum "working" evs), <- Hsum.
      apply inject_Z_injective. f_equal. f_equal. apply list_fmap_ext.
      intros _ x _. by rewrite count_type_sum.
    + rewrite (sum_of_row_times (workstations db)
        (λ x, count_type "idle"
                (station_events db start_time end_time (Workstation.station_id x)))).
      rewrite (count_type_sum "idle" evs), <- Hsum.
      apply inject_Z_injective. f_equal. f_equal. apply list_fmap_ext.
      intros _ x _. by rewrite count_type_sum.
Qed.

(** ** Windows and the fields the engine reads *)

Lemma len_filter_mono {A} (P Q : A → Prop) `{!∀ x, Decision (P x)}
    `{!∀ x, Decision (Q x)} (l : list A) :
  (∀ x, P x → Q x) → len (filter P l) ≤ len (filter Q l).
Proof.
  intros HPQ. unfold len. induction l as [|x l IH]; [done|].
  destruct (decide (P x)) as [HP|HP].
  - rewrite (filter_cons_True P), (filter_cons_True Q) by auto. simpl length. lia.
  - rewrite (filter_cons_False P) by done.
    destruct (decide (Q x)).
    + rewrite (filter_cons_True Q) by done. simpl length. lia.
    + by rewrite (filter_cons_False Q).
Qed.

Lemma count_type_window_mono ty (P : Event.t → Prop) `{!∀ e, Decision (P e)}
    st en st' en' (evs : list Event.t) :
  (∀ ts, in_range st en ts → in_range st' en' ts) →
  count_type ty (time_filters st en (filter P evs)) ≤
  count_type ty (time_filters st' en' (filter P evs)).
Proof.
  intros Hsub. unfold count_type.
  rewrite !time_filters_in_range, !list_filter_filter.
  apply len_filter_mono. intros e He. split_and!; try tauto.
  apply Hsub. tauto.
Qed.

Lemma len_window_mono (P : Event.t → Prop) `{!∀ e, Decision (P e)}
    st en st' en' (evs : list Event.t) :
  (∀ ts, in_range st en ts → in_range st' en' ts) →
  len (time_filters st en (filter P evs)) ≤
  len (time_filters st' en' (filter P evs)).
Proof.
  intros Hsub. rewrite !time_filters_in_range, !list_filter_filter.
  apply len_filter_mono. intros e He. split_and!; try tauto.
  apply Hsub. tauto.
Qed.

Lemma minutes_mono (a b : Z) :
  a ≤ b →
  (round2 (inject_Z (a * EVENT_DURATION_MINUTES)) <=
   round2 (inject_Z (b * EVENT_DURATION_MINUTES)))%Q.
Proof.
  intros Hab. rewrite !round2_inject_Z, <- Zle_Qle.
  unfold EVENT_DURATION_MINUTES. lia.
Qed.

(** X5. Widening the window never makes a worker's row smaller: when every
    instant of the window [[start, end]] lies in the window
    [[start', end']], each worker's event count and active, idle and
    absent time over the wider window are at least those over the narrower
    one. *)
Theorem wider_window_never_reports_less
    (db : Database) (wid : option string)
    (start_time end_time start_time' end_time' : option Z)
    (Hsub : ∀ ts, in_range start_time end_time ts →
                  in_range start_time' end_time' ts) :
  ∃ narrow wide,
    compute_worker_metrics db wid start_time end_time = Ok narrow ∧
    compute_worker_metrics db wid start_time' end_time' = Ok wide ∧
    Forall2 (λ n w,
      WorkerMetrics.worker_id n = WorkerMetrics.worker_id w ∧
      WorkerMetrics.event_count n ≤ WorkerMetrics.event_count w ∧
      (WorkerMetrics.total_active_time_minutes n <=
       WorkerMetrics.total_active_time_minutes w)%Q ∧
      (WorkerMetrics.total_idle_time_minutes n <=
       WorkerMetrics.total_idle_time_minutes w)%Q ∧
      (WorkerMetrics.total_absent_time_minutes n <=
       WorkerMetrics.total_absent_time_minutes w)%Q)
      narrow wide.
Proof.
  do 2 eexists.
  split; [apply compute_worker_metrics_eq|].
  split; [apply compute_worker_metrics_eq|].
  apply Forall2_fmap, Forall_Forall2_diag, Forall_forall. intros w _.
  unfold worker_row_value, worker_events. simpl.
  split_and!; [done|by apply len_window_mono|..];
    by apply minutes_mono, count_type_window_mono.
Qed.

Lemma filter_related {A} (R : A → A → Prop) (P : A → Prop)
    `{!∀ x, Decision (P x)} (l l' : list A) :
  (∀ x y, R x y → (P x ↔ P y)) →
  Forall2 R l l' → Forall2 R (filter P l) (filter P l').
Proof.
  intros HP. induction 1 as [|x y l l' Hxy Hll IH]; [constructor|].
  pose proof (HP x y Hxy) as Hiff.
  destruct (decide (P x)) as [Hx|Hx].
  - rewrite (filter_cons_True P x), (filter_cons_True P y) by tauto.
    by constructor.
  - rewrite (filter_cons_False P x), (filter_cons_False P y) by tauto.
    done.
Qed.

Lemma time_filters_related st en (l l' : list Event.t) :
  Forall2 same_reading l l' →
  Forall2 same_reading (time_filters st en l) (time_filters st en l').
Proof.
  intros Hll. rewrite !time_filters_in_range. apply filter_related; [|done].
  intros x y Hxy. destruct Hxy as (Ht & _). by rewrite Ht.
Qed.

Lemma count_type_related ty (l l' : list Event.t) :
  Forall2 same_reading l l' → count_type ty l = count_type ty l'.
Proof.
  intros Hll. unfold count_type, len. f_equal.
  eapply Forall2_length, filter_related; [|done].
  intros x y Hxy. destruct Hxy as (_ & _ & _ & Hty & _). by rewrite Hty.
Qed.

Lemma units_of_related (l l' : list Event.t) :
  Forall2 same_reading l l' → units_of l = units_of l'.
Proof.
  intros Hll. rewrite !units_of_sum.
  induction Hll as [|x y l l' Hxy Hll IH]; [reflexivity|].
  rewrite !fmap_cons, !sumZ_cons, IH. f_equal.
  destruct Hxy as (_ & _ & _ & Hty & Hc).
  rewrite <- Hty. destruct (decide _); auto.
Qed.

(** X6. The metrics engine reads a stored event through its timestamp,
    worker, workstation and type only, and through its count only when the
    type is [product_count]: replacing stored events by events that agree
    on these (so with another [confidence], another [received_at], or
    another count on a [working], [idle] or [absent] event) changes no
    per-worker, per-workstation or factory result. *)
Theorem metrics_ignore_unread_fields
    (db : Database) (evs evs' : list Event.t)
    (wid sid : option string) (start_time end_time : option Z)
    (Hsame : Forall2 same_reading evs evs') :
  compute_worker_metrics (with_events db evs) wid start_time end_time =
    compute_worker_metrics (with_events db evs') wid start_time end_time ∧
  compute_workstation_metrics (with_events db evs) sid start_time end_time =
    compute_workstation_metrics (with_events db evs') sid start_time end_time ∧
  compute_factory_metrics (with_events db evs) start_time end_time =
    compute_factory_metrics (with_events db evs') start_time end_time.
Proof.
  assert (Hw : ∀ w, worker_row_value (with_events db evs) start_time end_time w =
                    worker_row_value (with_events db evs') start_time end_time w).
  { intros w.
    assert (Hrel : Forall2 same_reading
              (worker_events (with_events db evs) start_time end_time
                 (Worker.worker_id w))
              (worker_events (with_events db evs') start_time end_time
                 (Worker.worker_id w))).
    { unfold worker_events. simpl. apply time_filters_related, filter_related;
        [|done]. intros x y Hxy. destruct Hxy as (_ & Hk & _). by rewrite Hk. }
    unfold worker_row_value.
    rewrite !(count_type_related _ _ _ Hrel), (units_of_related _ _ Hrel).
    unfold len. by rewrite (Forall2_length _ _ _ Hrel). }
  assert (Hs : ∀ s, station_row_value (with_events db evs) start_time end_time s =
                    station_row_value (with_events db evs') start_time end_time s).
  { intros s.
    assert (Hrel : Forall2 same_reading
              (station_events (with_events db evs) start_time end_time
                 (Workstation.station_id s))
              (station_events (with_events db evs') start_time end_time
                 (Workstation.station_id s))).
    { unfold station_events. simpl. apply time_filters_related, filter_related;
        [|done]. intros x y Hxy. destruct Hxy as (_ & _ & Hk & _). by rewrite Hk. }
    unfold station_row_value.
    rewrite !(count_type_related _ _ _ Hrel), (units_of_related _ _ Hrel).
    unfold len. by rewrite (Forall2_length _ _ _ Hrel). }
  rewrite !compute_worker_metrics_eq, !compute_workstation_metrics_eq,
    !compute_factory_metrics_eq.
  split_and!; f_equal.
  - apply list_fmap_ext. intros _ w _. apply Hw.
  - apply list_fmap_ext. intros _ s _. apply Hs.
  - pose proof (time_filters_related start_time end_time _ _ Hsame) as Hrel.
    unfold factory_value. simpl events. simpl workers. simpl workstations.
    rewrite !(count_type_related _ _ _ Hrel), (units_of_related _ _ Hrel).
    rewrite (list_fmap_ext _ _ (workers db) (λ _ w _, Hw w)).
    rewrite (list_fmap_ext _ _ (workstations db) (λ _ s _, Hs s)).
    unfold len at 1 3. by rewrite (Forall2_length _ _ _ Hrel).
Qed.

(** * Further properties of ingestion *)

Lemma valid_references db (event : EventCreate.t) (now : Z) :
  ¬ fails_reference db event → references_registered db (make_event event now).
Proof.
  unfold fails_reference, references_registered. simpl. intros Hok.
  split; apply dec_stable; intros ?; apply Hok; auto.
Qed.

(** X7. Ingestion never stores an event that names an unknown worker or
    workstation: if every stored event names a registered worker and a
    registered workstation, the same holds after any single or batch
    ingestion call. *)
Theorem ingestion_keeps_references_registered
    (now : Z) (utcnow : nat → Z) (event : EventCreate.t)
    (batch : list EventCreate.t) (db : Database)
    (Hrefs : Forall (references_registered db) (events db)) :
  Forall (references_registered db) (events (ingest_event now event db).2) ∧
  Forall (references_registered db)
    (events (ingest_events_batch utcnow batch db).2).
Proof.
  split.
  - destruct (ingest_event_cases now event db)
      as [(_ & d & ->)|[(_ & _ & _ & d & ->)|[(Hok & _ & _ & ->)|(_ & _ & ->)]]];
      simpl; try done.
    apply Forall_app. split; [done|]. by apply Forall_singleton, valid_references.
  - destruct (ingest_events_batch_cases utcnow batch db)
      as [(st & Hrun & _ & ->)|[_ ->]]; [|done].
    simpl. apply Forall_app. split; [done|].
    eapply batch_loop_flushed; [| | |exact Hrun]; [done|done|].
    intros ev n _ Hok. by apply valid_references.
Qed.

(** X8. Ingestion only appends: after a single or batch call the [workers]
    and [workstations] tables are what they were, and the old content of
    the [events] table is a prefix of the new one, so no stored row is
    changed, reordered or removed. *)
Theorem ingestion_only_appends
    (now : Z) (utcnow : nat → Z) (event : EventCreate.t)
    (batch : list EventCreate.t) (db : Database) :
  (workers (ingest_event now event db).2 = workers db ∧
   workstations (ingest_event now event db).2 = workstations db ∧
   events db `prefix_of` events (ingest_event now event db).2) ∧
  (workers (ingest_events_batch utcnow batch db).2 = workers db ∧
   workstations (ingest_events_batch utcnow batch db).2 = workstations db ∧
   events db `prefix_of` events (ingest_events_batch utcnow batch db).2).
Proof.
  split.
  - destruct (ingest_event_cases now event db)
      as [(_ & d & ->)|[(_ & _ & _ & d & ->)|[(_ & _ & _ & ->)|(_ & _ & ->)]]];
      simpl; split_and!; try done; by apply prefix_app_r.
  - destruct (ingest_events_batch_cases utcnow batch db)
      as [(st & Hrun & _ & ->)|[_ ->]]; [|done].
    simpl. split_and!; try done. by apply prefix_app_r.
Qed.

Lemma batch_loop_stored_bound db utcnow (batch : list EventCreate.t)
    (st0 st : BatchState) :
  session_new (bs_session st0) = [] →
  batch_run db utcnow st0 batch = Ok st →
  len (session_flushed (bs_session st)) ≤
    len (session_flushed (bs_session st0)) + (bs_stored st - bs_stored st0) ∧
  (bs_duplicates st = bs_duplicates st0 →
   len (session_flushed (bs_session st)) =
     len (session_flushed (bs_session st0)) + (bs_stored st - bs_stored st0)).
Proof.
  revert st0. induction batch as [|event batch IH]; intros st0 Hnew Hrun.
  { injection Hrun as <-. split; lia. }
  loop_step db utcnow st0 event Hnew Hrun Hf Hfit Hkey;
    pose proof Hrun as Hinv;
    (apply batch_loop_invariant in Hinv as (_ & _ & _ & K1 & K2 & _); [|done]);
    (apply IH in Hrun as [J1 J2]; [|done]); simpl in *.
  - done.
  - rewrite len_app in J1, J2. unfold len in J1, J2 |- *. simpl length in *.
    split; [lia|]. intros Hd. specialize (J2 Hd). lia.
  - unfold len in *. simpl length in *. split; [lia|]. intros Hd. lia.
Qed.

(** X9. For a batch whose submitted counts fit the [Integer] column, the
    [successfully_stored] counter of the call is an upper bound on the
    number of rows the call adds to the [events] table, and it is exact
    when the call reports no duplicate. *)
Theorem stored_counter_bounds_added_rows
    (utcnow : nat → Z) (batch : list EventCreate.t) (db : Database)
    (Hfit : Forall count_fits batch) :
  ∃ r db',
    ingest_events_batch utcnow batch db = (Ok r, db') ∧
    len (events db') - len (events db) ≤
      EventIngestionResult.successfully_stored r ∧
    (EventIngestionResult.duplicates_skipped r = 0 →
     len (events db') =
       len (events db) + EventIngestionResult.successfully_stored r).
Proof.
  destruct (ingest_events_batch_returns utcnow batch db)
    as (st & Hrun & ->); [by apply counts_fit_valid|].
  do 2 eexists. split; [reflexivity|].
  apply batch_loop_stored_bound in Hrun as [J1 J2]; [|done].
  simpl in *. rewrite len_app. unfold len in *. simpl in *.
  split; [lia|]. intros H0. specialize (J2 H0). lia.
Qed.

(** X25. A batch call returns a summary when the count of every item that
    passes reference validation fits the signed 64-bit [Integer] column.
    When one of them does not, binding it raises [OverflowError], which the
    loop does not catch: the call fails and the database is what it was
    before the call, the rows INSERTed for the earlier items of the batch
    included. *)
Theorem unbindable_count_aborts_batch
    (utcnow : nat → Z) (batch : list EventCreate.t) (db : Database) :
  (Forall (λ ev, ¬ fails_reference db ev → count_fits ev) batch →
   ∃ r db', ingest_events_batch utcnow batch db = (Ok r, db')) ∧
  (Exists (λ ev, ¬ fails_reference db ev ∧ ¬ count_fits ev) batch →
   ingest_events_batch utcnow batch db = (Raise OverflowError, db)).
Proof.
  split.
  - intros Hfit.
    destruct (ingest_events_batch_returns utcnow batch db Hfit)
      as (st & _ & ->). by eauto.
  - intros Hex.
    destruct (ingest_events_batch_cases utcnow batch db)
      as [(st & _ & Hfit & _)|[_ ->]]; [|done].
    exfalso. apply Exists_exists in Hex as (ev & Hev & Hv & Hno).
    rewrite Forall_forall in Hfit. by apply Hno, Hfit.
Qed.

(** X10. The outcome of a single submission is decided by reference
    validity first, then by the count, then by key freshness: an unknown
    worker gives 400 naming the worker (also when the workstation is
    unknown too), a known worker with an unknown workstation gives 400
    naming the workstation; a count outside the signed 64-bit range of the
    [Integer] column makes the commit raise [OverflowError], which the
    handler does not catch; a stored key gives 409; in these four cases
    nothing is written.  Otherwise the row is appended with [received_at]
    read from the clock and returned. *)
Theorem single_ingestion_outcome
    (now : Z) (event : EventCreate.t) (db : Database) :
  (EventCreate.worker_id event ∉ Worker.worker_id <$> workers db →
   ingest_event now event db =
     (Raise (HTTPException 400
               ("Worker '" +:+ EventCreate.worker_id event +:+ "' not found")),
      db)) ∧
  (EventCreate.worker_id event ∈ Worker.worker_id <$> workers db →
   EventCreate.workstation_id event ∉ Workstation.station_id <$> workstations db →
   ingest_event now event db =
     (Raise (HTTPException 400
               ("Workstation '" +:+ EventCreate.workstation_id event
                +:+ "' not found")),
      db)) ∧
  (¬ fails_reference db event → ¬ count_fits event →
   ingest_event now event db = (Raise OverflowError, db)) ∧
  (¬ fails_reference db event → count_fits event →
   create_key event ∈ dedup_key <$> events db →
   ingest_event now event db =
     (Raise (HTTPException 409
        "Duplicate event detected (same timestamp, worker, workstation, event_type)"),
      db)) ∧
  (¬ fails_reference db event → count_fits event →
   create_key event ∉ dedup_key <$> events db →
   ingest_event now event db =
     (Ok (make_event event now),
      with_events db (events db ++ [make_event event now])) ∧
   Event.received_at (make_event event now) = now).
Proof.
  unfold ingest_event, first_worker, first_workstation, fails_reference.
  split_and!.
  - intros Hw. apply head_filter_key in Hw. by rewrite Hw.
  - intros Hw Hs. apply head_filter_key in Hs.
    destruct (head (filter _ (workers db))) eqn:E.
    + by rewrite Hs.
    + apply head_filter_key in E. done.
  - intros Hok Hno.
    destruct (head (filter _ (workers db))) eqn:Ew;
      [|apply head_filter_key in Ew; tauto].
    destruct (head (filter _ (workstations db))) eqn:Es;
      [|apply head_filter_key in Es; tauto].
    rewrite commit_add_open, decide_False by done. reflexivity.
  - intros Hok Hfit Hdup.
    destruct (head (filter _ (workers db))) eqn:Ew;
      [|apply head_filter_key in Ew; tauto].
    destruct (head (filter _ (workstations db))) eqn:Es;
      [|apply head_filter_key in Es; tauto].
    rewrite commit_add_open, decide_True, decide_True by done. reflexivity.
  - intros Hok Hfit Hfresh.
    destruct (head (filter _ (workers db))) eqn:Ew;
      [|apply head_filter_key in Ew; tauto].
    destruct (head (filter _ (workstations db))) eqn:Es;
      [|apply head_filter_key in Es; tauto].
    rewrite commit_add_open, decide_True, decide_False by done. done.
Qed.

(** * Event listing *)

#[local] Instance newer_first_transitive : Transitive newer_first.
Proof. intros a b c. unfold newer_first. lia. Qed.

#[local] Instance newer_first_total : Total newer_first.
Proof. intros a b. unfold newer_first. lia. Qed.

Lemma elem_of_optional_filter (key : Event.t → string) (f : option string)
    (q : list Event.t) (e : Event.t) :
  e ∈ match truthy f with
      | Some k => filter (λ x, key x = k) q
      | None => q
      end ↔
  e ∈ q ∧ (∀ k, truthy f = Some k → key e = k).
Proof.
  destruct (truthy f) as [k|].
  - rewrite list_elem_of_filter. split.
    + intros [? ?]. split; [done|]. by intros ? [= <-].
    + intros [? Hk]. split; [by apply Hk|done].
  - split; [intros ?; split; [done|by intros ? [=]]|by intros [? _]].
Qed.

Lemma elem_of_event_filters wid sid ty st en (q : list Event.t) (e : Event.t) :
  e ∈ event_filters wid sid ty st en q ↔ e ∈ q ∧ matches wid sid ty st en e.
Proof.
  unfold event_filters, matches. cbv zeta.
  rewrite time_filters_in_range, list_elem_of_filter.
  rewrite (elem_of_optional_filter Event.event_type),
    (elem_of_optional_filter Event.workstation_id),
    (elem_of_optional_filter Event.worker_id).
  tauto.
Qed.

(** X11. A page returned by [list_events] holds stored events that pass
    every filter of the request, newest timestamp first; its length is the
    smaller of [limit] and what is left of the matching events after
    [offset]; and a page with [offset = 0] and [limit] at least the number
    of matching events holds each of them exactly once. *)
Theorem list_events_returns_a_sorted_page
    (wid sid ty : option string) (start_time end_time : option Z)
    (limit offset : nat) (db : Database) :
  let page := list_events wid sid ty start_time end_time limit offset db in
  let total := count_events wid sid ty start_time end_time db in
  StronglySorted (λ a b, Event.timestamp b ≤ Event.timestamp a) page ∧
  (∀ e, e ∈ page →
        e ∈ events db ∧ matches wid sid ty start_time end_time e) ∧
  len page = Z.of_nat limit `min` (0 `max` (total - Z.of_nat offset)) ∧
  (offset = 0%nat → total ≤ Z.of_nat limit →
   page ≡ₚ event_filters wid sid ty start_time end_time (events db)).
Proof.
  cbv zeta. unfold list_events, count_events, order_by_timestamp_desc.
  set (q := event_filters wid sid ty start_time end_time (events db)).
  pose proof (StronglySorted_merge_sort newer_first q) as Hsorted.
  pose proof (merge_sort_Permutation newer_first q) as Hperm.
  set (sorted := merge_sort newer_first q) in *.
  split_and!.
  - rewrite <- (take_drop offset sorted) in Hsorted.
    apply StronglySorted_app_1_r in Hsorted.
    rewrite <- (take_drop limit (drop offset sorted)) in Hsorted.
    by apply StronglySorted_app_1_l in Hsorted.
  - intros e He. apply elem_of_event_filters. fold q. rewrite <- Hperm.
    by apply (subseteq_drop offset), (subseteq_take limit).
  - unfold len. rewrite length_take, length_drop, (Permutation_length Hperm). lia.
  - intros -> Hlim. rewrite drop_0, take_ge; [done|].
    unfold len in Hlim. rewrite (Permutation_length Hperm). lia.
Qed.

(** X12. The count endpoint agrees with the metrics of the same window:
    without an entity or type filter [count_events] is the factory's
    [total_events], and with a worker filter it is the [event_count] of
    that worker's row; with no filter at all it is the number of stored
    events. *)
Theorem count_events_agrees_with_metrics
    (db : Database) (start_time end_time : option Z) (w : Worker.t) :
  count_events None None None None None db = len (events db) ∧
  (∃ fm, compute_factory_metrics db start_time end_time = Ok fm ∧
         count_events None None None start_time end_time db =
           FactoryMetrics.total_events fm) ∧
  (w ∈ workers db → Worker.worker_id w ≠ "" →
   ∃ ms, compute_worker_metrics db None start_time end_time = Ok ms ∧
     ∃ m, m ∈ ms ∧
       WorkerMetrics.worker_id m = Worker.worker_id w ∧
       count_events (Some (Worker.worker_id w)) None None start_time end_time db =
         WorkerMetrics.event_count m).
Proof.
  split_and!.
  - reflexivity.
  - eexists. split; [apply compute_factory_metrics_eq|]. reflexivity.
  - intros Hw Hne. eexists. split; [apply compute_worker_metrics_eq|].
    exists (worker_row_value db start_time end_time w).
    split; [by apply list_elem_of_fmap_2|]. split; [reflexivity|].
    unfold count_events, event_filters, truthy. rewrite decide_False by done.
    reflexivity.
Qed.

(** * Registration *)

Lemma get_worker_registered (worker : Worker.t) (db : Database) :
  Worker.worker_id worker ∉ Worker.worker_id <$> workers db →
  first_worker (Worker.worker_id worker)
    {| workers := workers db ++ [worker]; workstations := workstations db;
       events := events db |} = Some worker.
Proof.
  intros Hnew. unfold first_worker. simpl.
  rewrite filter_app, (filter_absent_key Worker.worker_id) by done.
  by rewrite filter_cons_True.
Qed.

Lemma first_worker_other (worker : Worker.t) (other : string) (db : Database) :
  other ≠ Worker.worker_id worker →
  first_worker other
    {| workers := workers db ++ [worker]; workstations := workstations db;
       events := events db |} = first_worker other db.
Proof.
  intros Hne. unfold first_worker. simpl.
  rewrite filter_app, (filter_cons_False _ worker) by (by intros ?).
  by rewrite filter_nil, app_nil_r.
Qed.

(** X13. Registering a worker: an identifier that is already registered is
    refused with 409 and nothing changes; a new identifier is appended to
    the [workers] table, the other tables stay as they are, the new worker
    is found by [get_worker], lookups of other identifiers are unchanged,
    and identifiers stay unique.  The unique constraint is never hit. *)
Theorem create_worker_registers_once (worker : Worker.t) (db : Database) :
  (Worker.worker_id worker ∈ Worker.worker_id <$> workers db →
   create_worker worker db =
     (Raise (HTTPException 409
               ("Worker '" +:+ Worker.worker_id worker +:+ "' already exists")),
      db)) ∧
  (Worker.worker_id worker ∉ Worker.worker_id <$> workers db →
   ∃ db',
     create_worker worker db = (Ok worker, db') ∧
     list_workers db' = list_workers db ++ [worker] ∧
     workstations db' = workstations db ∧
     events db' = events db ∧
     get_worker (Worker.worker_id worker) db' = Ok worker ∧
     (∀ other, other ≠ Worker.worker_id worker →
               get_worker other db' = get_worker other db) ∧
     (NoDup (Worker.worker_id <$> workers db) →
      NoDup (Worker.worker_id <$> workers db'))).
Proof.
  unfold create_worker, insert_worker, first_worker. split.
  - intros Hin. destruct (head _) eqn:E; [done|].
    apply head_filter_key in E. done.
  - intros Hnew. rewrite (proj2 (head_filter_key _ _ _) Hnew).
    rewrite decide_False by done. eexists. split; [reflexivity|].
    unfold get_worker, list_workers.
    split_and!; try done.
    + by rewrite get_worker_registered.
    + intros other Hne. by rewrite first_worker_other.
    + intros Hnd. simpl. rewrite fmap_app. apply NoDup_app.
      split_and!; [done| |apply NoDup_singleton].
      intros k Hk Hk'. apply list_elem_of_singleton in Hk'. by subst.
Qed.

Lemma get_workstation_registered (station : Workstation.t) (db : Database) :
  Workstation.station_id station ∉ Workstation.station_id <$> workstations db →
  first_workstation (Workstation.station_id station)
    {| workers := workers db; workstations := workstations db ++ [station];
       events := events db |} = Some station.
Proof.
  intros Hnew. unfold first_workstation. simpl.
  rewrite filter_app, (filter_absent_key Workstation.station_id) by done.
  by rewrite filter_cons_True.
Qed.

Lemma first_workstation_other (station : Workstation.t) (other : string)
    (db : Database) :
  other ≠ Workstation.station_id station →
  first_workstation other
    {| workers := workers db; workstations := workstations db ++ [station];
       events := events db |} = first_workstation other db.
Proof.
  intros Hne. unfold first_workstation. simpl.
  rewrite filter_app, (filter_cons_False _ station) by (by intros ?).
  by rewrite filter_nil, app_nil_r.
Qed.

(** X14. Registering a workstation: an identifier that is already
    registered is refused with 409 and nothing changes; a new identifier is
    appended to the [workstations] table, the other tables stay as they
    are, the new workstation is found by [get_workstation], lookups of
    other identifiers are unchanged, and identifiers stay unique. *)
Theorem create_workstation_registers_once
    (station : Workstation.t) (db : Database) :
  (Workstation.station_id station ∈ Workstation.station_id <$> workstations db →
   create_workstation station db =
     (Raise (HTTPException 409
               ("Workstation '" +:+ Workstation.station_id station
                +:+ "' already exists")),
      db)) ∧
  (Workstation.station_id station ∉ Workstation.station_id <$> workstations db →
   ∃ db',
     create_workstation station db = (Ok station, db') ∧
     list_workstations db' = list_workstations db ++ [station] ∧
     workers db' = workers db ∧
     events db' = events db ∧
     get_workstation (Workstation.station_id station) db' = Ok station ∧
     (∀ other, other ≠ Workstation.station_id station →
               get_workstation other db' = get_workstation other db) ∧
     (NoDup (Workstation.station_id <$> workstations db) →
      NoDup (Workstation.station_id <$> workstations db'))).
Proof.
  unfold create_workstation, insert_workstation, first_workstation. split.
  - intros Hin. destruct (head _) eqn:E; [done|].
    apply head_filter_key in E. done.
  - intros Hnew. rewrite (proj2 (head_filter_key _ _ _) Hnew).
    rewrite decide_False by done. eexists. split; [reflexivity|].
    unfold get_workstation, list_workstations.
    split_and!; try done.
    + by rewrite get_workstation_registered.
    + intros other Hne. by rewrite first_workstation_other.
    + intros Hnd. simpl. rewrite fmap_app. apply NoDup_app.
      split_and!; [done| |apply NoDup_singleton].
      intros k Hk Hk'. apply list_elem_of_singleton in Hk'. by subst.
Qed.

(** X15. A worker lookup answers with a registered row of the requested
    identifier, and with 404 exactly when no worker has that identifier;
    likewise for workstations. *)
Theorem lookups_find_registered_rows (id : string) (db : Database) :
  (∀ w, get_worker id db = Ok w → w ∈ workers db ∧ Worker.worker_id w = id) ∧
  (id ∉ Worker.worker_id <$> workers db ↔
   get_worker id db =
     Raise (HTTPException 404 ("Worker '" +:+ id +:+ "' not found"))) ∧
  (∀ s, get_workstation id db = Ok s →
        s ∈ workstations db ∧ Workstation.station_id s = id) ∧
  (id ∉ Workstation.station_id <$> workstations db ↔
   get_workstation id db =
     Raise (HTTPException 404 ("Workstation '" +:+ id +:+ "' not found"))).
Proof.
  unfold get_worker, get_workstation, first_worker, first_workstation.
  split_and!.
  - intros w Hw. destruct (head _) as [w'|] eqn:E; [|done].
    injection Hw as ->. apply head_Some_elem_of in E.
    apply list_elem_of_filter in E. tauto.
  - rewrite <- head_filter_key. destruct (head _); split; done.
  - intros s Hs. destruct (head _) as [s'|] eqn:E; [|done].
    injection Hs as ->. apply head_Some_elem_of in E.
    apply list_elem_of_filter in E. tauto.
  - rewrite <- head_filter_key. destruct (head _); split; done.
Qed.

Lemma create_worker_fresh (worker : Worker.t) (db : Database) :
  Worker.worker_id worker ∉ Worker.worker_id <$> workers db →
  ∃ db',
    create_worker worker db = (Ok worker, db') ∧
    workers db' = workers db ++ [worker] ∧
    workstations db' = workstations db ∧
    events db' = events db.
Proof.
  intros Hnew. unfold create_worker, insert_worker, first_worker.
  rewrite (proj2 (head_filter_key _ _ _) Hnew), decide_False by done.
  eexists. split; [reflexivity|]. done.
Qed.

(** X16. Ingestion never registers a worker, registration does: a
    submission naming an unregistered worker is refused with 400 and
    leaves the database as it is; once that worker has been registered,
    the same submission (registered workstation, fresh key, a count that
    fits the [Integer] column) is stored. *)
Theorem registration_enables_ingestion
    (now : Z) (event : EventCreate.t) (worker : Worker.t) (db : Database)
    (Hworker : Worker.worker_id worker = EventCreate.worker_id event)
    (Hnew : EventCreate.worker_id event ∉ Worker.worker_id <$> workers db)
    (Hstation : EventCreate.workstation_id event ∈
                Workstation.station_id <$> workstations db)
    (Hfresh : create_key event ∉ dedup_key <$> events db)
    (Hfit : count_fits event) :
  (∃ detail, ingest_event now event db = (Raise (HTTPException 400 detail), db)) ∧
  ∃ db1,
    create_worker worker db = (Ok worker, db1) ∧
    ingest_event now event db1 =
      (Ok (make_event event now),
       with_events db1 (events db ++ [make_event event now])).
Proof.
  split.
  - destruct (ingest_event_cases now event db)
      as [(_ & d & Hd)|[(Hok & _)|[(Hok & _)|(Hok & _)]]]; [by eauto|..];
      exfalso; apply Hok; by left.
  - destruct (create_worker_fresh worker db) as (db1 & Hc & Hw & Hs & He);
      [by rewrite Hworker|].
    exists db1. split; [done|].
    destruct (ingest_event_cases now event db1)
      as [(Hf & _)|[(_ & _ & Hdup & _)|[(_ & _ & _ & Hrun)|(_ & Hno & _)]]].
    + exfalso. destruct Hf as [Hf|Hf]; apply Hf.
      * rewrite Hw, fmap_app, elem_of_app. right. rewrite <- Hworker. by left.
      * by rewrite Hs.
    + exfalso. apply Hfresh. by rewrite <- He.
    + by rewrite Hrun, He.
    + done.
Qed.

(** * Seeding and reset *)

Lemma seed_worker_loop db (l : list Worker.t) (acc : list Worker.t) (n : Z) :
  foldl (seed_worker_step db) (acc, n) l =
  (acc ++ filter (λ w, Worker.worker_id w ∉ Worker.worker_id <$> workers db) l,
   n + len (filter (λ w, Worker.worker_id w ∉ Worker.worker_id <$> workers db) l)).
Proof.
  revert acc n. induction l as [|w l IH]; intros acc n.
  { simpl. rewrite app_nil_r. unfold len. simpl. f_equal. lia. }
  simpl foldl. unfold seed_worker_step at 2, first_worker.
  destruct (head _) eqn:E.
  - rewrite filter_cons_False; [apply IH|].
    intros Hn. apply head_filter_key in Hn. congruence.
  - apply head_filter_key in E. rewrite filter_cons_True by done.
    simpl. rewrite IH, <- app_assoc. f_equal.
    unfold len. simpl length. lia.
Qed.

Lemma seed_workstation_loop db (l : list Workstation.t)
    (acc : list Workstation.t) (n : Z) :
  foldl (seed_workstation_step db) (acc, n) l =
  (acc ++ filter (λ s, Workstation.station_id s ∉
                       Workstation.station_id <$> workstations db) l,
   n + len (filter (λ s, Workstation.station_id s ∉
                         Workstation.station_id <$> workstations db) l)).
Proof.
  revert acc n. induction l as [|s l IH]; intros acc n.
  { simpl. rewrite app_nil_r. unfold len. simpl. f_equal. lia. }
  simpl foldl. unfold seed_workstation_step at 2, first_workstation.
  destruct (head _) eqn:E.
  - rewrite filter_cons_False; [apply IH|].
    intros Hn. apply head_filter_key in Hn. congruence.
  - apply head_filter_key in E. rewrite filter_cons_True by done.
    simpl. rewrite IH, <- app_assoc. f_equal.
    unfold len. simpl length. lia.
Qed.

Lemma insert_workers_fresh (ws : list Worker.t) (db : Database) :
  NoDup (Worker.worker_id <$> ws) →
  Forall (λ w, Worker.worker_id w ∉ Worker.worker_id <$> workers db) ws →
  insert_workers ws db =
  Ok {| workers := workers db ++ ws; workstations := workstations db;
        events := events db |}.
Proof.
  revert db. induction ws as [|w ws IH]; intros db Hnd Hall.
  { simpl. rewrite app_nil_r. by destruct db. }
  rewrite fmap_cons in Hnd. apply NoDup_cons in Hnd as [Hw Hnd].
  apply Forall_cons in Hall as [Hnew Hall].
  simpl. unfold insert_worker at 1. rewrite decide_False by done. simpl.
  set (db1 := {| workers := workers db ++ [w]; workstations := workstations db;
                 events := events db |}).
  assert (Hrest : Forall (λ x, Worker.worker_id x ∉ Worker.worker_id <$> workers db1) ws).
  { apply Forall_forall. intros x Hx. simpl.
    rewrite fmap_app, elem_of_app. intros [Hin|Hin].
    - rewrite Forall_forall in Hall. by apply (Hall x).
    - apply list_elem_of_singleton in Hin. apply Hw. rewrite <- Hin.
      by apply list_elem_of_fmap_2. }
  rewrite (IH db1 Hnd Hrest). simpl. by rewrite <- app_assoc.
Qed.

Lemma insert_workstations_fresh (ss : list Workstation.t) (db : Database) :
  NoDup (Workstation.station_id <$> ss) →
  Forall (λ s, Workstation.station_id s ∉
               Workstation.station_id <$> workstations db) ss →
  insert_workstations ss db =
  Ok {| workers := workers db; workstations := workstations db ++ ss;
        events := events db |}.
Proof.
  revert db. induction ss as [|s ss IH]; intros db Hnd Hall.
  { simpl. rewrite app_nil_r. by destruct db. }
  rewrite fmap_cons in Hnd. apply NoDup_cons in Hnd as [Hs Hnd].
  apply Forall_cons in Hall as [Hnew Hall].
  simpl. unfold insert_workstation at 1. rewrite decide_False by done. simpl.
  set (db1 := {| workers := workers db; workstations := workstations db ++ [s];
                 events := events db |}).
  assert (Hrest : Forall (λ x, Workstation.station_id x ∉
                               Workstation.station_id <$> workstations db1) ss).
  { apply Forall_forall. intros x Hx. simpl.
    rewrite fmap_app, elem_of_app. intros [Hin|Hin].
    - rewrite Forall_forall in Hall. by apply (Hall x).
    - apply list_elem_of_singleton in Hin. apply Hs. rewrite <- Hin.
      by apply list_elem_of_fmap_2. }
  rewrite (IH db1 Hnd Hrest). simpl. by rewrite <- app_assoc.
Qed.

Lemma NoDup_fmap_filter {A K} (f : A → K) (P : A → Prop)
    `{!∀ x, Decision (P x)} (l : list A) :
  NoDup (f <$> l) → NoDup (f <$> filter P l).
Proof.
  induction l as [|x l IH]; [done|].
  rewrite fmap_cons. intros [Hx Hnd]%NoDup_cons.
  destruct (decide (P x)).
  - rewrite filter_cons_True by done. rewrite fmap_cons. apply NoDup_cons.
    split; [|by apply IH]. intros Hin. apply Hx.
    apply list_elem_of_fmap in Hin as (y & -> & Hy).
    apply list_elem_of_filter in Hy as [_ Hy]. by apply list_elem_of_fmap_2.
  - rewrite filter_cons_False by done. by apply IH.
Qed.

Lemma sample_ids_unique :
  NoDup (Worker.worker_id <$> SAMPLE_WORKERS) ∧
  NoDup (Workstation.station_id <$> SAMPLE_WORKSTATIONS).
Proof. split; apply (bool_decide_unpack _); vm_compute; exact I. Qed.

(** The database [seed_sample_data] commits. *)
Lemma seed_sample_data_result (db : Database) :
  let missing_w :=
    filter (λ w, Worker.worker_id w ∉ Worker.worker_id <$> workers db)
      SAMPLE_WORKERS in
  let missing_s :=
    filter (λ s, Workstation.station_id s ∉
                 Workstation.station_id <$> workstations db)
      SAMPLE_WORKSTATIONS in
  seed_sample_data db =
  (Ok (len missing_w, len missing_s),
   {| workers := workers db ++ missing_w;
      workstations := workstations db ++ missing_s;
      events := events db |}).
Proof.
  cbv zeta. unfold seed_sample_data.
  rewrite seed_worker_loop, seed_workstation_loop. simpl app.
  destruct sample_ids_unique as [Hw Hs].
  rewrite (insert_workers_fresh _ db);
    [|by apply NoDup_fmap_filter
     |apply Forall_forall; by intros x [? _]%list_elem_of_filter].
  simpl. rewrite insert_workstations_fresh;
    [reflexivity
    |by apply NoDup_fmap_filter
    |apply Forall_forall; by intros x [? _]%list_elem_of_filter].
Qed.

(** X17. Seeding never fails and only fills gaps: it appends to the
    [workers] table exactly the sample workers whose identifier is not
    registered yet, in the order of [SAMPLE_WORKERS], and likewise for the
    workstations; it returns the numbers of rows it appended; it leaves
    every existing row and the [events] table as they are; afterwards
    every sample identifier is registered, and unique identifiers stay
    unique. *)
Theorem seed_sample_data_fills_gaps (db : Database) :
  let missing_w :=
    filter (λ w, Worker.worker_id w ∉ Worker.worker_id <$> workers db)
      SAMPLE_WORKERS in
  let missing_s :=
    filter (λ s, Workstation.station_id s ∉
                 Workstation.station_id <$> workstations db)
      SAMPLE_WORKSTATIONS in
  ∃ db',
    seed_sample_data db = (Ok (len missing_w, len missing_s), db') ∧
    workers db' = workers db ++ missing_w ∧
    workstations db' = workstations db ++ missing_s ∧
    events db' = events db ∧
    (∀ w, w ∈ SAMPLE_WORKERS →
          Worker.worker_id w ∈ Worker.worker_id <$> workers db') ∧
    (∀ s, s ∈ SAMPLE_WORKSTATIONS →
          Workstation.station_id s ∈ Workstation.station_id <$> workstations db') ∧
    (NoDup (Worker.worker_id <$> workers db) →
     NoDup (Worker.worker_id <$> workers db')) ∧
    (NoDup (Workstation.station_id <$> workstations db) →
     NoDup (Workstation.station_id <$> workstations db')).
Proof.
  destruct sample_ids_unique as [Hw Hs]. cbv zeta.
  eexists. split; [apply seed_sample_data_result|]. simpl.
  split_and!; try done.
  - intros w Hin. rewrite fmap_app, elem_of_app.
    destruct (decide (Worker.worker_id w ∈ Worker.worker_id <$> workers db));
      [by left|right].
    by apply list_elem_of_fmap_2, list_elem_of_filter.
  - intros s Hin. rewrite fmap_app, elem_of_app.
    destruct (decide (Workstation.station_id s ∈
                      Workstation.station_id <$> workstations db));
      [by left|right].
    by apply list_elem_of_fmap_2, list_elem_of_filter.
  - intros Hnd. rewrite fmap_app. apply NoDup_app.
    split_and!; [done| |by apply NoDup_fmap_filter].
    intros k Hk Hin. apply list_elem_of_fmap in Hin as (w & -> & Hw').
    by apply list_elem_of_filter in Hw' as [? _].
  - intros Hnd. rewrite fmap_app. apply NoDup_app.
    split_and!; [done| |by apply NoDup_fmap_filter].
    intros k Hk Hin. apply list_elem_of_fmap in Hin as (s & -> & Hs').
    by apply list_elem_of_filter in Hs' as [? _].
Qed.

Lemma filter_none {A} (P : A → Prop) `{!∀ x, Decision (P x)} (l : list A) :
  Forall (λ x, ¬ P x) l → filter P l = [].
Proof.
  induction 1 as [|x l Hx _ IH]; [done|]. by rewrite filter_cons_False.
Qed.

(** X18. Seeding is idempotent: a second call right after the first
    creates nothing, reports [(0, 0)] and leaves the database as the first
    call left it. *)
Theorem seed_sample_data_is_idempotent (db : Database) :
  seed_sample_data (seed_sample_data db).2 =
  (Ok (0, 0), (seed_sample_data db).2).
Proof.
  rewrite (seed_sample_data_result db). simpl.
  rewrite seed_sample_data_result. simpl.
  set (mw := filter (λ w, Worker.worker_id w ∉ Worker.worker_id <$> workers db)
               SAMPLE_WORKERS).
  set (ms := filter (λ s, Workstation.station_id s ∉
                          Workstation.station_id <$> workstations db)
               SAMPLE_WORKSTATIONS).
  assert (Hw : filter (λ w, Worker.worker_id w ∉
                            Worker.worker_id <$> workers db ++ mw)
                 SAMPLE_WORKERS = []).
  { apply filter_none, Forall_forall. intros w Hin Hnot. apply Hnot.
    rewrite fmap_app, elem_of_app.
    destruct (decide (Worker.worker_id w ∈ Worker.worker_id <$> workers db));
      [by left|right].
    by apply list_elem_of_fmap_2, list_elem_of_filter. }
  assert (Hs : filter (λ s, Workstation.station_id s ∉
                            Workstation.station_id <$> workstations db ++ ms)
                 SAMPLE_WORKSTATIONS = []).
  { apply filter_none, Forall_forall. intros s Hin Hnot. apply Hnot.
    rewrite fmap_app, elem_of_app.
    destruct (decide (Workstation.station_id s ∈
                      Workstation.station_id <$> workstations db));
      [by left|right].
    by apply list_elem_of_fmap_2, list_elem_of_filter. }
  rewrite Hw, Hs, !app_nil_r. reflexivity.
Qed.

Lemma time_filters_nil st en : time_filters st en [] = [].
Proof. by destruct st, en. Qed.

(** X19. Reset: [clear_all_events] returns the number of stored events and
    empties the [events] table without touching workers or workstations;
    afterwards the count endpoint answers 0 for every filter, every worker
    still has a row and that row is all zero, and the factory metrics are
    all zero with no active entity. *)
Theorem clear_all_events_resets_metrics
    (db : Database) (wid sid ty : option string)
    (start_time end_time : option Z) :
  let db' := (clear_all_events db).2 in
  (clear_all_events db).1 = len (events db) ∧
  events db' = [] ∧ workers db' = workers db ∧
  workstations db' = workstations db ∧
  count_events wid sid ty start_time end_time db' = 0 ∧
  compute_worker_metrics db' None start_time end_time =
    Ok ((λ w, {| WorkerMetrics.worker_id := Worker.worker_id w;
                 WorkerMetrics.worker_name := Worker.name w;
                 WorkerMetrics.total_active_time_minutes := 0;
                 WorkerMetrics.total_idle_time_minutes := 0;
                 WorkerMetrics.total_absent_time_minutes := 0;
                 WorkerMetrics.utilization_percentage := 0;
                 WorkerMetrics.total_units_produced := 0;
                 WorkerMetrics.units_per_hour := 0;
                 WorkerMetrics.event_count := 0 |}) <$> workers db) ∧
  compute_factory_metrics db' start_time end_time =
    Ok {| FactoryMetrics.total_productive_time_minutes := 0;
          FactoryMetrics.total_idle_time_minutes := 0;
          FactoryMetrics.total_production_count := 0;
          FactoryMetrics.average_production_rate := 0;
          FactoryMetrics.average_worker_utilization := 0;
          FactoryMetrics.average_workstation_utilization := 0;
          FactoryMetrics.total_events := 0;
          FactoryMetrics.active_workers := 0;
          FactoryMetrics.active_workstations := 0 |}.
Proof.
  cbv zeta. unfold clear_all_events. simpl.
  assert (Hw : ∀ w, worker_row_value
                  {| workers := workers db; workstations := workstations db;
                     events := [] |} start_time end_time w =
                {| WorkerMetrics.worker_id := Worker.worker_id w;
                   WorkerMetrics.worker_name := Worker.name w;
                   WorkerMetrics.total_active_time_minutes := 0;
                   WorkerMetrics.total_idle_time_minutes := 0;
                   WorkerMetrics.total_absent_time_minutes := 0;
                   WorkerMetrics.utilization_percentage := 0;
                   WorkerMetrics.total_units_produced := 0;
                   WorkerMetrics.units_per_hour := 0;
                   WorkerMetrics.event_count := 0 |}).
  { intros w. unfold worker_row_value, worker_events. simpl.
    by rewrite time_filters_nil. }
  assert (Hs : ∀ s, WorkstationMetrics.event_count
                (station_row_value
                   {| workers := workers db; workstations := workstations db;
                      events := [] |} start_time end_time s) = 0).
  { intros s. unfold station_row_value, station_events. simpl.
    by rewrite time_filters_nil. }
  split_and!; try done.
  - unfold count_events, event_filters. simpl.
    destruct (truthy wid), (truthy sid), (truthy ty); simpl;
      by rewrite ?filter_nil, time_filters_nil.
  - rewrite compute_worker_metrics_eq. f_equal.
    apply list_fmap_ext. intros _ w _. apply Hw.
  - rewrite compute_factory_metrics_eq. unfold factory_value. simpl.
    rewrite time_filters_nil.
    rewrite (list_fmap_ext _ _ (workers db) (λ _ w _, Hw w)).
    rewrite !filter_none; [reflexivity| |].
    + apply Forall_fmap, Forall_forall. intros s _.
      cbv beta delta [compose]. rewrite Hs. lia.
    + apply Forall_fmap, Forall_forall. intros w _. simpl. lia.
Qed.

(** * Dashboard *)

Lemma worker_events_le db st en wid :
  len (worker_events db st en wid) ≤ len (time_filters st en (events db)).
Proof.
  rewrite worker_events_by_key. unfold len.
  pose proof (length_filter (λ e, Event.worker_id e = wid)
                (time_filters st en (events db))). lia.
Qed.

Lemma station_events_le db st en sid :
  len (station_events db st en sid) ≤ len (time_filters st en (events db)).
Proof.
  rewrite station_events_by_key. unfold len.
  pose proof (length_filter (λ e, Event.workstation_id e = sid)
                (time_filters st en (events db))). lia.
Qed.

(** X20. The dashboard never fails and its three parts fit together: it
    has one row per registered worker and per registered workstation, in
    table order; no row counts more events than the factory's
    [total_events]; [active_workers] and [active_workstations] are the
    numbers of rows with at least one event, so at most the numbers of
    registered entities; and [last_updated] is the clock reading of the
    call. *)
Theorem dashboard_parts_fit_together
    (db : Database) (start_time end_time : option Z) (now : Z) :
  ∃ d,
    get_dashboard_summary db start_time end_time now = Ok d ∧
    DashboardSummary.last_updated d = now ∧
    WorkerMetrics.worker_id <$> DashboardSummary.worker_metrics d =
      Worker.worker_id <$> workers db ∧
    WorkstationMetrics.station_id <$> DashboardSummary.workstation_metrics d =
      Workstation.station_id <$> workstations db ∧
    Forall (λ m, WorkerMetrics.event_count m ≤
                 FactoryMetrics.total_events (DashboardSummary.factory_metrics d))
      (DashboardSummary.worker_metrics d) ∧
    Forall (λ m, WorkstationMetrics.event_count m ≤
                 FactoryMetrics.total_events (DashboardSummary.factory_metrics d))
      (DashboardSummary.workstation_metrics d) ∧
    FactoryMetrics.active_workers (DashboardSummary.factory_metrics d) =
      len (filter (λ m, 0 < WorkerMetrics.event_count m)
             (DashboardSummary.worker_metrics d)) ∧
    FactoryMetrics.active_workstations (DashboardSummary.factory_metrics d) =
      len (filter (λ m, 0 < WorkstationMetrics.event_count m)
             (DashboardSummary.workstation_metrics d)) ∧
    FactoryMetrics.active_workers (DashboardSummary.factory_metrics d)
      ≤ len (workers db) ∧
    FactoryMetrics.active_workstations (DashboardSummary.factory_metrics d)
      ≤ len (workstations db).
Proof.
  unfold get_dashboard_summary.
  rewrite compute_factory_metrics_eq, compute_worker_metrics_eq,
    compute_workstation_metrics_eq. simpl.
  eexists. split; [reflexivity|]. simpl.
  unfold select_workers, select_stations. simpl.
  split_and!; try done.
  - rewrite <- list_fmap_compose. done.
  - rewrite <- list_fmap_compose. done.
  - apply Forall_fmap, Forall_forall. intros w _. apply worker_events_le.
  - apply Forall_fmap, Forall_forall. intros s _. apply station_events_le.
  - unfold len. etransitivity; [apply inj_le, length_filter|].
    by rewrite length_fmap.
  - unfold len. etransitivity; [apply inj_le, length_filter|].
    by rewrite length_fmap.
Qed.

(** * Batch and single submissions *)

Lemma ingest_each_keys (now : Z) (db : Database) (batch : list EventCreate.t)
    (evs : list Event.t) :
  Forall count_fits batch →
  NoDup ((dedup_key <$> evs) ++
         (create_key <$> filter (λ ev, ¬ fails_reference db ev) batch)) →
  ∃ evs',
    ingest_each now batch (with_events db evs) = with_events db evs' ∧
    dedup_key <$> evs' =
      (dedup_key <$> evs) ++
      (create_key <$> filter (λ ev, ¬ fails_reference db ev) batch).
Proof.
  revert evs. induction batch as [|event batch IH]; intros evs Hfit Hnd.
  { exists evs. simpl. by rewrite app_nil_r. }
  apply Forall_cons in Hfit as [Hhd Htl].
  unfold ingest_each. simpl foldl. fold (ingest_each now batch).
  destruct (ingest_event_cases now event (with_events db evs))
    as [(Hf & d & ->)|[(Hok & _ & Hdup & _)|[(Hok & _ & _ & ->)|(_ & Hno & _)]]];
    simpl.
  - change (fails_reference db event) in Hf.
    rewrite filter_cons_False in Hnd |- * by tauto. by apply IH.
  - change (¬ fails_reference db event) in Hok. simpl in Hdup. exfalso.
    rewrite filter_cons_True, fmap_cons in Hnd by done.
    apply NoDup_app in Hnd as (_ & Hdisj & _). apply (Hdisj _ Hdup). left.
  - change (¬ fails_reference db event) in Hok.
    rewrite filter_cons_True in Hnd |- * by done.
    destruct (IH (evs ++ [make_event event now])) as (evs' & Hrun & Hkeys);
      [done| |].
    { rewrite fmap_app, <- app_assoc. by rewrite fmap_cons in Hnd. }
    exists evs'. split; [exact Hrun|].
    rewrite Hkeys, fmap_app, <- app_assoc. done.
  - done.
Qed.

(** X21. Without collisions a batch is the same as its items sent one by
    one: when the submitted counts fit the [Integer] column and the valid
    items of a batch have keys that are pairwise distinct and not stored
    yet, the batch call and the sequence of single calls leave the same
    deduplication keys in the [events] table, in the same order (items that
    fail reference validation are skipped by both). *)
Theorem collision_free_batch_equals_single_calls
    (now : Z) (utcnow : nat → Z) (batch : list EventCreate.t) (db : Database)
    (Hfit : Forall count_fits batch)
    (Hfree : NoDup ((dedup_key <$> events db) ++
                    (create_key <$> filter (λ ev, ¬ fails_reference db ev) batch))) :
  dedup_key <$> events (ingest_events_batch utcnow batch db).2 =
  dedup_key <$> events (ingest_each now batch db) ∧
  workers (ingest_each now batch db) = workers db ∧
  workstations (ingest_each now batch db) = workstations db.
Proof.
  destruct (ingest_each_keys now db batch (events db) Hfit Hfree)
    as (evs' & Hrun & Hkeys).
  assert (Hdb : with_events db (events db) = db) by (by destruct db).
  rewrite Hdb in Hrun. rewrite Hrun. simpl.
  split; [|done]. rewrite Hkeys.
  destruct (ingest_events_batch_returns utcnow batch db)
    as (st & Hloop & ->); [by apply counts_fit_valid|].
  simpl.
  apply batch_loop_without_collisions in Hloop as (J1 & _);
    [|done|by simpl; rewrite app_nil_r].
  simpl in J1. by rewrite fmap_app, J1.
Qed.

(** * Instances of the further properties at concrete inputs *)

Lemma workstation_metrics_occupancy_witness :
  ∃ m,
    compute_workstation_metrics absent_db None None None = Ok [m] ∧
    WorkstationMetrics.utilization_percentage m = 0%Q ∧
    WorkstationMetrics.throughput_rate m = 0%Q.
Proof.
  destruct (workstation_metrics_occupancy absent_db None None None)
    as (ms & Hms & HF).
  change (requested_stations absent_db None)
    with [Workstation.mk "S1" "Assembly Line A" (Some "Assembly")] in HF.
  apply Forall2_cons_inv_l in HF as (m & ms' & Hm & HF & ->).
  apply Forall2_nil_inv_l in HF as ->.
  destruct Hm as (_ & _ & _ & _ & _ & _ & _ & _ & _ & _ & Hzero & _).
  exists m. split; [exact Hms|]. apply Hzero. vm_compute. reflexivity.
Defined.

Lemma single_workstation_query_degrades_to_zero_witness :
  get_workstation_metrics line_db "S1" None None =
    Ok {| WorkstationMetrics.station_id := "S1";
          WorkstationMetrics.station_name := "Assembly Line A";
          WorkstationMetrics.station_type := Some "Assembly";
          WorkstationMetrics.occupancy_time_minutes := 0;
          WorkstationMetrics.working_time_minutes := 0;
          WorkstationMetrics.idle_time_minutes := 0;
          WorkstationMetrics.utilization_percentage := 0;
          WorkstationMetrics.total_units_produced := 0;
          WorkstationMetrics.throughput_rate := 0;
          WorkstationMetrics.event_count := 0 |} ∧
  get_workstation_metrics line_db "S9" None None =
    Ok {| WorkstationMetrics.station_id := "S9";
          WorkstationMetrics.station_name := "Unknown";
          WorkstationMetrics.station_type := None;
          WorkstationMetrics.occupancy_time_minutes := 0;
          WorkstationMetrics.working_time_minutes := 0;
          WorkstationMetrics.idle_time_minutes := 0;
          WorkstationMetrics.utilization_percentage := 0;
          WorkstationMetrics.total_units_produced := 0;
          WorkstationMetrics.throughput_rate := 0;
          WorkstationMetrics.event_count := 0 |}.
Proof.
  split.
  - destruct (single_workstation_query_degrades_to_zero line_db "S1" None None)
      as (_ & Hregistered & _); [discriminate|by_evaluation|].
    apply (Hregistered (Workstation.mk "S1" "Assembly Line A" (Some "Assembly")));
      [left|reflexivity|by_evaluation].
  - destruct (single_workstation_query_degrades_to_zero line_db "S9" None None)
      as (_ & _ & Hunknown); [discriminate|by_evaluation|].
    apply Hunknown. by_evaluation.
Defined.

Lemma factory_totals_are_sums_of_rows_witness :
  ∃ fm wms,
    compute_factory_metrics throughput_db None None = Ok fm ∧
    compute_worker_metrics throughput_db None None None = Ok wms ∧
    FactoryMetrics.total_events fm = sumZ (WorkerMetrics.event_count <$> wms) ∧
    FactoryMetrics.total_events fm = 15.
Proof.
  destruct (factory_totals_are_sums_of_rows throughput_db None None)
    as (fm & wms & sms & Hfm & Hwms & _ & Hworkers & _).
  exists fm, wms. split; [exact Hfm|]. split; [exact Hwms|].
  destruct Hworkers as (Hevents & _); [by_evaluation|by_evaluation|].
  split; [exact Hevents|].
  rewrite compute_factory_metrics_eq in Hfm. injection Hfm as <-.
  vm_compute. reflexivity.
Defined.

Lemma wider_window_never_reports_less_witness :
  ∃ narrow wide,
    compute_worker_metrics throughput_db (Some "W1") (Some 3) (Some 8) = Ok [narrow] ∧
    compute_worker_metrics throughput_db (Some "W1") (Some 1) None = Ok [wide] ∧
    WorkerMetrics.event_count narrow ≤ WorkerMetrics.event_count wide.
Proof.
  destruct (wider_window_never_reports_less throughput_db (Some "W1")
              (Some 3) (Some 8) (Some 1) None)
    as (narrow & wide & Hn & Hw & HF).
  { intros ts. unfold in_range. simpl. lia. }
  rewrite compute_worker_metrics_eq in Hn, Hw.
  injection Hn as <-. injection Hw as <-.
  change (select_workers throughput_db (Some "W1"))
    with [Worker.mk "W1" "John Martinez"] in HF.
  apply Forall2_cons_1 in HF as [(_ & Hcount & _) _].
  do 2 eexists. split; [reflexivity|]. split; [reflexivity|]. exact Hcount.
Defined.

Lemma metrics_ignore_unread_fields_witness :
  compute_factory_metrics stored_db None None =
  compute_factory_metrics (with_events line_db [reread_event]) None None.
Proof.
  apply (metrics_ignore_unread_fields line_db
           [sample_event 1 "W1" "S1" "working" (Some 0)] [reread_event]
           None None None None).
  constructor; [|constructor].
  unfold same_reading. simpl. split_and!; try reflexivity. discriminate.
Defined.

Lemma ingestion_keeps_references_registered_witness :
  Forall (references_registered stored_db)
    (events (ingest_events_batch (λ _, 50) fresh_batch stored_db).2).
Proof.
  apply (ingestion_keeps_references_registered 0 (λ _, 50)
           working_with_count fresh_batch stored_db).
  constructor; [|constructor]. split; by_evaluation.
Defined.

Lemma stored_counter_bounds_added_rows_witness :
  ∃ r db',
    ingest_events_batch (λ _, 50) fresh_batch stored_db = (Ok r, db') ∧
    len (events db') = len (events stored_db) +
                       EventIngestionResult.successfully_stored r.
Proof.
  destruct (stored_counter_bounds_added_rows (λ _, 50) fresh_batch stored_db)
    as (r & db' & Hrun & _ & Hexact); [by_evaluation|].
  exists r, db'. split; [exact Hrun|]. apply Hexact.
  assert (Hr : (ingest_events_batch (λ _, 50) fresh_batch stored_db).1 = Ok r)
    by (by rewrite Hrun).
  vm_compute in Hr. injection Hr as <-. reflexivity.
Defined.

Lemma single_ingestion_outcome_witness :
  ingest_event 0 (sample_create 5 "W9" "S9" "idle" None) stored_db =
    (Raise (HTTPException 400 "Worker 'W9' not found"), stored_db) ∧
  ingest_event 0 (sample_create 5 "W1" "S9" "idle" None) stored_db =
    (Raise (HTTPException 400 "Workstation 'S9' not found"), stored_db) ∧
  ingest_event 0 (sample_create 1 "W1" "S1" "product_count" (Some (2 ^ 63)))
    stored_db = (Raise OverflowError, stored_db) ∧
  ingest_event 0 (sample_create 1 "W1" "S1" "working" None) stored_db =
    (Raise (HTTPException 409
       "Duplicate event detected (same timestamp, worker, workstation, event_type)"),
     stored_db) ∧
  (ingest_event 0 (sample_create 5 "W1" "S1" "idle" None) stored_db).1 =
    Ok (make_event (sample_create 5 "W1" "S1" "idle" None) 0).
Proof.
  split_and!.
  - apply (single_ingestion_outcome 0 (sample_create 5 "W9" "S9" "idle" None)
             stored_db). by_evaluation.
  - apply (single_ingestion_outcome 0 (sample_create 5 "W1" "S9" "idle" None)
             stored_db); by_evaluation.
  - apply (single_ingestion_outcome 0
             (sample_create 1 "W1" "S1" "product_count" (Some (2 ^ 63)))
             stored_db); [|by_evaluation].
    unfold fails_reference. intros [H|H]; apply H; by_evaluation.
  - apply (single_ingestion_outcome 0 (sample_create 1 "W1" "S1" "working" None)
             stored_db); [|by_evaluation|by_evaluation].
    unfold fails_reference. intros [H|H]; apply H; by_evaluation.
  - destruct (single_ingestion_outcome 0 (sample_create 5 "W1" "S1" "idle" None)
                stored_db) as (_ & _ & _ & _ & Hstore).
    destruct Hstore as [-> _]; [|by_evaluation|by_evaluation|reflexivity].
    unfold fails_reference. intros [H|H]; apply H; by_evaluation.
Defined.

Lemma list_events_returns_a_sorted_page_witness :
  list_events (Some "W1") None (Some "idle") None None 100 0 throughput_db ≡ₚ
  event_filters (Some "W1") None (Some "idle") None None (events throughput_db).
Proof.
  apply (list_events_returns_a_sorted_page (Some "W1") None (Some "idle")
           None None 100 0 throughput_db); [reflexivity|].
  vm_compute. discriminate.
Defined.

Lemma count_events_agrees_with_metrics_witness :
  ∃ ms m,
    compute_worker_metrics throughput_db None None None = Ok ms ∧ m ∈ ms ∧
    count_events (Some "W1") None None None None throughput_db =
      WorkerMetrics.event_count m.
Proof.
  destruct (count_events_agrees_with_metrics throughput_db None None
              (Worker.mk "W1" "John Martinez")) as (_ & _ & Hworker).
  destruct Hworker as (ms & Hms & m & Hm & _ & Hcount); [left|discriminate|].
  exists ms, m. done.
Defined.

Lemma create_worker_registers_once_witness :
  create_worker (Worker.mk "W1" "Someone Else") line_db =
    (Raise (HTTPException 409 "Worker 'W1' already exists"), line_db) ∧
  ∃ db',
    create_worker (Worker.mk "W2" "Sarah Chen") line_db =
      (Ok (Worker.mk "W2" "Sarah Chen"), db') ∧
    get_worker "W2" db' = Ok (Worker.mk "W2" "Sarah Chen") ∧
    NoDup (Worker.worker_id <$> workers db').
Proof.
  split.
  - apply (create_worker_registers_once (Worker.mk "W1" "Someone Else") line_db).
    by_evaluation.
  - destruct (create_worker_registers_once (Worker.mk "W2" "Sarah Chen") line_db)
      as (_ & Hnew).
    destruct Hnew as (db' & Hrun & _ & _ & _ & Hget & _ & Hnd); [by_evaluation|].
    exists db'. split_and!; [done|done|]. apply Hnd. by_evaluation.
Defined.

Lemma create_workstation_registers_once_witness :
  create_workstation (Workstation.mk "S1" "Another Line" None) line_db =
    (Raise (HTTPException 409 "Workstation 'S1' already exists"), line_db) ∧
  ∃ db',
    create_workstation (Workstation.mk "S2" "Assembly Line B" (Some "Assembly"))
      line_db =
      (Ok (Workstation.mk "S2" "Assembly Line B" (Some "Assembly")), db') ∧
    get_workstation "S2" db' =
      Ok (Workstation.mk "S2" "Assembly Line B" (Some "Assembly")) ∧
    NoDup (Workstation.station_id <$> workstations db').
Proof.
  split.
  - apply (create_workstation_registers_once
             (Workstation.mk "S1" "Another Line" None) line_db).
    by_evaluation.
  - destruct (create_workstation_registers_once
                (Workstation.mk "S2" "Assembly Line B" (Some "Assembly")) line_db)
      as (_ & Hnew).
    destruct Hnew as (db' & Hrun & _ & _ & _ & Hget & _ & Hnd); [by_evaluation|].
    exists db'. split_and!; [done|done|]. apply Hnd. by_evaluation.
Defined.

Lemma lookups_find_registered_rows_witness :
  get_worker "W9" line_db =
    Raise (HTTPException 404 "Worker 'W9' not found") ∧
  get_workstation "S9" line_db =
    Raise (HTTPException 404 "Workstation 'S9' not found") ∧
  Worker.mk "W1" "John Martinez" ∈ workers line_db.
Proof.
  destruct (lookups_find_registered_rows "W9" line_db) as (_ & Hw & _).
  destruct (lookups_find_registered_rows "S9" line_db) as (_ & _ & _ & Hs).
  destruct (lookups_find_registered_rows "W1" line_db) as (Hfound & _).
  split_and!.
  - apply Hw. by_evaluation.
  - apply Hs. by_evaluation.
  - apply (Hfound (Worker.mk "W1" "John Martinez")). reflexivity.
Defined.

Lemma registration_enables_ingestion_witness :
  ∃ db1,
    create_worker (Worker.mk "W2" "Sarah Chen") line_db =
      (Ok (Worker.mk "W2" "Sarah Chen"), db1) ∧
    (ingest_event 0 (sample_create 5 "W2" "S1" "idle" None) db1).1 =
      Ok (make_event (sample_create 5 "W2" "S1" "idle" None) 0).
Proof.
  destruct (registration_enables_ingestion 0
              (sample_create 5 "W2" "S1" "idle" None)
              (Worker.mk "W2" "Sarah Chen") line_db)
    as (_ & db1 & Hcreate & Hrun);
    [reflexivity|by_evaluation|by_evaluation|by_evaluation|by_evaluation|].
  exists db1. split; [exact Hcreate|]. by rewrite Hrun.
Defined.

Lemma seed_sample_data_fills_gaps_witness :
  ∃ db',
    seed_sample_data line_db = (Ok (5, 5), db') ∧
    Worker.worker_id <$> workers db' = ["W1"; "W2"; "W3"; "W4"; "W5"; "W6"] ∧
    NoDup (Worker.worker_id <$> workers db') ∧
    NoDup (Workstation.station_id <$> workstations db').
Proof.
  destruct (seed_sample_data_fills_gaps line_db)
    as (db' & Hrun & Hworkers & _ & _ & _ & _ & Hw & Hs).
  exists db'. split_and!.
  - exact Hrun.
  - rewrite Hworkers. vm_compute. reflexivity.
  - apply Hw. by_evaluation.
  - apply Hs. by_evaluation.
Defined.

Lemma collision_free_batch_equals_single_calls_witness :
  dedup_key <$> events (ingest_events_batch (λ _, 50) fresh_batch stored_db).2 =
  dedup_key <$> events (ingest_each 0 fresh_batch stored_db).
Proof.
  apply (collision_free_batch_equals_single_calls 0 (λ _, 50) fresh_batch stored_db);
    by_evaluation.
Defined.

Lemma ingestion_keeps_dedup_key_unique_witness :
  NoDup (dedup_key <$> events (ingest_events_batch (λ _, 50) resend_batch stored_db).2).
Proof.
  apply (ingestion_keeps_dedup_key_unique 0 (λ _, 50) working_with_count
           resend_batch stored_db).
  by_evaluation.
Defined.

Lemma second_single_submission_conflicts_witness :
  rows_with_key (create_key working_with_count)
    (with_events line_db [make_event working_with_count 0]) = 1 ∧
  ∃ detail,
    ingest_event 9 working_with_count
      (with_events line_db [make_event working_with_count 0]) =
    (Raise (HTTPException 409 detail),
     with_events line_db [make_event working_with_count 0]).
Proof.
  apply (second_single_submission_conflicts 0 9 working_with_count
           working_with_count line_db
           (with_events line_db [make_event working_with_count 0])
           (make_event working_with_count 0)).
  - by_evaluation.
  - reflexivity.
  - by_evaluation.
  - vm_compute. reflexivity.
Defined.

Lemma reference_failures_do_not_affect_other_items_witness :
  ∃ r db',
    ingest_events_batch (λ _, 50) fresh_batch stored_db = (Ok r, db') ∧
    EventIngestionResult.successfully_stored r = 2 ∧
    EventIngestionResult.duplicates_skipped r = 0 ∧
    EventIngestionResult.errors r = ["Unknown worker_id: W9"].
Proof.
  destruct (reference_failures_do_not_affect_other_items (λ _, 50) fresh_batch
              stored_db) as (r & db' & Hrun & _ & Hstored & Hdup & Herr).
  { by_evaluation. }
  { by_evaluation. }
  exists r, db'. split_and!; [done| |done|].
  - rewrite Hstored. vm_compute. reflexivity.
  - rewrite Herr. vm_compute. reflexivity.
Defined.

Lemma unbindable_count_aborts_batch_witness :
  ingest_events_batch (λ _, 50) overflow_batch line_db =
    (Raise OverflowError, line_db) ∧
  ∃ r db', ingest_events_batch (λ _, 50) fresh_batch stored_db = (Ok r, db').
Proof.
  split.
  - apply (unbindable_count_aborts_batch (λ _, 50) overflow_batch line_db).
    by_evaluation.
  - apply (unbindable_count_aborts_batch (λ _, 50) fresh_batch stored_db).
    by_evaluation.
Defined.
